(** * Seat reservations of a cinema room (sistemacine5.py)

    A shallow embedding of [sistemacine5.py] and the properties of its
    seat ([Asiento]) and room ([SalaCine]) classes.

    Python values are modelled as the program meets them: booleans, integers
    of arbitrary size and binary64 floats (Rocq's primitive floats), with the
    numeric tower written out (a [bool] is an [int]; an [int] meeting a
    [float] is converted, which can raise [OverflowError]).  Exceptions are a
    result type carrying the exception class; the message of an exception is
    not modelled.  Methods that mutate [self] are functions from the state of
    the object to its new state and the outcome of the call, so what an
    exception leaves behind is part of the model.

    Text is ASCII.  A file is the text it holds, as Python's text layer
    hands it over (every end of line is a line feed); opening a file does
    not fail.  The limit CPython puts on the number of digits of an integer
    converted from or to text (4300, since Python 3.11) is modelled: it
    makes [str], the f-strings of the messages and [int] raise
    [ValueError].  [mostrar_asientos] and
    [__str__], which only print, and the driver [main] are left out. *)

From Stdlib Require Import ZArith Lia Bool Ascii String Floats.
From Stdlib Require Import DecimalString DecimalPos DecimalN.
From stdpp Require Import base list.

Set Warnings "-inexact-float".
Local Open Scope Z_scope.

(** ** Exceptions and the two monads of the model *)

Inductive exn :=
  | ValueError
  | OverflowError
  | AsientoReservadoError
  | AsientoNoReservadoError
  | AsientoNoEncontradoError
  | AsientoDuplicadoError.

Inductive result (A : Type) :=
  | Ok (a : A)
  | Raise (e : exn).
Arguments Ok {A} a.
Arguments Raise {A} e.

Definition rbind {A B} (r : result A) (k : A -> result B) : result B :=
  match r with
  | Ok a => k a
  | Raise e => Raise e
  end.

(** A method of an object whose state has type [S]: the state after the
    call comes with the value returned or the exception raised. *)
Definition M (S A : Type) : Type := S -> S * result A.

Definition ret {S A} (a : A) : M S A := fun s => (s, Ok a).
Definition raise {S A} (e : exn) : M S A := fun s => (s, Raise e).
Definition get {S} : M S S := fun s => (s, Ok s).
Definition modify {S} (f : S -> S) : M S unit := fun s => (f s, Ok tt).
Definition lift {S A} (r : result A) : M S A := fun s => (s, r).
Definition bind {S A B} (m : M S A) (k : A -> M S B) : M S B :=
  fun s =>
    match m s with
    | (s', Ok a) => k a s'
    | (s', Raise e) => (s', Raise e)
    end.

Declare Scope result_scope.
Delimit Scope result_scope with result.
Notation "x <- r ;; k" := (rbind r (fun x => k))
  (at level 100, r at next level, right associativity) : result_scope.

Declare Scope method_scope.
Delimit Scope method_scope with method.
Notation "x <- m ;; k" := (bind m (fun x => k))
  (at level 100, m at next level, right associativity) : method_scope.
Notation "m1 ;; m2" := (bind m1 (fun _ => m2))
  (at level 100, right associativity) : method_scope.

(** ** Python numbers *)

(** The values [isinstance(v, (int, float))] accepts; [bool] is a subclass
    of [int]. *)
Inductive number :=
  | NBool (b : bool)
  | NInt (z : Z)
  | NFloat (f : float).

(** What a caller can pass: a number, or something that is not one. *)
Inductive value :=
  | VNum (n : number)
  | VStr (s : string)
  | VNone.

Abbreviation VBool b := (VNum (NBool b)).
Abbreviation VInt z := (VNum (NInt z)).
Abbreviation VFloat f := (VNum (NFloat f)).

(** A number in arithmetic: an integer or a float. *)
Definition as_int (n : number) : option Z :=
  match n with
  | NBool b => Some (Z.b2z b)
  | NInt z => Some z
  | NFloat _ => None
  end.

(** [int.__float__]: round to nearest, ties to even; [OverflowError] when
    the integer is beyond the largest float. *)
Definition float_of_Z (z : Z) : result float :=
  match binary_normalize prec emax z 0 false with
  | S754_infinity _ => Raise OverflowError
  | sf => Ok (SF2Prim sf)
  end.

Definition to_float (n : number) : result float :=
  match n with
  | NFloat f => Ok f
  | NBool b => float_of_Z (Z.b2z b)
  | NInt z => float_of_Z z
  end.

Definition binop (iop : Z -> Z -> Z) (fop : float -> float -> float)
    (a b : number) : result number :=
  match as_int a, as_int b with
  | Some x, Some y => Ok (NInt (iop x y))
  | _, _ =>
      (x <- to_float a ;; y <- to_float b ;; Ok (NFloat (fop x y)))%result
  end.

Definition add : number -> number -> result number := binop Z.add PrimFloat.add.
Definition sub : number -> number -> result number := binop Z.sub PrimFloat.sub.
Definition mul : number -> number -> result number := binop Z.mul PrimFloat.mul.

(** Comparison is exact, also between an integer and a float; [None] when
    a NaN is involved. *)
Definition SFcompare_Z (x : spec_float) (z : Z) : option comparison :=
  match x with
  | S754_nan => None
  | S754_infinity s => Some (if s then Lt else Gt)
  | S754_zero _ => Some (0 ?= z)
  | S754_finite s m e =>
      let v := cond_Zopp s (Zpos m) in
      Some (if 0 <=? e then v * 2 ^ e ?= z else v ?= z * 2 ^ (- e))
  end.

Definition compare (a b : number) : option comparison :=
  match a, b with
  | NFloat x, NFloat y => SFcompare (Prim2SF x) (Prim2SF y)
  | NFloat x, _ =>
      match as_int b with
      | Some z => SFcompare_Z (Prim2SF x) z
      | None => None
      end
  | _, NFloat y =>
      match as_int a with
      | Some z => option_map CompOpp (SFcompare_Z (Prim2SF y) z)
      | None => None
      end
  | _, _ =>
      match as_int a, as_int b with
      | Some x, Some y => Some (x ?= y)
      | _, _ => None
      end
  end.

(** [a == b], [a <= b], [a > b] *)
Definition eqb (a b : number) : bool :=
  match compare a b with Some Eq => true | _ => false end.
Definition leb (a b : number) : bool :=
  match compare a b with Some (Lt | Eq) => true | _ => false end.
Definition gtb (a b : number) : bool :=
  match compare a b with Some Gt => true | _ => false end.

(** Truth value of an object, as [if v:] takes it. *)
Definition truthy (v : value) : bool :=
  match v with
  | VNum (NBool b) => b
  | VNum (NInt z) => negb (z =? 0)
  | VNum (NFloat f) => negb (PrimFloat.eqb f 0)
  | VStr s => negb (String.eqb s "")
  | VNone => false
  end.

(** ** Text: what [str], [format] and [int] do *)

Definition digit (d : Z) : ascii := ascii_of_N (Z.to_N (48 + d)).

(** The decimal digits of an integer, after its sign. *)
Definition decimal (z : Z) : string := NilZero.string_of_int (Z.to_int z).

(** The most decimal digits an integer may have when it is converted to
    text or read from text: [sys.int_info.default_max_str_digits].  Beyond,
    [str], an f-string and [int] raise [ValueError]. *)
Definition max_str_digits : Z := 4300.

(** The number of decimal digits of an integer, its sign apart. *)
Definition cifras (z : Z) : Z := Z.of_nat (String.length (decimal (Z.abs z))).

(** [str] of an integer *)
Definition str_int (z : Z) : result string :=
  if max_str_digits <? cifras z then Raise ValueError else Ok (decimal z).

Definition signo (s : bool) : string := if s then "-"%string else ""%string.

(** A quotient of two positive integers rounded to the nearest integer,
    ties to even. *)
Definition round_half_even (p q : Z) : Z :=
  let d := p / q in
  match 2 * (p mod q) ?= q with
  | Lt => d
  | Gt => d + 1
  | Eq => if Z.even d then d else d + 1
  end.

(** [format(f, '.2f')] of a float: the exact value, correctly rounded to
    two places. *)
Definition format_2f_float (f : float) : string :=
  match Prim2SF f with
  | S754_nan => "nan"%string
  | S754_infinity s => (signo s ++ "inf")%string
  | S754_zero s => (signo s ++ "0.00")%string
  | S754_finite s m e =>
      let c := if 0 <=? e then Zpos m * 100 * 2 ^ e
               else round_half_even (Zpos m * 100) (2 ^ (- e)) in
      let entero := decimal (c / 100) in
      let decimales :=
        String (digit (c mod 100 / 10)) (String (digit (c mod 10)) EmptyString) in
      (signo s ++ entero ++ "." ++ decimales)%string
  end.

(** [format(n, '.2f')]: an integer is converted to a float first. *)
Definition format_2f (n : number) : result string :=
  (f <- to_float n ;; Ok (format_2f_float f))%result.

(** *** [repr] of a float: the shortest decimal that reads back as it *)

Fixpoint quita_ceros (r : list ascii) : list ascii :=
  match r with
  | c :: r' => if Ascii.eqb c "0"%char then quita_ceros r' else r
  | [] => []
  end.

Definition ceros (n : Z) : string :=
  string_of_list_ascii (replicate (Z.to_nat n) "0"%char).

(** The number of digits before the point of [p/q]: the [k] with
    [10^(k-1) <= p/q < 10^k]. *)
Fixpoint decpt_neg (fuel : nat) (p q k : Z) : Z :=
  match fuel with
  | O => k
  | S fuel' => if q <=? p * 10 then k else decpt_neg fuel' (p * 10) q (k - 1)
  end.

Definition decpt (p q : Z) : Z :=
  if q <=? p then Z.of_nat (String.length (decimal (p / q)))
  else decpt_neg 400 p q 0.

(** The candidates with [n] digits for the value [p/q], which reads back
    from what lies between [lo/q] and [hi/q] (the bounds too when
    [incl]): [Some (d, x)] stands for [d * 10^x]. *)
Definition candidato (p lo hi q : Z) (incl : bool) (k n : Z) : option (Z * Z) :=
  let x := k - n in
  let sp := if x <=? 0 then 10 ^ (- x) else 1 in
  let sq := if x <=? 0 then 1 else 10 ^ x in
  let P := p * sp in let Q := q * sq in
  let dentro d :=
    if incl then (lo * sp <=? d * Q) && (d * Q <=? hi * sp)
    else (lo * sp <? d * Q) && (d * Q <? hi * sp) in
  let d0 := P / Q in
  let d1 := d0 + 1 in
  match dentro d0, dentro d1 with
  | false, false => None
  | true, false => Some (d0, x)
  | false, true => Some (d1, x)
  | true, true =>
      match P - d0 * Q ?= d1 * Q - P with
      | Lt => Some (d0, x)
      | Gt => Some (d1, x)
      | Eq => Some (if Z.even d0 then d0 else d1, x)
      end
  end.

Fixpoint mas_corto (fuel : nat) (p lo hi q : Z) (incl : bool) (k n : Z) : Z * Z :=
  match fuel with
  | O => (0, 0)
  | S fuel' =>
      match candidato p lo hi q incl k n with
      | Some c => c
      | None => mas_corto fuel' p lo hi q incl k (n + 1)
      end
  end.

(** The digits and the position of the point, as [repr] lays them out:
    exponent form when the point is far from the digits. *)
Definition repr_digits (ds : string) (pt : Z) : string :=
  let n := Z.of_nat (String.length ds) in
  if (pt <=? -4) || (16 <? pt) then
    let x := pt - 1 in
    let mant :=
      match ds with
      | String c EmptyString => ds
      | String c r => String c ("." ++ r)%string
      | EmptyString => ds
      end in
    let sgn := if x <? 0 then "-"%string else "+"%string in
    let pad := if Z.abs x <? 10 then "0"%string else ""%string in
    (mant ++ "e" ++ sgn ++ pad ++ decimal (Z.abs x))%string
  else if pt <=? 0 then ("0." ++ ceros (- pt) ++ ds)%string
  else if n <=? pt then (ds ++ ceros (pt - n) ++ ".0")%string
  else
    let antes := substring 0 (Z.to_nat pt) ds in
    let despues := substring (Z.to_nat pt) (Z.to_nat (n - pt)) ds in
    (antes ++ "." ++ despues)%string.

Definition repr_float (f : float) : string :=
  match Prim2SF f with
  | S754_nan => "nan"%string
  | S754_infinity s => (signo s ++ "inf")%string
  | S754_zero s => (signo s ++ "0.0")%string
  | S754_finite s m e =>
      (* in units of a quarter of the gap to the next float *)
      let u := e - 2 in
      let sc := if 0 <=? u then 2 ^ u else 1 in
      let q := if 0 <=? u then 1 else 2 ^ (- u) in
      let abajo := if (Zpos m =? 2 ^ 52) && (-1074 <? e) then 1 else 2 in
      let p := 4 * Zpos m * sc in
      let lo := (4 * Zpos m - abajo) * sc in
      let hi := (4 * Zpos m + 2) * sc in
      let k := decpt p q in
      let '(d, x) := mas_corto 17 p lo hi q (Z.even (Zpos m)) k 1 in
      let full := decimal d in
      let ds := string_of_list_ascii
                  (rev (quita_ceros (rev (list_ascii_of_string full)))) in
      (signo s ++ repr_digits ds (x + Z.of_nat (String.length full)))%string
  end.

(** The text of a number: [True] or [False], the digits of an integer,
    the [repr] of a float. *)
Definition texto (n : number) : string :=
  match n with
  | NBool b => if b then "True"%string else "False"%string
  | NInt z => decimal z
  | NFloat f => repr_float f
  end.

(** [str] of a number, as an f-string field without format gives it: its
    text, unless it is an integer of too many digits. *)
Definition str (n : number) : result string :=
  match n with
  | NInt z => str_int z
  | _ => Ok (texto n)
  end.

(** The part [f"{fila}-{numero}"] of the messages of the exceptions.  The
    message of an exception is not kept; building it is modelled, for it
    raises when [str] does, and then the exception it was built for is not
    raised. *)
Definition mensaje (fila numero : number) : result string :=
  (f <- str fila ;; n <- str numero ;; Ok (f ++ "-" ++ n)%string)%result.

(** *** Reading text: [str.strip], [str.split(',')], the lines of a file, [int] *)

Definition nl : string := String (ascii_of_nat 10) EmptyString.

Definition codigo (c : ascii) : Z := Z.of_N (N_of_ascii c).

(** [str.isspace] on ASCII, the characters [strip] removes. *)
Definition es_espacio (c : ascii) : bool :=
  let n := codigo c in
  ((9 <=? n) && (n <=? 13)) || ((28 <=? n) && (n <=? 32)).

(** The white space [int] skips around a literal. *)
Definition es_blanco (c : ascii) : bool :=
  let n := codigo c in
  ((9 <=? n) && (n <=? 13)) || (n =? 32).

Fixpoint quita (p : ascii -> bool) (l : list ascii) : list ascii :=
  match l with
  | c :: l' => if p c then quita p l' else l
  | [] => []
  end.

Definition recorta (p : ascii -> bool) (s : string) : string :=
  string_of_list_ascii
    (rev (quita p (rev (quita p (list_ascii_of_string s))))).

Definition strip : string -> string := recorta es_espacio.

Fixpoint split_coma (s : string) : list string :=
  match s with
  | EmptyString => [EmptyString]
  | String c s' =>
      if Ascii.eqb c ","%char then EmptyString :: split_coma s'
      else
        match split_coma s' with
        | w :: ws => String c w :: ws
        | [] => [String c EmptyString]
        end
  end.

(** The lines a text file yields, each with its end of line. *)
Fixpoint lineas (s : string) : list string :=
  match s with
  | EmptyString => []
  | String c s' =>
      if Ascii.eqb c (ascii_of_nat 10) then String c EmptyString :: lineas s'
      else
        match lineas s' with
        | w :: ws => String c w :: ws
        | [] => [String c EmptyString]
        end
  end.

Definition valor_digito (c : ascii) : option Z :=
  let n := codigo c in
  if (48 <=? n) && (n <=? 57) then Some (n - 48) else None.

(** The digits of a literal after its first one; an underscore may stand
    between two digits. *)
Fixpoint digitos (acc : Z) (s : string) : option Z :=
  match s with
  | EmptyString => Some acc
  | String c s' =>
      match valor_digito c with
      | Some d => digitos (acc * 10 + d) s'
      | None =>
          if Ascii.eqb c "_"%char then
            match s' with
            | String c' s'' =>
                match valor_digito c' with
                | Some d => digitos (acc * 10 + d) s''
                | None => None
                end
            | EmptyString => None
            end
          else None
      end
  end.

Definition natural (s : string) : option Z :=
  match s with
  | String c s' =>
      match valor_digito c with
      | Some d => digitos d s'
      | None => None
      end
  | EmptyString => None
  end.

(** The digits of a literal, which [int] counts before it converts. *)
Fixpoint cuenta_digitos (s : string) : Z :=
  match s with
  | EmptyString => 0
  | String c s' =>
      match valor_digito c with
      | Some _ => 1 + cuenta_digitos s'
      | None => cuenta_digitos s'
      end
  end.

(** [int(s)] in base ten: a literal of too many digits is refused, like
    one that is not a literal. *)
Definition int_of_str (s : string) : result Z :=
  let literal := recorta es_blanco s in
  let r :=
    match literal with
    | String c s' =>
        if Ascii.eqb c "-"%char then option_map Z.opp (natural s')
        else if Ascii.eqb c "+"%char then natural s'
        else natural (String c s')
    | EmptyString => None
    end in
  if max_str_digits <? cuenta_digitos literal then Raise ValueError
  else
    match r with
    | Some z => Ok z
    | None => Raise ValueError
    end.

(** ** Module level functions *)

(** [validar_entrada]: a number, and not [<= 0].  Python returns [None] and
    the caller goes on with the argument; here the checked argument comes
    back at its type [number]. *)
Definition validar_entrada (valor : value) : result number :=
  match valor with
  | VNum n => if leb n (NInt 0) then Raise ValueError else Ok n
  | _ => Raise ValueError
  end.

(** [validar_tipo_booleano]: exactly a [bool]. *)
Definition validar_tipo_booleano (valor : value) : result bool :=
  match valor with
  | VNum (NBool b) => Ok b
  | _ => Raise ValueError
  end.

Definition calcular_precio (precio_base : number)
    (dia_espectador es_mayor_65 : value) : result number :=
  (let descuento := NInt 0 in
   descuento <- (if truthy dia_espectador
                 then add descuento (NFloat 0.20) else Ok descuento) ;;
   descuento <- (if truthy es_mayor_65
                 then add descuento (NFloat 0.30) else Ok descuento) ;;
   resto <- sub (NInt 1) descuento ;;
   mul precio_base resto)%result.

(** ** class Asiento *)

Module Asiento.

Record t := Build
  { numero : number;
    fila : number;
    reservado : bool;
    precio_base : number;
    precio_actual : number }.

Definition set_reservado (b : bool) (self : t) : t :=
  Build (numero self) (fila self) b (precio_base self) (precio_actual self).
Definition set_precio_actual (p : number) (self : t) : t :=
  Build (numero self) (fila self) (reservado self) (precio_base self) p.

(** [Asiento.__init__] *)
Definition init (numero fila precio_base : value) : result t :=
  (n <- validar_entrada numero ;;
   f <- validar_entrada fila ;;
   p <- validar_entrada precio_base ;;
   Ok (Build n f false p p))%result.

(** [Asiento.reservar] *)
Definition reservar (es_mayor_65 dia_espectador : value) : M t unit :=
  (_ <- lift (validar_tipo_booleano es_mayor_65) ;;
   _ <- lift (validar_tipo_booleano dia_espectador) ;;
   self <- get ;;
   if reservado self then
     _ <- lift (mensaje (fila self) (numero self)) ;;
     raise AsientoReservadoError
   else
     p <- lift (calcular_precio (precio_base self) dia_espectador es_mayor_65) ;;
     modify (set_precio_actual p) ;;
     modify (set_reservado true))%method.

(** [Asiento.cancelar_reserva] *)
Definition cancelar_reserva : M t unit :=
  (self <- get ;;
   if negb (reservado self) then
     _ <- lift (mensaje (fila self) (numero self)) ;;
     raise AsientoNoReservadoError
   else
     modify (set_reservado false) ;;
     modify (fun self => set_precio_actual (precio_base self) self))%method.

End Asiento.

(** ** class SalaCine *)

Module SalaCine.

Record t := Build
  { precio_base : number;
    descuento_dia : number;
    descuento_mayor_65 : number;
    asientos : list Asiento.t }.

Definition set_asientos (l : list Asiento.t) (self : t) : t :=
  Build (precio_base self) (descuento_dia self) (descuento_mayor_65 self) l.

(** [SalaCine.__init__] *)
Definition init (precio_base descuento_dia descuento_mayor_65 : value)
    : result t :=
  (p <- validar_entrada precio_base ;;
   d <- validar_entrada descuento_dia ;;
   m <- validar_entrada descuento_mayor_65 ;;
   if gtb d (NInt 1) || gtb m (NInt 1) then Raise ValueError
   else Ok (Build p d m []))%result.

(** The default values of the two discounts. *)
Definition init_default (precio_base : value) : result t :=
  init precio_base (VFloat 0.20) (VFloat 0.30).

(** [asiento.numero == numero and asiento.fila == fila] *)
Definition coincide (numero fila : number) (asiento : Asiento.t) : bool :=
  eqb (Asiento.numero asiento) numero && eqb (Asiento.fila asiento) fila.

(** [SalaCine.agregar_asiento] *)
Definition agregar_asiento (numero fila : value) : M t unit :=
  (n <- lift (validar_entrada numero) ;;
   f <- lift (validar_entrada fila) ;;
   self <- get ;;
   if existsb (coincide n f) (asientos self)
   then
     _ <- lift (mensaje f n) ;;
     raise AsientoDuplicadoError
   else
     nuevo_asiento <- lift (Asiento.init numero fila (VNum (precio_base self))) ;;
     modify (fun self => set_asientos (asientos self ++ [nuevo_asiento]) self))%method.

(** The loop of [buscar_asiento]: the first seat that matches, from
    position [i] on.  The reference Python returns is the position of the
    seat in the list, given with the state the seat has. *)
Fixpoint primero (numero fila : number) (i : nat) (l : list Asiento.t)
    : option (nat * Asiento.t) :=
  match l with
  | [] => None
  | asiento :: l' =>
      if coincide numero fila asiento then Some (i, asiento)
      else primero numero fila (S i) l'
  end.

(** [SalaCine.buscar_asiento] *)
Definition buscar_asiento (numero fila : value) : M t (nat * Asiento.t) :=
  (n <- lift (validar_entrada numero) ;;
   f <- lift (validar_entrada fila) ;;
   self <- get ;;
   match primero n f 0 (asientos self) with
   | Some ref => ret ref
   | None =>
       _ <- lift (mensaje f n) ;;
       raise AsientoNoEncontradoError
   end)%method.

(** A method called on the seat a reference points to: the seat is
    mutated in place, at its position in the list. *)
Definition llamar {A} (ref : nat * Asiento.t) (m : M Asiento.t A) : M t A :=
  fun self =>
    let (asiento', r) := m (snd ref) in
    (set_asientos (<[fst ref := asiento']> (asientos self)) self, r).

(** [SalaCine.reservar_asiento] *)
Definition reservar_asiento (numero fila es_mayor_65 dia_espectador : value)
    : M t unit :=
  (_ <- lift (validar_tipo_booleano es_mayor_65) ;;
   _ <- lift (validar_tipo_booleano dia_espectador) ;;
   asiento <- buscar_asiento numero fila ;;
   llamar asiento (Asiento.reservar es_mayor_65 dia_espectador))%method.

(** [SalaCine.cancelar_reserva] *)
Definition cancelar_reserva (numero fila : value) : M t unit :=
  (asiento <- buscar_asiento numero fila ;;
   llamar asiento Asiento.cancelar_reserva)%method.

(** One line of [guardar_estado]. *)
Definition linea_de (asiento : Asiento.t) : result string :=
  (let estado := if Asiento.reservado asiento
                 then "Reservado"%string else "Disponible"%string in
   fila <- str (Asiento.fila asiento) ;;
   numero <- str (Asiento.numero asiento) ;;
   precio <- format_2f (Asiento.precio_actual asiento) ;;
   Ok (fila ++ "," ++ numero ++ "," ++ estado ++ "," ++ precio ++ nl)%string)%result.

(** The loop of [guardar_estado]; the state is the text of the file. *)
Fixpoint escribir (l : list Asiento.t) : M string unit :=
  match l with
  | [] => ret tt
  | asiento :: l' =>
      (linea <- lift (linea_de asiento) ;;
       modify (fun f => (f ++ linea)%string) ;;
       escribir l')%method
  end.

(** [SalaCine.guardar_estado]: the text the file holds afterwards, and the
    outcome.  The room is not modified. *)
Definition guardar_estado (self : t) : string * result unit :=
  escribir (asientos self) EmptyString.

(** A method called on an object that is not in the room yet. *)
Definition en_nuevo {A} (asiento : Asiento.t) (m : M Asiento.t A)
    : M t Asiento.t :=
  fun self =>
    match m asiento with
    | (asiento', Ok _) => (self, Ok asiento')
    | (_, Raise e) => (self, Raise e)
    end.

(** The body of the loop of [cargar_estado]. *)
Definition cargar_linea (linea : string) : M t unit :=
  match split_coma (strip linea) with
  | [fila; numero; estado; precio] =>
      (n <- lift (int_of_str numero) ;;
       f <- lift (int_of_str fila) ;;
       self <- get ;;
       nuevo_asiento <- lift (Asiento.init (VInt n) (VInt f)
                                (VNum (precio_base self))) ;;
       nuevo_asiento <-
         (if String.eqb estado "Reservado"
          then en_nuevo nuevo_asiento
                 (Asiento.reservar (VBool false) (VBool false))
          else ret nuevo_asiento) ;;
       modify (fun self => set_asientos (asientos self ++ [nuevo_asiento]) self))%method
  | _ => raise ValueError
  end.

Fixpoint cargar_lineas (l : list string) : M t unit :=
  match l with
  | [] => ret tt
  | linea :: l' => (cargar_linea linea ;; cargar_lineas l')%method
  end.

(** [SalaCine.cargar_estado], on the text of the file. *)
Definition cargar_estado (archivo : string) : M t unit :=
  cargar_lineas (lineas archivo).

End SalaCine.

(** * Notions of the specification *)

(** A NaN, which compares with nothing. *)
Definition es_nan (n : number) : bool :=
  match n with
  | NFloat f => is_nan f
  | _ => false
  end.

(** A boolean in float arithmetic. *)
Definition float_of_bool (b : bool) : float := if b then 1%float else 0%float.

(** The formula of the specification:
    [basePrice * (1 - (0.20*isDiscountDay + 0.30*isSenior))]. *)
Definition precio_spec (basePrice : float) (isSenior isDiscountDay : bool) : float :=
  (basePrice * (1 - (0.20 * float_of_bool isDiscountDay
                     + 0.30 * float_of_bool isSenior)))%float.


(** A number that float arithmetic can take: a float, or an integer within
    the range of the floats. *)
Definition en_rango (n : number) : Prop := exists f, to_float n = Ok f.

(** The price without discount: the base price times the integer 1,
    which makes an integer of a boolean. *)
Definition sin_descuento (p : number) : number :=
  match p with
  | NBool b => NInt (Z.b2z b)
  | _ => p
  end.

(** The formula of the specification on the numbers of the program: with
    a discount, which is a float, it is computed in float arithmetic on the
    base price as a float; without, the base price is multiplied by the
    integer 1. *)
Definition precio_formula (basePrice : number) (isSenior isDiscountDay : bool)
    (currentPrice : number) : Prop :=
  if isSenior || isDiscountDay
  then exists f, to_float basePrice = Ok f
                 /\ currentPrice = NFloat (precio_spec f isSenior isDiscountDay)
  else currentPrice = sin_descuento basePrice.

(** A number that can be written: [str] returns for it.  All are but the
    integers of more than 4300 digits. *)
Definition se_escribe (n : number) : Prop := exists s, str n = Ok s.

(** The exception a [raise] with a message ends in: the one named, or the
    one building the message raised. *)
Definition lanza (fila numero : number) (e : exn) : exn :=
  match mensaje fila numero with
  | Ok _ => e
  | Raise e' => e'
  end.

(** The states of a seat: the constructor built it, and [reservar] and
    [cancelar_reserva] were called on it any number of times, with any
    arguments, whether they returned or raised. *)
Inductive asiento_alcanzable : Asiento.t -> Prop :=
  | alc_init numero fila precio_base asiento :
      Asiento.init numero fila precio_base = Ok asiento ->
      asiento_alcanzable asiento
  | alc_reservar es_mayor_65 dia_espectador asiento :
      asiento_alcanzable asiento ->
      asiento_alcanzable
        (fst (Asiento.reservar es_mayor_65 dia_espectador asiento))
  | alc_cancelar asiento :
      asiento_alcanzable asiento ->
      asiento_alcanzable (fst (Asiento.cancelar_reserva asiento)).

(** What the specification says of an argument: [v > 0], [v > 1] and
    [v <= 1], which hold of numbers only. *)
Definition positivo (v : value) : bool :=
  match v with
  | VNum n => gtb n (NInt 0)
  | _ => false
  end.

Definition excede_uno (v : value) : bool :=
  match v with
  | VNum n => gtb n (NInt 1)
  | _ => false
  end.

Definition a_lo_mas_uno (v : value) : bool :=
  match v with
  | VNum n => leb n (NInt 1)
  | _ => false
  end.

(** An argument that, when a float, is a real number and not a NaN. *)
Definition sin_nan (v : value) : Prop :=
  match v with
  | VNum n => es_nan n = false
  | _ => True
  end.

(** The room of the driver of the repository, [SalaCine(10.0)], and the
    seat [agregar_asiento(1, 1)] puts in it. *)
Definition sala_10 : SalaCine.t :=
  SalaCine.Build (NFloat 10) (NFloat 0.20) (NFloat 0.30) [].

Definition asiento_1_1 : Asiento.t :=
  Asiento.Build (NInt 1) (NInt 1) false (NFloat 10) (NFloat 10).

(** The least integer of 4301 digits, [10**4300]. *)
Definition numero_largo : Z := 10 ^ max_str_digits.

(** The seats [Asiento(1, 1, 10**400)], whose base price is beyond the
    floats, and [Asiento(10**4300, 1, 10.0)], whose number has 4301
    digits. *)
Definition asiento_enorme : Asiento.t :=
  Asiento.Build (NInt 1) (NInt 1) false (NInt (10 ^ 400)) (NInt (10 ^ 400)).

Definition asiento_cifras : Asiento.t :=
  Asiento.Build (NInt numero_largo) (NInt 1) false (NFloat 10) (NFloat 10).

(** The place of a seat, which a method never changes. *)
Definition lugar (a : Asiento.t) : number * number :=
  (Asiento.numero a, Asiento.fila a).

(** What a call on the seat at (row, number) may do to a room: all it can
    change is one seat, which bears that row and number and keeps its place
    in the sequence, its row, its number and its base price. *)
Definition marco (numero fila : value) (sala sala' : SalaCine.t) : Prop :=
  SalaCine.precio_base sala' = SalaCine.precio_base sala
  /\ SalaCine.descuento_dia sala' = SalaCine.descuento_dia sala
  /\ SalaCine.descuento_mayor_65 sala' = SalaCine.descuento_mayor_65 sala
  /\ length (SalaCine.asientos sala') = length (SalaCine.asientos sala)
  /\ exists i : nat,
       (forall j : nat, j <> i ->
          SalaCine.asientos sala' !! j = SalaCine.asientos sala !! j)
       /\ (forall a a',
             SalaCine.asientos sala !! i = Some a ->
             SalaCine.asientos sala' !! i = Some a' ->
             a' = a
             \/ ((exists n f, numero = VNum n /\ fila = VNum f
                              /\ SalaCine.coincide n f a = true)
                 /\ lugar a' = lugar a
                 /\ Asiento.precio_base a' = Asiento.precio_base a)).

(** Two seats at the same (row, number), as [==] has it. *)
Definition mismo_lugar (a b : Asiento.t) : bool :=
  SalaCine.coincide (Asiento.numero b) (Asiento.fila b) a.

(** No two seats of the sequence share their (row, number). *)
Definition sin_repetidos (l : list Asiento.t) : Prop :=
  forall (i j : nat) a b,
    l !! i = Some a -> l !! j = Some b -> mismo_lugar a b = true -> i = j.

(** The operations of a room, and the state each leaves, whether it
    returns or raises.  [guardar_estado] does not touch the room. *)
Inductive operacion :=
  | Agregar (numero fila : value)
  | Buscar (numero fila : value)
  | Reservar (numero fila es_mayor_65 dia_espectador : value)
  | Cancelar (numero fila : value)
  | Guardar
  | Cargar (archivo : string).

Definition ejecutar (op : operacion) (sala : SalaCine.t) : SalaCine.t :=
  match op with
  | Agregar numero fila => fst (SalaCine.agregar_asiento numero fila sala)
  | Buscar numero fila => fst (SalaCine.buscar_asiento numero fila sala)
  | Reservar numero fila es_mayor_65 dia_espectador =>
      fst (SalaCine.reservar_asiento numero fila es_mayor_65 dia_espectador sala)
  | Cancelar numero fila => fst (SalaCine.cancelar_reserva numero fila sala)
  | Guardar => sala
  | Cargar archivo => fst (SalaCine.cargar_estado archivo sala)
  end.

Definition sin_carga (op : operacion) : Prop :=
  match op with
  | Cargar _ => False
  | _ => True
  end.

Definition cualquiera (op : operacion) : Prop := True.

(** The states of a room the constructor built and on which operations
    among those [P] allows were called. *)
Inductive alcanzable (P : operacion -> Prop) : SalaCine.t -> Prop :=
  | alc_sala_init precio_base descuento_dia descuento_mayor_65 sala :
      SalaCine.init precio_base descuento_dia descuento_mayor_65 = Ok sala ->
      alcanzable P sala
  | alc_ejecutar op sala :
      P op -> alcanzable P sala -> alcanzable P (ejecutar op sala).

(** A method that leaves the seat as it was when it raises, and its place
    and base price as they were when it returns. *)
Definition conserva {A} (m : M Asiento.t A) : Prop :=
  forall a,
    (exists e, m a = (a, Raise e))
    \/ (exists a' r, m a = (a', Ok r) /\ lugar a' = lugar a
                     /\ Asiento.precio_base a' = Asiento.precio_base a).

(** A room in which [agregar_asiento(1, 1)] was followed by
    [cargar_estado] on a file that holds that seat: the seat is there
    twice. *)
Definition sala_repetida : SalaCine.t :=
  ejecutar (Cargar ("1,1,Disponible,10.00" ++ nl)%string)
    (ejecutar (Agregar (VInt 1) (VInt 1)) sala_10).

(** *** Text *)

(** Every character of a text satisfies [p]. *)
Fixpoint todos (p : ascii -> bool) (s : string) : bool :=
  match s with
  | EmptyString => true
  | String c s' => p c && todos p s'
  end.

Definition es_digito (c : ascii) : bool :=
  (48 <=? codigo c) && (codigo c <=? 57).

Definition digito_o_menos (c : ascii) : bool :=
  es_digito c || Ascii.eqb c "-"%char.

(** A character inside a field of a line: not a comma, and not white
    space (so not an end of line). *)
Definition de_campo (c : ascii) : bool :=
  negb (Ascii.eqb c ","%char) && negb (es_espacio c).

(** A price written with exactly two fractional digits: a sign or none,
    one digit or more, a point, two digits. *)
Definition dos_decimales (s : string) : Prop :=
  exists (sg : bool) (entero : string) (d1 d2 : ascii),
    s = (signo sg ++ entero ++ "." ++ String d1 (String d2 EmptyString))%string
    /\ entero <> EmptyString
    /\ todos es_digito entero = true
    /\ es_digito d1 = true /\ es_digito d2 = true.

(** A price that is a finite number: a finite float, or an integer within
    the range of the floats. *)
Definition precio_finito (n : number) : Prop :=
  exists f, to_float n = Ok f /\ is_finite f = true.

(** The texts of a list, one after the other. *)
Definition unir (l : list string) : string :=
  fold_right String.append EmptyString l.

(** The line of a seat: row, number, one of two words for its state, and
    the text of its price, between commas and closed by an end of line. *)
Definition linea_formato (reservado libre : string) (a : Asiento.t)
    (precio : string) : string :=
  (texto (Asiento.fila a) ++ "," ++ texto (Asiento.numero a) ++ ","
   ++ (if Asiento.reservado a then reservado else libre) ++ ","
   ++ precio ++ nl)%string.

(** What [guardar_estado] does with a room, given the two words: it
    returns; the text is made of one line for each seat, in the order of
    the seats, and reads back as these lines, with nothing before them; the
    line of a seat has the format above, with its price in two decimals. *)
Definition guarda_con (reservado libre : string) (sala : SalaCine.t) : Prop :=
  exists escritas : list string,
    SalaCine.guardar_estado sala = (unir escritas, Ok tt)
    /\ lineas (unir escritas) = escritas
    /\ Forall2
         (fun a linea =>
            exists precio,
              format_2f (Asiento.precio_actual a) = Ok precio
              /\ dos_decimales precio
              /\ linea = linea_formato reservado libre a precio)
         (SalaCine.asientos sala) escritas.

(** A seat that can be written in a line with a price in digits: its row
    and its number can be written and its price is finite. *)
Definition asiento_escrito (a : Asiento.t) : Prop :=
  se_escribe (Asiento.fila a) /\ se_escribe (Asiento.numero a)
  /\ precio_finito (Asiento.precio_actual a).

(** A seat whose row and number are positive integers of at most 4300
    digits and whose price can be written. *)
Definition asiento_entero (a : Asiento.t) : Prop :=
  (exists n f, Asiento.numero a = NInt n /\ Asiento.fila a = NInt f
               /\ 0 < n /\ 0 < f
               /\ cifras n <= max_str_digits /\ cifras f <= max_str_digits)
  /\ en_rango (Asiento.precio_actual a).

(** The seat [cargar_estado] makes of the line of a seat, in a room of
    base price [p]: a reserved one is reserved anew, without discount. *)
Definition recargado (p : number) (a : Asiento.t) : Asiento.t :=
  Asiento.Build (Asiento.numero a) (Asiento.fila a) (Asiento.reservado a) p
    (if Asiento.reservado a then sin_descuento p else p).

(** The room of the driver after [agregar_asiento(1, 1)], and after
    [reservar_asiento(1, 1, True, True)] then. *)
Definition sala_libre : SalaCine.t :=
  ejecutar (Agregar (VInt 1) (VInt 1)) sala_10.

Definition sala_reservada : SalaCine.t :=
  ejecutar (Reservar (VInt 1) (VInt 1) (VBool true) (VBool true)) sala_libre.

(** The room of the driver after [agregar_asiento(1.5, 1)] and
    [reservar_asiento(1.5, 1, True, True)], and after
    [agregar_asiento(10**4300, 1)]. *)
Definition sala_fraccion : SalaCine.t :=
  ejecutar (Reservar (VFloat 1.5) (VInt 1) (VBool true) (VBool true))
    (ejecutar (Agregar (VFloat 1.5) (VInt 1)) sala_10).

Definition sala_cifras : SalaCine.t :=
  ejecutar (Agregar (VInt numero_largo) (VInt 1)) sala_10.

(** The rooms [SalaCine(float('inf'))] and [SalaCine(10**400)] after
    [agregar_asiento(1, 1)]. *)
Definition sala_inf : SalaCine.t :=
  ejecutar (Agregar (VInt 1) (VInt 1))
    (SalaCine.Build (NFloat infinity) (NFloat 0.20) (NFloat 0.30) []).

Definition sala_enorme : SalaCine.t :=
  ejecutar (Agregar (VInt 1) (VInt 1))
    (SalaCine.Build (NInt (10 ^ 400)) (NFloat 0.20) (NFloat 0.30) []).

(** * Further notions *)

Definition es_booleano (v : value) : bool :=
  match v with
  | VNum (NBool _) => true
  | _ => false
  end.

(** The price of a seat is one [calcular_precio] gives for its base price
    and two booleans. *)
Definition precio_de_reserva (a : Asiento.t) : Prop :=
  exists mayor dia : bool,
    calcular_precio (Asiento.precio_base a) (VBool dia) (VBool mayor)
    = Ok (Asiento.precio_actual a).

(** What a seat of a room of base price [p] is like: it has the base
    price of the room, its number and its row passed the validation, and
    its price is the base price when it is free and a price of
    [calcular_precio] when it is reserved. *)
Definition asiento_de_sala (p : number) (a : Asiento.t) : Prop :=
  Asiento.precio_base a = p
  /\ leb (Asiento.numero a) (NInt 0) = false
  /\ leb (Asiento.fila a) (NInt 0) = false
  /\ (if Asiento.reservado a then precio_de_reserva a
      else Asiento.precio_actual a = p).

(** What a seat is for good: its place and its base price. *)
Definition ficha (a : Asiento.t) : number * number * number :=
  (lugar a, Asiento.precio_base a).

(** Operations, one after the other. *)
Definition ejecutar_todas (ops : list operacion) (sala : SalaCine.t)
    : SalaCine.t :=
  foldl (fun s op => ejecutar op s) sala ops.

(** The room with other discounts. *)
Definition con_descuentos (d m : number) (sala : SalaCine.t) : SalaCine.t :=
  SalaCine.Build (SalaCine.precio_base sala) d m (SalaCine.asientos sala).

(** A method of the room that does not read the discounts: on a room
    with other discounts it does the same to the seats and has the same
    outcome. *)
Definition ajeno {A} (metodo : M SalaCine.t A) : Prop :=
  forall (d m : number) (sala : SalaCine.t),
    metodo (con_descuentos d m sala)
    = (con_descuentos d m (fst (metodo sala)), snd (metodo sala)).

(** What is left of a price on the day of the spectator and for a
    spectator over 65. *)
Definition factor (dia_espectador es_mayor_65 : bool) : number :=
  match dia_espectador, es_mayor_65 with
  | false, false => NInt 1
  | true, false => NFloat 0.8
  | false, true => NFloat 0.7
  | true, true => NFloat 0.5
  end.

(** A seat whose row and number can be written in the message of an
    exception: neither is an integer of more than 4300 digits. *)
Definition con_mensaje (a : Asiento.t) : Prop :=
  se_escribe (Asiento.fila a) /\ se_escribe (Asiento.numero a).

(** * Properties *)

(** The specification of the floats is written with the operations of
    [IntDef]; they are the ones of [Z], by conversion. *)
Ltac fold_Z :=
  change IntDef.Z.add with Z.add in *;
  change IntDef.Z.sub with Z.sub in *;
  change IntDef.Z.opp with Z.opp in *;
  change IntDef.Z.mul with Z.mul in *;
  change IntDef.Z.max with Z.max in *;
  change IntDef.Z.min with Z.min in *;
  change IntDef.Z.leb with Z.leb in *;
  change IntDef.Z.eqb with Z.eqb in *;
  change IntDef.Z.compare with Z.compare in *.

(** ** Facts about binary64 arithmetic *)

Lemma Prim2SF_one : Prim2SF 1 = S754_finite false 4503599627370496 (-52).
Proof. reflexivity. Qed.

Lemma shr_1_52 (m : positive) :
  SpecFloat.iter_pos shr_1 52
    (shr_record_of_loc (Zpos (4503599627370496 * m)) loc_Exact)
  = Build_shr_record (Zpos m) false false.
Proof. reflexivity. Qed.

Lemma digits2_pos_52 (m : positive) :
  Zpos (digits2_pos (4503599627370496 * m)) = Zpos (digits2_pos m) + 52.
Proof.
  change (digits2_pos (4503599627370496 * m))
    with (Pos.iter Pos.succ (digits2_pos m) 52).
  cbn [Pos.iter]. lia.
Qed.

(** A product by one is exact: the mantissa comes back after the shift. *)
Lemma binary_round_aux_one (s : bool) (m : positive) (e : Z) :
  bounded prec emax m e = true ->
  binary_round_aux prec emax s (Zpos (m * 4503599627370496)) (e + -52) loc_Exact
  = S754_finite s m e.
Proof.
  unfold bounded, canonical_mantissa. intros [Hc He]%andb_prop.
  fold_Z. apply Z.eqb_eq in Hc.
  rewrite Pos.mul_comm.
  unfold binary_round_aux, shr_fexp. fold_Z.
  change (Zdigits2 (Z.pos (4503599627370496 * m)))
    with (Z.pos (digits2_pos (4503599627370496 * m))).
  rewrite digits2_pos_52.
  replace (Z.pos (digits2_pos m) + 52 + (e + -52))
    with (Z.pos (digits2_pos m) + e) by lia.
  rewrite Hc.
  replace (e - (e + -52)) with 52 by lia.
  unfold shr at 1.
  rewrite shr_1_52.
  cbn [shr_m loc_of_shr_record round_nearest_even shr_record_of_loc Zdigits2].
  replace (e + -52 + 52) with e by lia.
  rewrite Hc, Z.sub_diag.
  cbn [shr shr_m]. now rewrite He.
Qed.

Lemma mul_one_r (f : float) : (f * 1)%float = f.
Proof.
  apply Prim2SF_inj. rewrite mul_spec, Prim2SF_one.
  pose proof (Prim2SF_valid f) as Hv.
  destruct (Prim2SF f) as [s|s| |s m e]; cbn.
  - now rewrite xorb_false_r.
  - now rewrite xorb_false_r.
  - reflexivity.
  - rewrite xorb_false_r. now apply binary_round_aux_one.
Qed.

(** A float that is not a NaN compares with every integer. *)
Lemma is_nan_Prim2SF (f : float) :
  is_nan f = false -> Prim2SF f <> S754_nan.
Proof.
  unfold is_nan. rewrite FloatAxioms.eqb_spec. intros H E. rewrite E in H. discriminate.
Qed.

(** ** Facts about the operations on numbers *)

Lemma compare_int_Some (n : number) (z : Z) :
  es_nan n = false -> exists c, compare n (NInt z) = Some c.
Proof.
  destruct n as [b|x|f]; cbn; intros H; eauto.
  apply is_nan_Prim2SF in H.
  destruct (Prim2SF f); cbn; eauto. congruence.
Qed.

Lemma gtb_leb_int (n : number) (z : Z) :
  es_nan n = false -> gtb n (NInt z) = negb (leb n (NInt z)).
Proof.
  intros [c Hc]%(compare_int_Some n z). unfold gtb, leb. rewrite Hc.
  now destruct c.
Qed.

Lemma gtb_true_leb (a b : number) : gtb a b = true -> leb a b = false.
Proof. unfold gtb, leb. now destruct (compare a b) as [[]|]. Qed.

Lemma leb_true_gtb (a b : number) : leb a b = true -> gtb a b = false.
Proof. unfold gtb, leb. now destruct (compare a b) as [[]|]. Qed.

(** Arithmetic raises nothing but [OverflowError]. *)
Lemma float_of_Z_raise (z : Z) (e : exn) :
  float_of_Z z = Raise e -> e = OverflowError.
Proof.
  unfold float_of_Z. destruct (binary_normalize _ _ _ _ _); congruence.
Qed.

Lemma to_float_raise (n : number) (e : exn) :
  to_float n = Raise e -> e = OverflowError.
Proof. destruct n; cbn; try congruence; apply float_of_Z_raise. Qed.

Lemma binop_raise iop fop (a b : number) (e : exn) :
  binop iop fop a b = Raise e -> e = OverflowError.
Proof.
  unfold binop.
  destruct (as_int a), (as_int b); try congruence;
    destruct (to_float a) eqn:Ha; cbn; try (intros [= <-]; eauto using to_float_raise);
    destruct (to_float b) eqn:Hb; cbn; try congruence;
    intros [= <-]; eauto using to_float_raise.
Qed.

Lemma calcular_precio_raise (p : number) (d m : value) (e : exn) :
  calcular_precio p d m = Raise e -> e = OverflowError.
Proof.
  unfold calcular_precio, add, sub, mul.
  repeat match goal with
         | |- context [rbind ?r _] =>
             let H := fresh in destruct r eqn:H; cbn [rbind];
             [| intros [= <-];
                repeat match goal with
                       | H : (if ?c then _ else _) = _ |- _ => destruct c
                       end;
                try discriminate; eauto using binop_raise ]
         end.
  apply binop_raise.
Qed.

Lemma calcular_precio_float (f : float) (dia mayor : bool) :
  calcular_precio (NFloat f) (VBool dia) (VBool mayor)
  = Ok (NFloat (precio_spec f mayor dia)).
Proof.
  destruct dia, mayor; try reflexivity.
Qed.

Lemma calcular_precio_en_rango (p : number) (dia mayor : bool) :
  en_rango p -> exists q, calcular_precio p (VBool dia) (VBool mayor) = Ok q.
Proof.
  intros [f Hf]. unfold calcular_precio, mul, binop.
  destruct dia, mayor; cbn -[to_float Z.mul];
    destruct p as [b|z|x]; cbn -[to_float Z.mul] in *;
    try rewrite Hf; cbn; eauto.
Qed.

Lemma precio_spec_sin_descuento (f : float) : precio_spec f false false = f.
Proof.
  unfold precio_spec. cbn [float_of_bool].
  change (1 - (0.20 * 0 + 0.30 * 0))%float with 1%float.
  apply mul_one_r.
Qed.

Lemma calcular_precio_sin_descuento_float (f : float) :
  calcular_precio (NFloat f) (VBool false) (VBool false) = Ok (NFloat f).
Proof. now rewrite calcular_precio_float, precio_spec_sin_descuento. Qed.

(** ** Numbers that can be written *)

Lemma str_raise (n : number) (e : exn) : str n = Raise e -> e = ValueError.
Proof.
  destruct n as [b|z|f]; cbn [str]; try discriminate.
  unfold str_int. destruct (_ <? _); congruence.
Qed.

Lemma str_Ok (n : number) (s : string) : str n = Ok s -> s = texto n.
Proof.
  destruct n as [b|z|f]; cbn [str]; try congruence.
  unfold str_int. destruct (_ <? _); cbn [texto]; congruence.
Qed.

Lemma se_escribe_str (n : number) : se_escribe n -> str n = Ok (texto n).
Proof. intros [s H]. now rewrite H, (str_Ok _ _ H). Qed.

Lemma no_se_escribe_str (n : number) :
  ~ se_escribe n -> str n = Raise ValueError.
Proof.
  intros H. destruct (str n) as [s|e] eqn:E.
  - destruct H. now exists s.
  - now rewrite (str_raise _ _ E).
Qed.

Lemma se_escribe_no_entero (n : number) : as_int n = None -> se_escribe n.
Proof. destruct n; try discriminate. intros _. eexists. reflexivity. Qed.

Lemma mensaje_raise (f n : number) (e : exn) :
  mensaje f n = Raise e -> e = ValueError.
Proof.
  unfold mensaje. destruct (str f) as [sf|ef] eqn:Ef; cbn [rbind].
  - destruct (str n) as [sn|en] eqn:En; cbn [rbind]; [discriminate|].
    intros [= <-]. eauto using str_raise.
  - intros [= <-]. eauto using str_raise.
Qed.

Lemma lanza_casos (f n : number) (e : exn) :
  (se_escribe f /\ se_escribe n /\ lanza f n e = e)
  \/ (~ (se_escribe f /\ se_escribe n) /\ lanza f n e = ValueError).
Proof.
  unfold lanza, mensaje, se_escribe.
  destruct (str f) as [sf|ef] eqn:Ef; cbn [rbind].
  - destruct (str n) as [sn|en] eqn:En; cbn [rbind].
    + left. eauto.
    + right. rewrite (str_raise _ _ En).
      split; [|reflexivity]. intros (_ & s & Hs). discriminate Hs.
  - right. rewrite (str_raise _ _ Ef).
    split; [|reflexivity]. intros ((s & Hs) & _). discriminate Hs.
Qed.

Lemma lanza_se_escribe (f n : number) (e : exn) :
  se_escribe f -> se_escribe n -> lanza f n e = e.
Proof.
  intros Hf Hn. destruct (lanza_casos f n e) as [(_ & _ & H)|[H _]];
    [exact H|tauto].
Qed.

Lemma lanza_no_se_escribe (f n : number) (e : exn) :
  ~ (se_escribe f /\ se_escribe n) -> lanza f n e = ValueError.
Proof.
  intros H. destruct (lanza_casos f n e) as [(Hf & Hn & _)|[_ E]];
    [tauto|exact E].
Qed.

(** ** The seat *)

Section PropiedadesAsiento.
Import Asiento.

Ltac methods :=
  unfold reservar, cancelar_reserva, bind, lift, get, modify, raise, ret.

(** [reservar] with two booleans, case by case. *)
Lemma reservar_bool (a : t) (mayor dia : bool) :
  reservar (VBool mayor) (VBool dia) a =
  if reservado a
  then (a, Raise (lanza (fila a) (numero a) AsientoReservadoError))
  else
    match calcular_precio (precio_base a) (VBool dia) (VBool mayor) with
    | Ok p => (Build (numero a) (fila a) true (precio_base a) p, Ok tt)
    | Raise e => (a, Raise e)
    end.
Proof.
  methods. unfold lanza. cbn -[mensaje calcular_precio].
  destruct (reservado a); [now destruct (mensaje _ _)|].
  now destruct (calcular_precio _ _ _).
Qed.

(** A call of [reservar] that raises leaves the seat as it was; one that
    returns has set the flag and a price, and nothing else. *)
Lemma reservar_cases (a : t) (es dia : value) :
  (exists e, reservar es dia a = (a, Raise e)) \/
  (exists p, reservado a = false /\
     reservar es dia a
     = (Build (numero a) (fila a) true (precio_base a) p, Ok tt)).
Proof.
  destruct es as [[mayor| |]| |]; try (left; eexists; reflexivity).
  destruct dia as [[d| |]| |]; try (left; eexists; reflexivity).
  rewrite reservar_bool. destruct (reservado a) eqn:Hr; [eauto|].
  destruct (calcular_precio _ _ _); eauto.
Qed.

Lemma cancelar_reserva_eq (a : t) :
  cancelar_reserva a =
  if reservado a
  then (Build (numero a) (fila a) false (precio_base a) (precio_base a), Ok tt)
  else (a, Raise (lanza (fila a) (numero a) AsientoNoReservadoError)).
Proof.
  methods. unfold lanza. cbn -[mensaje].
  destruct (reservado a); [reflexivity|]. now destruct (mensaje _ _).
Qed.

Lemma init_cases (n f p : value) (a : t) :
  init n f p = Ok a ->
  exists n' f' p',
    validar_entrada n = Ok n' /\ validar_entrada f = Ok f' /\
    validar_entrada p = Ok p' /\ a = Build n' f' false p' p'.
Proof.
  unfold init.
  destruct (validar_entrada n) as [n'|]; [|discriminate].
  destruct (validar_entrada f) as [f'|]; [|discriminate].
  destruct (validar_entrada p) as [p'|]; [|discriminate].
  cbn. intros [= <-]. eauto 10.
Qed.

Lemma calcular_precio_mul (p : number) (dia mayor : bool) :
  calcular_precio p (VBool dia) (VBool mayor) = mul p (factor dia mayor).
Proof. unfold calcular_precio. destruct dia, mayor; reflexivity. Qed.

Lemma mul_float (p : number) (k : float) :
  mul p (NFloat k) = rbind (to_float p) (fun x => Ok (NFloat (x * k))).
Proof. unfold mul, binop. now destruct p. Qed.

Lemma calcular_precio_formula (p : number) (isSenior isDiscountDay : bool) q :
  calcular_precio p (VBool isDiscountDay) (VBool isSenior) = Ok q ->
  precio_formula p isSenior isDiscountDay q
  /\ forall f, p = NFloat f -> q = NFloat (precio_spec f isSenior isDiscountDay).
Proof.
  intros H. split.
  - rewrite calcular_precio_mul in H. unfold precio_formula.
    destruct isSenior, isDiscountDay; cbn [orb factor] in *;
      try (rewrite mul_float in H;
           destruct (to_float p) as [x|] eqn:Hx; [|discriminate H];
           injection H as <-; now exists x).
    unfold mul, binop in H.
    destruct p as [b|z|x]; cbn in H; injection H as <-; cbn [sin_descuento];
      rewrite ?Z.mul_1_r; try reflexivity.
    now rewrite mul_one_r.
  - intros f ->. rewrite calcular_precio_float in H. now injection H as <-.
Qed.

(** C1, where the price can be computed.  On a seat that is not reserved,
    [reservar] with two booleans returns, sets the flag, and sets the price
    to [basePrice * (1 - (0.20*isDiscountDay + 0.30*isSenior))], provided
    the base price is a float or an integer within the range of the floats,
    or no discount applies; the rest of the seat is as it was.  A discount
    makes a float of the price, in the arithmetic of the floats; without
    one an integer is multiplied by the integer 1.  With base price 10.0
    and both flags true the price is 5.0; with both flags false it is the
    base price.  This holds of every base price, positive or not. *)
Theorem reservar_precio (a : t) (isSenior isDiscountDay : bool) :
  reservado a = false ->
  en_rango (precio_base a) \/ (isSenior = false /\ isDiscountDay = false) ->
  exists q,
    reservar (VBool isSenior) (VBool isDiscountDay) a
    = (Build (numero a) (fila a) true (precio_base a) q, Ok tt)
    /\ precio_formula (precio_base a) isSenior isDiscountDay q
    /\ (forall f, precio_base a = NFloat f ->
        q = NFloat (precio_spec f isSenior isDiscountDay))
    /\ (precio_base a = NFloat 10 ->
        precio_actual (fst (reservar (VBool true) (VBool true) a)) = NFloat 5)
    /\ precio_actual (fst (reservar (VBool false) (VBool false) a))
       = sin_descuento (precio_base a).
Proof.
  intros Hr Hp. rewrite !reservar_bool, Hr.
  assert (exists q, calcular_precio (precio_base a) (VBool isDiscountDay)
                      (VBool isSenior) = Ok q) as [q Hq].
  { destruct Hp as [Hp|[-> ->]].
    - now apply calcular_precio_en_rango.
    - destruct (calcular_precio (precio_base a) (VBool false) (VBool false))
        as [q|e] eqn:E; [now exists q|].
      exfalso. unfold calcular_precio, mul, binop in E.
      destruct (precio_base a); cbn in E; discriminate E. }
  exists q. rewrite Hq.
  destruct (calcular_precio_formula _ _ _ _ Hq) as [H1 H2].
  split; [reflexivity|]. split; [exact H1|]. split; [exact H2|]. split.
  - intros ->. reflexivity.
  - destruct (calcular_precio (precio_base a) (VBool false) (VBool false))
      as [q0|e] eqn:E.
    + apply calcular_precio_formula in E as [E _]. exact E.
    + exfalso. unfold calcular_precio, mul, binop in E.
      destruct (precio_base a); cbn in E; discriminate E.
Qed.

Lemma reservar_precio_witness :
  exists q,
    reservar (VBool true) (VBool true) asiento_1_1
    = (Build (NInt 1) (NInt 1) true (NFloat 10) q, Ok tt)
    /\ q = NFloat 5.
Proof.
  destruct (reservar_precio asiento_1_1 true true eq_refl
              (or_introl (ex_intro _ 10%float eq_refl)))
    as (q & H1 & _ & H2 & _).
  exists q. split; [exact H1|]. exact (H2 10%float eq_refl).
Defined.

(** C1 as it stands fails: a base price can be an integer beyond the
    range of the floats, which is positive, and then a discount, which is a
    float, makes [reservar] raise [OverflowError]. *)
Lemma reservar_precio_desborda :
  ~ (forall (a : t) (isSenior isDiscountDay : bool),
       reservado a = false ->
       positivo (VNum (precio_base a)) = true ->
       snd (reservar (VBool isSenior) (VBool isDiscountDay) a) = Ok tt).
Proof.
  intros H. specialize (H asiento_enorme true true eq_refl).
  assert (positivo (VNum (precio_base asiento_enorme)) = true) as Hp
    by (vm_compute; reflexivity).
  assert (snd (reservar (VBool true) (VBool true) asiento_enorme)
          = Raise OverflowError) as E by (vm_compute; reflexivity).
  rewrite E in H. specialize (H Hp). discriminate H.
Qed.

(** The invariant of the price, by induction on the calls. *)
Lemma alcanzable_precio_libre (a : t) :
  asiento_alcanzable a ->
  reservado a = false -> precio_actual a = precio_base a.
Proof.
  induction 1 as [n f p a Hi|es dia a Ha IH|a Ha IH].
  - apply init_cases in Hi as (?&?&?&_&_&_&->). reflexivity.
  - destruct (reservar_cases a es dia) as [[e ->]|(p&_&->)]; cbn;
      [assumption|discriminate].
  - rewrite cancelar_reserva_eq. destruct (reservado a); cbn; auto.
Qed.

(** C4.  In every state a seat reaches, a seat that is not reserved has
    its base price as its price.  The constructor yields such a state, not
    reserved, and [cancelar_reserva] leads a reserved seat to one. *)
Theorem precio_de_asiento_libre (a : t) :
  asiento_alcanzable a ->
  (reservado a = false -> precio_actual a = precio_base a)
  /\ (forall n f p, init n f p = Ok a ->
        reservado a = false /\ precio_actual a = precio_base a)
  /\ (reservado a = true ->
      exists a', cancelar_reserva a = (a', Ok tt) /\
        reservado a' = false /\ precio_actual a' = precio_base a').
Proof.
  intros Ha. split; [|split].
  - now apply alcanzable_precio_libre.
  - intros n f p Hi.
    apply init_cases in Hi as (?&?&?&_&_&_&->). now split.
  - intros Hr. rewrite cancelar_reserva_eq, Hr. eauto.
Qed.

Lemma precio_de_asiento_libre_witness :
  precio_actual (Build (NInt 1) (NInt 1) false (NFloat 10) (NFloat 10))
  = precio_base (Build (NInt 1) (NInt 1) false (NFloat 10) (NFloat 10)).
Proof.
  refine (proj1 (precio_de_asiento_libre
                   (Build (NInt 1) (NInt 1) false (NFloat 10) (NFloat 10)) _)
            eq_refl).
  apply (alc_init (VInt 1) (VInt 1) (VFloat 10)). reflexivity.
Defined.

(** C6.  On a seat that is not reserved, in any state it can reach,
    [reservar] with two booleans followed by [cancelar_reserva] leaves the
    seat in the state it had before: not reserved, with its base price as
    its price.  When the base price is one float arithmetic can take, both
    calls return, and the seat is reserved in between. *)
Theorem reservar_cancelar (a : t) (mayor dia : bool) :
  asiento_alcanzable a ->
  reservado a = false ->
  fst (cancelar_reserva (fst (reservar (VBool mayor) (VBool dia) a))) = a
  /\ reservado a = false /\ precio_actual a = precio_base a
  /\ (en_rango (precio_base a) ->
      snd (reservar (VBool mayor) (VBool dia) a) = Ok tt
      /\ reservado (fst (reservar (VBool mayor) (VBool dia) a)) = true
      /\ snd (cancelar_reserva (fst (reservar (VBool mayor) (VBool dia) a)))
         = Ok tt).
Proof.
  intros Ha Hr.
  pose proof (alcanzable_precio_libre a Ha Hr) as Hinv.
  rewrite !reservar_bool, Hr. split; [|split; [|split]];
    try assumption; try reflexivity.
  - destruct (calcular_precio _ _ _) as [q|e]; cbn [fst];
      rewrite cancelar_reserva_eq; cbn [reservado]; [|now rewrite Hr].
    destruct a; cbn in *. congruence.
  - intros Hp.
    destruct (calcular_precio_en_rango _ dia mayor Hp) as [q ->].
    repeat split; reflexivity.
Qed.

Lemma reservar_cancelar_witness :
  fst (cancelar_reserva
         (fst (reservar (VBool true) (VBool true)
                 (Build (NInt 1) (NInt 1) false (NFloat 10) (NFloat 10)))))
  = Build (NInt 1) (NInt 1) false (NFloat 10) (NFloat 10).
Proof.
  refine (proj1 (reservar_cancelar
                   (Build (NInt 1) (NInt 1) false (NFloat 10) (NFloat 10))
                   true true _ eq_refl)).
  apply (alc_init (VInt 1) (VInt 1) (VFloat 10)). reflexivity.
Defined.

End PropiedadesAsiento.

(** ** The room *)

(** Validation of an argument that is not a NaN, in the words of the
    specification. *)
Lemma validar_entrada_positivo (v : value) :
  sin_nan v ->
  validar_entrada v =
  match v with
  | VNum n => if positivo v then Ok n else Raise ValueError
  | _ => Raise ValueError
  end.
Proof.
  destruct v as [n| |]; cbn; try reflexivity.
  intros Hn. rewrite (gtb_leb_int n 0 Hn). now destruct (leb n (NInt 0)).
Qed.

Lemma validar_entrada_Ok (v : value) (n : number) :
  validar_entrada v = Ok n -> v = VNum n /\ leb n (NInt 0) = false.
Proof.
  destruct v as [m| |]; cbn; try discriminate.
  destruct (leb m (NInt 0)) eqn:E; [discriminate|]. now intros [= <-].
Qed.

Lemma validar_entrada_raise (v : value) (e : exn) :
  validar_entrada v = Raise e -> e = ValueError.
Proof.
  destruct v as [m| |]; cbn; try congruence.
  destruct (leb m (NInt 0)); congruence.
Qed.

(** C8, where the code departs from it.  A NaN is not strictly
    positive, and it is not [<= 0] either, which is all [validar_entrada]
    asks: [SalaCine(float('nan'))] does not raise [ValueError] and returns a
    room whose base price is NaN, and so does the constructor with NaN for
    discounts. *)
Theorem sala_init_nan :
  positivo (VFloat nan) = false
  /\ validar_entrada (VFloat nan) = Ok (NFloat nan)
  /\ SalaCine.init_default (VFloat nan)
     = Ok (SalaCine.Build (NFloat nan) (NFloat 0.20) (NFloat 0.30) [])
  /\ SalaCine.init (VFloat 10) (VFloat nan) (VFloat nan)
     = Ok (SalaCine.Build (NFloat 10) (NFloat nan) (NFloat nan) []).
Proof. repeat split. Qed.

(** [==] on numbers is symmetric. *)
Lemma SFcompare_antisym (x y : spec_float) :
  SFcompare y x = option_map CompOpp (SFcompare x y).
Proof.
  destruct x as [sx|sx| |sx mx ex], y as [sy|sy| |sy my ey]; cbn;
    try reflexivity;
    try (destruct sx; reflexivity); try (destruct sy; reflexivity);
    try (destruct sx, sy; reflexivity).
  fold_Z. change PosDef.Pos.compare_cont with Pos.compare_cont.
  rewrite (Z.compare_antisym ex ey).
  destruct sx, sy; cbn; try reflexivity;
    destruct (ex ?= ey) eqn:E; cbn; try reflexivity;
    rewrite (Pos.compare_cont_antisym mx my Eq); reflexivity.
Qed.

Lemma compare_antisym (a b : number) :
  compare b a = option_map CompOpp (compare a b).
Proof.
  destruct a as [x|x|x], b as [y|y|y]; cbn;
    try (now rewrite (Z.compare_antisym _ _));
    try apply SFcompare_antisym;
    try (destruct (SFcompare_Z _ _) as [c|]; cbn;
         now rewrite ?CompOpp_involutive).
Qed.

Lemma eqb_sym (a b : number) : eqb a b = eqb b a.
Proof.
  unfold eqb. rewrite (compare_antisym a b).
  now destruct (compare a b) as [[]|].
Qed.

Section PropiedadesSala.
Import SalaCine.

Ltac methods :=
  unfold agregar_asiento, buscar_asiento, reservar_asiento, cancelar_reserva,
    llamar, bind, lift, get, modify, raise, ret.

Lemma set_asientos_id (sala : t) : set_asientos (asientos sala) sala = sala.
Proof. now destruct sala. Qed.

(** The loop of [buscar_asiento] finds the first seat that matches. *)
Lemma primero_Some (n f : number) (l : list Asiento.t) (i j : nat) a :
  primero n f i l = Some (j, a) ->
  exists k : nat, j = (i + k)%nat /\ l !! k = Some a /\ coincide n f a = true.
Proof.
  revert i. induction l as [|b l IH]; intros i; cbn; [discriminate|].
  destruct (coincide n f b) eqn:Hb.
  - intros [= <- <-]. exists 0%nat. rewrite Nat.add_0_r. auto.
  - intros (k & -> & Hk & Ha)%IH. exists (S k). split; [lia|]. auto.
Qed.

Lemma primero_None (n f : number) (l : list Asiento.t) (i : nat) :
  primero n f i l = None <-> existsb (coincide n f) l = false.
Proof.
  revert i. induction l as [|b l IH]; intros i; cbn; [easy|].
  destruct (coincide n f b); cbn; [easy|apply IH].
Qed.

Lemma buscar_asiento_cases (numero fila : value) (sala : t) :
  (exists e, buscar_asiento numero fila sala = (sala, Raise e)
             /\ (e = ValueError \/ e = AsientoNoEncontradoError))
  \/ (exists n f (i : nat) a,
        numero = VNum n /\ fila = VNum f
        /\ asientos sala !! i = Some a /\ coincide n f a = true
        /\ buscar_asiento numero fila sala = (sala, Ok (i, a))).
Proof.
  methods.
  destruct (validar_entrada numero) as [n|e] eqn:Hn; cbn.
  2:{ left. exists e. split; [reflexivity|].
      left. eauto using validar_entrada_raise. }
  destruct (validar_entrada fila) as [f|e] eqn:Hf; cbn.
  2:{ left. exists e. split; [reflexivity|].
      left. eauto using validar_entrada_raise. }
  destruct (primero n f 0 (asientos sala)) as [[i a]|] eqn:Hp.
  - right. apply primero_Some in Hp as (k & -> & Hk & Ha).
    apply validar_entrada_Ok in Hn as [-> _].
    apply validar_entrada_Ok in Hf as [-> _].
    exists n, f, k, a. auto.
  - left. destruct (mensaje f n) as [m|e] eqn:Hm; cbn.
    + eauto.
    + rewrite (mensaje_raise _ _ _ Hm). eauto.
Qed.

Lemma reservar_conserva (es dia : value) : conserva (Asiento.reservar es dia).
Proof.
  intros a. destruct (reservar_cases a es dia) as [[e He]|(p & _ & Hp)];
    [left|right]; eauto 10.
Qed.

Lemma cancelar_conserva : conserva Asiento.cancelar_reserva.
Proof.
  intros a. rewrite cancelar_reserva_eq.
  destruct (Asiento.reservado a); [right|left]; eauto 10.
Qed.

Lemma llamar_marco {A} (m : M Asiento.t A) (numero fila : value)
    (n f : number) (i : nat) (a : Asiento.t) (sala : t) :
  conserva m ->
  numero = VNum n -> fila = VNum f ->
  asientos sala !! i = Some a -> coincide n f a = true ->
  marco numero fila sala (fst (llamar (i, a) m sala))
  /\ (forall e, snd (llamar (i, a) m sala) = Raise e ->
      fst (llamar (i, a) m sala) = sala).
Proof.
  intros Hm -> -> Hi Ha. unfold llamar. cbn [fst snd].
  destruct (Hm a) as [[e He]|(a' & r & He & Hl & Hb)]; rewrite He; cbn [fst snd].
  - rewrite (list_insert_id _ _ _ Hi), set_asientos_id. split; [|reflexivity].
    repeat split; try reflexivity. exists i. split; [reflexivity|].
    left. congruence.
  - split; [|discriminate].
    repeat split; try reflexivity; cbn.
    + apply length_insert.
    + exists i. split.
      * intros j Hj. now apply list_lookup_insert_ne.
      * intros b b' Hb1 Hb2.
        rewrite list_lookup_insert_eq in Hb2 by eauto using lookup_lt_Some.
        assert (b = a) as -> by congruence.
        assert (b' = a') as -> by congruence.
        right. eauto 10.
Qed.

Lemma marco_refl (numero fila : value) (sala : t) : marco numero fila sala sala.
Proof.
  repeat split; try reflexivity. exists 0%nat. split; [reflexivity|].
  left. congruence.
Qed.

Lemma reservar_asiento_marco (sala : t)
    (numero fila es_mayor_65 dia_espectador : value) :
  marco numero fila sala
    (fst (reservar_asiento numero fila es_mayor_65 dia_espectador sala))
  /\ forall e,
      snd (reservar_asiento numero fila es_mayor_65 dia_espectador sala)
      = Raise e ->
      fst (reservar_asiento numero fila es_mayor_65 dia_espectador sala) = sala.
Proof.
  unfold reservar_asiento, bind at 1 2, lift.
  destruct (validar_tipo_booleano es_mayor_65) as [b1|e1];
    [|split; [apply marco_refl|reflexivity]].
  destruct (validar_tipo_booleano dia_espectador) as [b2|e2];
    [|split; [apply marco_refl|reflexivity]].
  unfold bind.
  destruct (buscar_asiento_cases numero fila sala)
    as [(e & -> & _)|(n & f & i & a & Hn & Hf & Hi & Ha & ->)].
  - split; [apply marco_refl|reflexivity].
  - apply (llamar_marco _ numero fila n f); auto using reservar_conserva.
Qed.

Lemma cancelar_reserva_marco (sala : t) (numero fila : value) :
  marco numero fila sala (fst (cancelar_reserva numero fila sala))
  /\ forall e,
      snd (cancelar_reserva numero fila sala) = Raise e ->
      fst (cancelar_reserva numero fila sala) = sala.
Proof.
  unfold cancelar_reserva, bind.
  destruct (buscar_asiento_cases numero fila sala)
    as [(e & -> & _)|(n & f & i & a & Hn & Hf & Hi & Ha & ->)].
  - split; [apply marco_refl|reflexivity].
  - apply (llamar_marco _ numero fila n f); auto using cancelar_conserva.
Qed.

(** C9.  [reservar_asiento] and [cancelar_reserva] change at most one
    seat of the room, which bears the row and number asked for; it stays
    where it is in the sequence and keeps its row, number and base price.
    The other seats, the length of the sequence and the prices and
    discounts of the room are as they were.  When the call raises, whatever
    the exception, the room is as it was. *)
Theorem marco_de_reserva (sala : t) (numero fila es_mayor_65 dia_espectador : value) :
  (marco numero fila sala
     (fst (reservar_asiento numero fila es_mayor_65 dia_espectador sala))
   /\ forall e,
       snd (reservar_asiento numero fila es_mayor_65 dia_espectador sala)
       = Raise e ->
       fst (reservar_asiento numero fila es_mayor_65 dia_espectador sala)
       = sala)
  /\ (marco numero fila sala (fst (cancelar_reserva numero fila sala))
      /\ forall e,
          snd (cancelar_reserva numero fila sala) = Raise e ->
          fst (cancelar_reserva numero fila sala) = sala).
Proof.
  split; [apply reservar_asiento_marco|apply cancelar_reserva_marco].
Qed.

(** [agregar_asiento], case by case. *)
Lemma agregar_asiento_eq (numero fila : value) (sala : t) :
  agregar_asiento numero fila sala =
  match validar_entrada numero, validar_entrada fila with
  | Ok n, Ok f =>
      if existsb (coincide n f) (asientos sala)
      then (sala, Raise (lanza f n AsientoDuplicadoError))
      else
        match validar_entrada (VNum (precio_base sala)) with
        | Ok p =>
            (set_asientos (asientos sala ++ [Asiento.Build n f false p p]) sala,
             Ok tt)
        | Raise e => (sala, Raise e)
        end
  | Raise e, _ => (sala, Raise e)
  | Ok _, Raise e => (sala, Raise e)
  end.
Proof.
  methods. unfold Asiento.init.
  destruct (validar_entrada numero) as [n|e]; cbn -[validar_entrada];
    [|reflexivity].
  destruct (validar_entrada fila) as [f|e]; cbn -[validar_entrada];
    [|reflexivity].
  destruct (existsb _ _);
    [unfold lanza; now destruct (mensaje f n)|].
  now destruct (validar_entrada (VNum (precio_base sala))).
Qed.

(** Every operation leaves the prices and discounts of the room alone. *)
Lemma cargar_lineas_asientos (l : list string) (sala : t) :
  exists l', fst (cargar_lineas l sala) = set_asientos l' sala.
Proof.
  revert sala. induction l as [|linea l IH]; intros sala; cbn.
  - exists (asientos sala). now rewrite set_asientos_id.
  - unfold bind.
    assert (exists l1, fst (cargar_linea linea sala) = set_asientos l1 sala)
      as [l1 H1].
    { unfold cargar_linea.
      destruct (split_coma (strip linea)) as [|c1 [|c2 [|c3 [|c4 [|c5 r]]]]];
        try (exists (asientos sala); now rewrite set_asientos_id).
      unfold bind, lift, get, modify, raise, ret, en_nuevo.
      repeat match goal with
             | |- context [match ?r with _ => _ end] =>
                 match r with
                 | context [match _ with _ => _ end] => fail 1
                 | _ => destruct r
                 end
             end;
        cbn; eauto; exists (asientos sala); now rewrite set_asientos_id. }
    destruct (cargar_linea linea sala) as [s1 [[]|e]]; cbn in *; subst s1.
    + destruct (IH (set_asientos l1 sala)) as [l' ->]. now exists l'.
    + now exists l1.
Qed.

Lemma ejecutar_asientos (op : operacion) (sala : t) :
  exists l', ejecutar op sala = set_asientos l' sala.
Proof.
  destruct op as [n f|n f|n f es dia|n f| |txt]; cbn [ejecutar].
  - rewrite agregar_asiento_eq.
    repeat match goal with
           | |- context [match ?r with _ => _ end] => destruct r
           end; cbn; eauto; exists (asientos sala); now rewrite set_asientos_id.
  - destruct (buscar_asiento_cases n f sala) as [(e & -> & _)|(?&?&?&?&_&_&_&_& ->)];
      exists (asientos sala); now rewrite set_asientos_id.
  - destruct (reservar_asiento_marco sala n f es dia) as [(H1 & H2 & H3 & _) _].
    exists (asientos (fst (reservar_asiento n f es dia sala))).
    destruct (fst (reservar_asiento n f es dia sala)), sala; cbn in *.
    unfold set_asientos; cbn. congruence.
  - destruct (cancelar_reserva_marco sala n f) as [(H1 & H2 & H3 & _) _].
    exists (asientos (fst (cancelar_reserva n f sala))).
    destruct (fst (cancelar_reserva n f sala)), sala; cbn in *.
    unfold set_asientos; cbn. congruence.
  - exists (asientos sala). now rewrite set_asientos_id.
  - apply cargar_lineas_asientos.
Qed.

(** The base price of a room is one the validation of the constructor
    let through, in every state. *)
Lemma alcanzable_precio_base (P : operacion -> Prop) (sala : t) :
  alcanzable P sala ->
  validar_entrada (VNum (precio_base sala)) = Ok (precio_base sala).
Proof.
  induction 1 as [p d m sala Hi|op sala _ _ IH].
  - unfold init in Hi.
    destruct (validar_entrada p) as [p'|] eqn:Hp; [|discriminate].
    destruct (validar_entrada d) as [d'|]; [|discriminate].
    destruct (validar_entrada m) as [m'|]; [|discriminate].
    cbn in Hi. destruct (_ || _); [discriminate|]. injection Hi as <-. cbn.
    apply validar_entrada_Ok in Hp as [_ Hp]. now rewrite Hp.
  - destruct (ejecutar_asientos op sala) as [l' ->]. exact IH.
Qed.

(** Whether seats are repeated depends on their places only. *)
Lemma sin_repetidos_lugar (l l' : list Asiento.t) :
  lugar <$> l' = lugar <$> l -> sin_repetidos l -> sin_repetidos l'.
Proof.
  intros Hl H i j a b Hi Hj Hab.
  assert (forall k c, l' !! k = Some c ->
            exists c', l !! k = Some c' /\ lugar c' = lugar c) as Hk.
  { intros k c Hc.
    assert ((lugar <$> l) !! k = Some (lugar c)) as Hc'
      by (rewrite <- Hl, list_lookup_fmap, Hc; reflexivity).
    rewrite list_lookup_fmap in Hc'.
    destruct (l !! k) as [c'|]; [|discriminate]. cbn in Hc'.
    exists c'. split; [reflexivity|congruence]. }
  destruct (Hk _ _ Hi) as (a' & Ha' & Ea). destruct (Hk _ _ Hj) as (b' & Hb' & Eb).
  apply (H i j a' b' Ha' Hb').
  unfold mismo_lugar, coincide, lugar in *.
  injection Ea as -> ->. injection Eb as -> ->. exact Hab.
Qed.

Lemma sin_repetidos_agregar (l : list Asiento.t) (a : Asiento.t) :
  sin_repetidos l ->
  existsb (coincide (Asiento.numero a) (Asiento.fila a)) l = false ->
  sin_repetidos (l ++ [a]).
Proof.
  intros H Hex i j b c Hi Hj Hbc.
  assert (forall d, d ∈ l -> mismo_lugar d a = false) as Hnew.
  { intros d Hd. apply list_elem_of_In in Hd.
    destruct (mismo_lugar d a) eqn:E; [|reflexivity].
    assert (existsb (coincide (Asiento.numero a) (Asiento.fila a)) l = true)
      by (apply existsb_exists; eauto).
    congruence. }
  apply lookup_snoc_Some in Hi as [[Hi1 Hi2]|[-> <-]];
    apply lookup_snoc_Some in Hj as [[Hj1 Hj2]|[-> <-]].
  - eauto.
  - rewrite Hnew in Hbc by (eapply list_elem_of_lookup_2; eauto). discriminate.
  - assert (mismo_lugar c a = true) as Hca.
    { unfold mismo_lugar, coincide in *.
      now rewrite (eqb_sym (Asiento.numero c)), (eqb_sym (Asiento.fila c)). }
    rewrite Hnew in Hca by (eapply list_elem_of_lookup_2; eauto). discriminate.
  - reflexivity.
Qed.

Lemma marco_lugar (numero fila : value) (sala sala' : t) :
  marco numero fila sala sala' ->
  lugar <$> asientos sala' = lugar <$> asientos sala.
Proof.
  intros (_ & _ & _ & Hlen & i & Hne & Hi).
  apply list_eq. intros j. rewrite !list_lookup_fmap.
  destruct (decide (j = i)) as [->|Hj]; [|now rewrite Hne].
  destruct (asientos sala !! i) as [a|] eqn:Ha.
  - destruct (asientos sala' !! i) as [a'|] eqn:Ha'.
    + cbn. destruct (Hi a a' eq_refl eq_refl) as [->|(_ & -> & _)]; reflexivity.
    + apply lookup_ge_None in Ha'. apply lookup_lt_Some in Ha. lia.
  - destruct (asientos sala' !! i) as [a'|] eqn:Ha'; [|reflexivity].
    apply lookup_ge_None in Ha. apply lookup_lt_Some in Ha'. lia.
Qed.

Lemma sin_repetidos_ejecutar (op : operacion) (sala : t) :
  sin_carga op -> sin_repetidos (asientos sala) ->
  sin_repetidos (asientos (ejecutar op sala)).
Proof.
  destruct op as [n f|n f|n f es dia|n f| |txt]; cbn [ejecutar sin_carga];
    intros Hop H.
  - rewrite agregar_asiento_eq.
    destruct (validar_entrada n) as [n'|]; [|exact H].
    destruct (validar_entrada f) as [f'|]; [|exact H].
    destruct (existsb _ _) eqn:Hex; [exact H|].
    destruct (validar_entrada (VNum (precio_base sala))); [|exact H].
    cbn. apply sin_repetidos_agregar; [exact H|exact Hex].
  - destruct (buscar_asiento_cases n f sala)
      as [(e & -> & _)|(?&?&?&?&_&_&_&_& ->)]; exact H.
  - destruct (reservar_asiento_marco sala n f es dia) as [Hm _].
    apply (sin_repetidos_lugar (asientos sala));
      [exact (marco_lugar _ _ _ _ Hm)|exact H].
  - destruct (cancelar_reserva_marco sala n f) as [Hm _].
    apply (sin_repetidos_lugar (asientos sala));
      [exact (marco_lugar _ _ _ _ Hm)|exact H].
  - exact H.
  - destruct Hop.
Qed.

(** C3, without [cargar_estado] for the invariant.  In every state a
    room reaches through its operations other than [cargar_estado], no two
    seats share their (row, number).  In every state a room reaches,
    [cargar_estado] included, [agregar_asiento] with a valid number and row
    raises [AsientoDuplicadoError] and leaves the room as it was when a seat
    of the room has that (row, number), whatever its price, and the number
    and the row can be written in the message; when no seat has them it
    puts a new seat behind the others, which stay in their order. *)
Theorem asientos_sin_repetir (sala : t) :
  (alcanzable sin_carga sala -> sin_repetidos (asientos sala))
  /\ (alcanzable cualquiera sala ->
      forall numero fila n f,
        validar_entrada numero = Ok n -> validar_entrada fila = Ok f ->
        ((exists a, a ∈ asientos sala /\ coincide n f a = true) ->
         se_escribe n -> se_escribe f ->
         agregar_asiento numero fila sala
         = (sala, Raise AsientoDuplicadoError))
        /\ ((forall a, a ∈ asientos sala -> coincide n f a = false) ->
            agregar_asiento numero fila sala
            = (set_asientos
                 (asientos sala
                  ++ [Asiento.Build n f false (precio_base sala)
                        (precio_base sala)])
                 sala, Ok tt))).
Proof.
  split.
  - intros Ha. induction Ha as [p d m sala Hi|op sala Hop _ IH].
    + unfold init in Hi.
      destruct (validar_entrada p) as [p'|]; [|discriminate].
      destruct (validar_entrada d) as [d'|]; [|discriminate].
      destruct (validar_entrada m) as [m'|]; [|discriminate].
      cbn in Hi. destruct (_ || _); [discriminate|]. injection Hi as <-.
      intros i j a b Hi. cbn in Hi. now rewrite lookup_nil in Hi.
    + now apply sin_repetidos_ejecutar.
  - intros Ha numero fila n f Hn Hf.
    rewrite agregar_asiento_eq, Hn, Hf, (alcanzable_precio_base _ _ Ha). split.
    + intros (a & Hin & Hc) Hsn Hsf.
      rewrite (lanza_se_escribe f n _ Hsf Hsn).
      assert (existsb (coincide n f) (asientos sala) = true) as ->; [|reflexivity].
      apply existsb_exists. exists a. split; [|exact Hc].
      now apply list_elem_of_In.
    + intros Hall.
      destruct (existsb (coincide n f) (asientos sala)) eqn:Hex; [|reflexivity].
      apply existsb_exists in Hex as (a & Hin & Hc).
      rewrite Hall in Hc by now apply list_elem_of_In. discriminate.
Qed.

Lemma sala_10_alcanzable (P : operacion -> Prop) : alcanzable P sala_10.
Proof.
  apply (alc_sala_init P (VFloat 10) (VFloat 0.20) (VFloat 0.30)). reflexivity.
Qed.

Lemma asientos_sin_repetir_witness :
  agregar_asiento (VInt 1) (VInt 1) (ejecutar (Agregar (VInt 1) (VInt 1)) sala_10)
  = (ejecutar (Agregar (VInt 1) (VInt 1)) sala_10, Raise AsientoDuplicadoError).
Proof.
  refine (proj1 (proj2 (asientos_sin_repetir
                          (ejecutar (Agregar (VInt 1) (VInt 1)) sala_10)) _
                   (VInt 1) (VInt 1) (NInt 1) (NInt 1) eq_refl eq_refl) _ _ _).
  - apply alc_ejecutar; [exact I|apply sala_10_alcanzable].
  - exists asiento_1_1. split; [|reflexivity].
    apply list_elem_of_lookup. exists 0%nat. reflexivity.
  - eexists. reflexivity.
  - eexists. reflexivity.
Defined.

(** C10.  The validation of numbers takes [True] for a positive number:
    [agregar_asiento(True, 1)] on the room of the driver returns, and the
    seat it adds has a number equal to 1.  The validation of flags does not
    take 1 for a boolean: [reservar(1, 1)] and [reservar_asiento] with such
    flags raise [ValueError] on every seat and in every room, and change
    nothing. *)
Theorem booleanos_y_numeros :
  validar_entrada (VBool true) = Ok (NBool true)
  /\ (exists a,
        agregar_asiento (VBool true) (VInt 1) sala_10
        = (set_asientos [a] sala_10, Ok tt)
        /\ Asiento.numero a = NBool true
        /\ eqb (Asiento.numero a) (NInt 1) = true)
  /\ validar_tipo_booleano (VInt 1) = Raise ValueError
  /\ (forall a : Asiento.t,
        Asiento.reservar (VInt 1) (VInt 1) a = (a, Raise ValueError))
  /\ (forall (sala : t) (numero fila : value),
        reservar_asiento numero fila (VInt 1) (VInt 1) sala
        = (sala, Raise ValueError)).
Proof.
  split; [reflexivity|]. split.
  - eexists. split; [reflexivity|]. split; reflexivity.
  - split; [reflexivity|]. split; reflexivity.
Qed.

End PropiedadesSala.

(** ** Text *)

Section Texto.
Local Open Scope string_scope.

Lemma append_assoc (a b c : string) : (a ++ b) ++ c = a ++ b ++ c.
Proof. induction a as [|x a IH]; cbn; [reflexivity|]. now rewrite IH. Qed.

Lemma append_nil_r (a : string) : a ++ "" = a.
Proof. induction a as [|x a IH]; cbn; [reflexivity|]. now rewrite IH. Qed.

Lemma todos_app (p : ascii -> bool) (a b : string) :
  todos p (a ++ b) = todos p a && todos p b.
Proof.
  induction a as [|c a IH]; cbn; [reflexivity|].
  now rewrite IH, andb_assoc.
Qed.

Lemma todos_impl (p q : ascii -> bool) (s : string) :
  (forall c, p c = true -> q c = true) -> todos p s = true -> todos q s = true.
Proof.
  intros H. induction s as [|c s IH]; cbn; [reflexivity|].
  intros [Hc Hs]%andb_prop. now rewrite (H _ Hc), IH.
Qed.

Lemma todos_list (p : ascii -> bool) (l : list ascii) :
  todos p (string_of_list_ascii l) = forallb p l.
Proof. induction l as [|c l IH]; cbn; [reflexivity|]. now rewrite IH. Qed.

Lemma forallb_list (p : ascii -> bool) (s : string) :
  forallb p (list_ascii_of_string s) = todos p s.
Proof. induction s as [|c s IH]; cbn; [reflexivity|]. now rewrite IH. Qed.

Lemma forallb_rev (p : ascii -> bool) (l : list ascii) :
  forallb p (rev l) = forallb p l.
Proof.
  induction l as [|c l IH]; cbn; [reflexivity|].
  rewrite forallb_app, IH. cbn. rewrite andb_true_r. apply andb_comm.
Qed.

Lemma list_ascii_app (a b : string) :
  list_ascii_of_string (a ++ b)
  = (list_ascii_of_string a ++ list_ascii_of_string b)%list.
Proof. induction a as [|c a IH]; cbn; [reflexivity|]. now rewrite IH. Qed.

Lemma es_digito_de_campo (c : ascii) :
  digito_o_menos c = true -> de_campo c = true.
Proof.
  destruct c as [[] [] [] [] [] [] [] []]; cbn; intros H;
    try reflexivity; discriminate H.
Qed.

Lemma es_digito_digito_o_menos (c : ascii) :
  es_digito c = true -> digito_o_menos c = true.
Proof. unfold digito_o_menos. now intros ->. Qed.

(** *** Integers in decimal *)

Lemma string_of_uint_digitos (d : Decimal.uint) :
  todos es_digito (NilEmpty.string_of_uint d) = true.
Proof. induction d; cbn; auto. Qed.

Lemma nilzero_string_of_uint_digitos (d : Decimal.uint) :
  todos es_digito (NilZero.string_of_uint d) = true.
Proof. destruct d; [reflexivity|apply string_of_uint_digitos..]. Qed.

Lemma decimal_digito_o_menos (z : Z) : todos digito_o_menos (decimal z) = true.
Proof.
  unfold decimal, NilZero.string_of_int.
  destruct (Z.to_int z) as [d|d]; cbn [todos];
    change (digito_o_menos "-") with true; cbn [andb];
    apply (todos_impl es_digito);
    auto using es_digito_digito_o_menos, nilzero_string_of_uint_digitos.
Qed.

Lemma decimal_digitos (z : Z) :
  0 <= z -> todos es_digito (decimal z) = true /\ decimal z <> "".
Proof.
  intros Hz. unfold decimal, NilZero.string_of_int, NilZero.string_of_uint.
  destruct z as [|p|p]; [now cbn| |lia]. cbn [Z.to_int].
  pose proof (Unsigned.to_uint_nonnil p) as Hnil.
  destruct (Pos.to_uint p) as [|d|d|d|d|d|d|d|d|d|d] eqn:E; try congruence;
    (split; [apply string_of_uint_digitos|discriminate]).
Qed.

(** The digits of a literal are read as the number they write. *)
Lemma digitos_paso (k : N) (c : ascii) (s : string) (acc : N) :
  valor_digito c = Some (Z.of_N k) ->
  digitos (Z.of_N acc) (String c s) = digitos (Z.of_N (acc * 10 + k)) s.
Proof.
  intros H. cbn [digitos]. rewrite H. f_equal. lia.
Qed.

Lemma digitos_string_of_uint (d : Decimal.uint) (acc : N) :
  digitos (Z.of_N acc) (NilEmpty.string_of_uint d)
  = Some (Z.of_N match acc with
                 | N0 => Pos.of_uint d
                 | Npos p => Npos (Pos.of_uint_acc d p)
                 end).
Proof.
  revert acc.
  induction d as [|d IH|d IH|d IH|d IH|d IH|d IH|d IH|d IH|d IH|d IH];
    intros acc; cbn [NilEmpty.string_of_uint];
    [now destruct acc
    |rewrite (digitos_paso 0) by reflexivity
    |rewrite (digitos_paso 1) by reflexivity
    |rewrite (digitos_paso 2) by reflexivity
    |rewrite (digitos_paso 3) by reflexivity
    |rewrite (digitos_paso 4) by reflexivity
    |rewrite (digitos_paso 5) by reflexivity
    |rewrite (digitos_paso 6) by reflexivity
    |rewrite (digitos_paso 7) by reflexivity
    |rewrite (digitos_paso 8) by reflexivity
    |rewrite (digitos_paso 9) by reflexivity];
    rewrite IH; destruct acc as [|p]; cbn; try reflexivity;
    match goal with
    | |- Some (Z.of_N match ?n with N0 => _ | Npos _ => _ end)
         = Some (Z.pos (Pos.of_uint_acc _ ?y)) =>
        replace n with (N.pos y) by lia
    end;
    reflexivity.
Qed.

Lemma natural_string_of_uint (d : Decimal.uint) :
  d <> Decimal.Nil ->
  natural (NilEmpty.string_of_uint d) = Some (Z.of_N (Pos.of_uint d)).
Proof.
  intros Hd. rewrite <- (digitos_string_of_uint d 0).
  destruct d; [congruence|..]; cbn [NilEmpty.string_of_uint natural digitos];
    match goal with
    | |- context [valor_digito ?c] =>
        let k := eval vm_compute in (valor_digito c) in
        change (valor_digito c) with k
    end;
    reflexivity.
Qed.

Lemma quita_id (p : ascii -> bool) (l : list ascii) :
  forallb (fun c => negb (p c)) l = true -> quita p l = l.
Proof.
  destruct l as [|c l]; cbn; [reflexivity|].
  intros [Hc _]%andb_prop. now destruct (p c).
Qed.

Lemma recorta_id (p : ascii -> bool) (s : string) :
  todos (fun c => negb (p c)) s = true -> recorta p s = s.
Proof.
  intros H. unfold recorta.
  rewrite (quita_id p (list_ascii_of_string s)) by now rewrite forallb_list.
  rewrite quita_id by now rewrite forallb_rev, forallb_list.
  now rewrite rev_involutive, string_of_list_ascii_of_string.
Qed.

Lemma digito_no_blanco (c : ascii) :
  digito_o_menos c = true -> negb (es_blanco c) = true.
Proof.
  destruct c as [[] [] [] [] [] [] [] []]; cbn; intros H;
    try reflexivity; discriminate H.
Qed.

(** A literal as [decimal] writes it is read as its number. *)
Lemma literal_decimal (z : Z) :
  match decimal z with
  | String c s' =>
      if Ascii.eqb c "-"%char then option_map Z.opp (natural s')
      else if Ascii.eqb c "+"%char then natural s'
      else natural (String c s')
  | EmptyString => None
  end = Some z.
Proof.
  unfold decimal, NilZero.string_of_int, NilZero.string_of_uint.
  destruct z as [|p|p]; [reflexivity|..]; cbn [Z.to_int];
    pose proof (Unsigned.to_uint_nonnil p) as Hnil;
    pose proof (natural_string_of_uint _ Hnil) as Hnat;
    rewrite DecimalPos.Unsigned.of_to in Hnat;
    destruct (Pos.to_uint p) as [|d|d|d|d|d|d|d|d|d|d] eqn:E; try congruence;
    cbn [NilEmpty.string_of_uint Ascii.eqb Bool.eqb] in *;
    try (rewrite Hnat; reflexivity).
Qed.

(** The digits [int] counts in what [decimal] wrote are the digits of the
    number. *)
Lemma cuenta_digitos_todos (s : string) :
  todos es_digito s = true -> cuenta_digitos s = Z.of_nat (String.length s).
Proof.
  induction s as [|c s IH]; [reflexivity|]. cbn [todos cuenta_digitos].
  intros [Hc Hs]%andb_prop. unfold valor_digito.
  unfold es_digito in Hc. rewrite Hc, (IH Hs). cbn [String.length]. lia.
Qed.

Lemma decimal_neg (p : positive) :
  decimal (Z.neg p) = String "-" (decimal (Z.pos p)).
Proof. reflexivity. Qed.

Lemma cuenta_digitos_decimal (z : Z) : cuenta_digitos (decimal z) = cifras z.
Proof.
  unfold cifras. destruct z as [|p|p]; cbn [Z.abs].
  - reflexivity.
  - apply cuenta_digitos_todos. now apply decimal_digitos.
  - rewrite decimal_neg. cbn [cuenta_digitos].
    change (valor_digito "-") with (@None Z).
    apply cuenta_digitos_todos. now apply decimal_digitos.
Qed.

Lemma str_int_Ok (z : Z) :
  (cifras z <= max_str_digits)%Z -> str_int z = Ok (decimal z).
Proof.
  intros H. unfold str_int. now rewrite (proj2 (Z.ltb_ge _ _) H).
Qed.

Lemma se_escribe_cifras (z : Z) :
  se_escribe (NInt z) <-> (cifras z <= max_str_digits)%Z.
Proof.
  unfold se_escribe. cbn [str]. unfold str_int.
  destruct (max_str_digits <? cifras z)%Z eqn:E.
  - apply Z.ltb_lt in E. split; [intros [s H]; discriminate H|lia].
  - apply Z.ltb_ge in E. split; [auto|eauto].
Qed.

(** [int] reads back what [str] wrote. *)
Lemma int_of_str_decimal (z : Z) :
  (cifras z <= max_str_digits)%Z -> int_of_str (decimal z) = Ok z.
Proof.
  intros Hz. unfold int_of_str.
  rewrite recorta_id
    by eauto using todos_impl, digito_no_blanco, decimal_digito_o_menos.
  rewrite cuenta_digitos_decimal, (proj2 (Z.ltb_ge _ _) Hz).
  now rewrite literal_decimal.
Qed.

(** A literal of too many digits is not read. *)
Lemma int_of_str_cifras (z : Z) :
  (max_str_digits < cifras z)%Z -> int_of_str (decimal z) = Raise ValueError.
Proof.
  intros Hz. unfold int_of_str.
  rewrite recorta_id
    by eauto using todos_impl, digito_no_blanco, decimal_digito_o_menos.
  now rewrite cuenta_digitos_decimal, (proj2 (Z.ltb_lt _ _) Hz).
Qed.

(** *** Rendering of floats *)

Lemma is_finite_Prim2SF (f : float) :
  is_finite f = true ->
  (exists s, Prim2SF f = S754_zero s) \/ (exists s m e, Prim2SF f = S754_finite s m e).
Proof.
  unfold is_finite, is_nan, is_infinity.
  rewrite !FloatAxioms.eqb_spec, abs_spec.
  change (Prim2SF infinity) with (S754_infinity false).
  destruct (Prim2SF f) as [s|[]| |s m e]; cbn; intros H;
    try discriminate H; eauto.
Qed.

Lemma es_digito_digit (k : Z) : 0 <= k <= 9 -> es_digito (digit k) = true.
Proof.
  intros H.
  assert (k = 0 \/ k = 1 \/ k = 2 \/ k = 3 \/ k = 4 \/ k = 5 \/ k = 6
          \/ k = 7 \/ k = 8 \/ k = 9) as Hk by lia.
  repeat destruct Hk as [->|Hk]; try subst k; reflexivity.
Qed.

Lemma round_half_even_nonneg (p q : Z) : 0 <= p -> 0 < q -> 0 <= round_half_even p q.
Proof.
  intros Hp Hq. unfold round_half_even.
  pose proof (Z.div_pos p q Hp Hq).
  destruct (2 * (p mod q) ?= q)%Z; [destruct (Z.even _)|..]; lia.
Qed.

(** The hundredths a finite float is rounded to. *)
Lemma centesimas_nonneg (m : positive) (e : Z) :
  0 <= (if (0 <=? e)%Z then Zpos m * 100 * 2 ^ e
        else round_half_even (Zpos m * 100) (2 ^ (- e))).
Proof.
  destruct (0 <=? e)%Z eqn:E.
  - apply Z.leb_le in E. pose proof (Z.pow_nonneg 2 e). nia.
  - apply Z.leb_gt in E. apply round_half_even_nonneg; [lia|].
    apply Z.pow_pos_nonneg; lia.
Qed.

Lemma format_2f_float_finito (f : float) :
  is_finite f = true -> dos_decimales (format_2f_float f).
Proof.
  intros [[s Hf]|(s & m & e & Hf)]%is_finite_Prim2SF;
    unfold format_2f_float; rewrite Hf.
  - exists s, "0", "0"%char, "0"%char. repeat split; try reflexivity.
    discriminate.
  - pose proof (centesimas_nonneg m e) as Hc.
    set (c := if (0 <=? e)%Z then _ else _) in *.
    destruct (decimal_digitos (c / 100)) as [Hd Hne];
      [apply Z.div_pos; lia|].
    eexists s, _, _, _. split; [reflexivity|].
    repeat split; try assumption; apply es_digito_digit.
    + pose proof (Z.mod_pos_bound c 100). 
      assert (0 <= c mod 100 / 10 < 10); [|lia].
      split; [apply Z.div_pos; lia|apply Z.div_lt_upper_bound; lia].
    + pose proof (Z.mod_pos_bound c 10). lia.
Qed.

Lemma decimal_de_campo (z : Z) : todos de_campo (decimal z) = true.
Proof.
  eauto using todos_impl, es_digito_de_campo, decimal_digito_o_menos.
Qed.

Lemma signo_de_campo (s : bool) : todos de_campo (signo s) = true.
Proof. now destruct s. Qed.

Lemma digit_de_campo (k : Z) : 0 <= k <= 9 -> de_campo (digit k) = true.
Proof.
  intros H. apply es_digito_de_campo, es_digito_digito_o_menos.
  now apply es_digito_digit.
Qed.

Lemma format_2f_float_de_campo (f : float) :
  todos de_campo (format_2f_float f) = true.
Proof.
  unfold format_2f_float.
  destruct (Prim2SF f) as [s|s| |s m e]; try (now destruct s); [reflexivity|].
  set (c := if (0 <=? e)%Z then _ else _).
  rewrite !todos_app, signo_de_campo, decimal_de_campo. cbn.
  rewrite !digit_de_campo; [reflexivity|..].
  - pose proof (Z.mod_pos_bound c 10). lia.
  - pose proof (Z.mod_pos_bound c 100).
    assert (0 <= c mod 100 / 10 < 10); [|lia].
    split; [apply Z.div_pos; lia|apply Z.div_lt_upper_bound; lia].
Qed.

Lemma todos_substring (p : ascii -> bool) (s : string) (n m : nat) :
  todos p s = true -> todos p (substring n m s) = true.
Proof.
  revert n m. induction s as [|c s IH]; intros [|n] [|m]; cbn; auto.
  - intros [Hc Hs]%andb_prop. now rewrite Hc, IH.
  - intros [Hc Hs]%andb_prop. now apply IH.
  - intros [Hc Hs]%andb_prop. now apply IH.
Qed.

Lemma ceros_de_campo (n : Z) : todos de_campo (ceros n) = true.
Proof.
  unfold ceros. rewrite todos_list.
  induction (Z.to_nat n) as [|k IH]; cbn; [reflexivity|exact IH].
Qed.

Lemma forallb_quita_ceros (p : ascii -> bool) (l : list ascii) :
  forallb p l = true -> forallb p (quita_ceros l) = true.
Proof.
  induction l as [|c l IH]; cbn; [reflexivity|].
  intros [Hc Hl]%andb_prop. destruct (Ascii.eqb c "0"); [auto|].
  cbn. now rewrite Hc, Hl.
Qed.

Lemma repr_digits_de_campo (ds : string) (pt : Z) :
  todos de_campo ds = true -> todos de_campo (repr_digits ds pt) = true.
Proof.
  intros Hds. unfold repr_digits.
  destruct ((pt <=? -4)%Z || (16 <? pt)%Z).
  - rewrite !todos_app, decimal_de_campo, andb_true_r.
    assert (todos de_campo
              match ds with
              | String c EmptyString => ds
              | String c r => String c ("." ++ r)
              | EmptyString => ds
              end = true) as ->.
    { destruct ds as [|c [|c' r]]; cbn in *; assumption. }
    now destruct (pt - 1 <? 0)%Z, (Z.abs (pt - 1) <? 10)%Z.
  - destruct (pt <=? 0)%Z; [|destruct (_ <=? pt)%Z];
      rewrite !todos_app, ?ceros_de_campo, ?Hds, ?todos_substring by assumption;
      reflexivity.
Qed.

Lemma repr_float_de_campo (f : float) : todos de_campo (repr_float f) = true.
Proof.
  unfold repr_float.
  destruct (Prim2SF f) as [s|s| |s m e]; try (now destruct s); [reflexivity|].
  destruct (mas_corto _ _ _ _ _ _ _ _) as [d x].
  rewrite todos_app, signo_de_campo. apply repr_digits_de_campo.
  rewrite todos_list, forallb_rev. apply forallb_quita_ceros.
  rewrite forallb_rev, forallb_list. apply decimal_de_campo.
Qed.

Lemma texto_de_campo (n : number) : todos de_campo (texto n) = true.
Proof.
  destruct n as [[]|z|f]; cbn [texto]; try reflexivity;
    auto using decimal_de_campo, repr_float_de_campo.
Qed.

(** *** Lines and fields *)

Lemma de_campo_no_coma (c : ascii) :
  de_campo c = true -> Ascii.eqb c "," = false.
Proof. unfold de_campo. now destruct (Ascii.eqb c ","). Qed.

Lemma de_campo_no_espacio (c : ascii) :
  de_campo c = true -> negb (es_espacio c) = true.
Proof. unfold de_campo. now intros [_ ->]%andb_prop. Qed.

Lemma no_espacio_no_nl (c : ascii) :
  negb (es_espacio c) = true -> Ascii.eqb c (ascii_of_nat 10) = false.
Proof.
  intros H. destruct (Ascii.eqb c (ascii_of_nat 10)) eqn:E; [|reflexivity].
  apply Ascii.eqb_eq in E as ->. discriminate H.
Qed.

Lemma split_coma_campo (s : string) :
  todos de_campo s = true -> split_coma s = [s].
Proof.
  induction s as [|c s IH]; cbn; [reflexivity|].
  intros [Hc Hs]%andb_prop. now rewrite (de_campo_no_coma c Hc), IH.
Qed.

Lemma split_coma_app (a rest : string) :
  todos de_campo a = true ->
  split_coma (a ++ "," ++ rest) = a :: split_coma rest.
Proof.
  change ("," ++ rest) with (String "," rest).
  induction a as [|c a IH]; cbn [append split_coma todos]; [reflexivity|].
  intros [Hc Ha]%andb_prop.
  now rewrite (de_campo_no_coma c Hc), (IH Ha).
Qed.

Lemma lineas_app (cuerpo resto : string) :
  todos (fun c => negb (es_espacio c)) cuerpo = true ->
  lineas (cuerpo ++ nl ++ resto) = (cuerpo ++ nl) :: lineas resto.
Proof.
  induction cuerpo as [|c b IH]; cbn [append lineas todos]; [reflexivity|].
  intros [Hc Hb]%andb_prop.
  now rewrite (no_espacio_no_nl c Hc), (IH Hb).
Qed.

Lemma quita_rev_quita (p : ascii -> bool) (l : list ascii) (c : ascii) :
  forallb (fun c => negb (p c)) l = true -> p c = true ->
  rev (quita p (rev (quita p (l ++ [c])%list))) = l.
Proof.
  intros Hl Hc.
  assert (quita p (l ++ [c])%list = (l ++ [c])%list \/ l = []) as [->| ->].
  { destruct l as [|b l]; [now right|left]. cbn in *.
    apply andb_prop in Hl as [Hb _]. now destruct (p b). }
  - rewrite rev_app_distr. cbn [rev app quita]. rewrite Hc.
    rewrite quita_id by now rewrite forallb_rev.
    apply rev_involutive.
  - cbn. now rewrite Hc.
Qed.

Lemma strip_linea (cuerpo : string) :
  todos (fun c => negb (es_espacio c)) cuerpo = true ->
  strip (cuerpo ++ nl) = cuerpo.
Proof.
  intros H. unfold strip, recorta.
  rewrite list_ascii_app. cbn [list_ascii_of_string nl].
  rewrite quita_rev_quita.
  - apply string_of_list_ascii_of_string.
  - now rewrite forallb_list.
  - reflexivity.
Qed.

End Texto.

(** ** Integers of more than 4300 digits *)

Section NumerosLargos.

Lemma valor_digito_cota (c : ascii) :
  es_digito c = true -> exists d, valor_digito c = Some d /\ 0 <= d <= 9.
Proof.
  unfold es_digito, valor_digito. intros H. rewrite H.
  apply andb_prop in H as [H1 H2]. apply Z.leb_le in H1, H2.
  eexists. split; [reflexivity|lia].
Qed.

(** What a literal of [k] digits is read as is below [10 ^ k]. *)
Lemma digitos_cota (s : string) (acc v : Z) :
  todos es_digito s = true -> 0 <= acc -> digitos acc s = Some v ->
  v < (acc + 1) * 10 ^ Z.of_nat (String.length s).
Proof.
  revert acc. induction s as [|c s IH]; intros acc Hs Hacc;
    cbn [digitos String.length todos] in *.
  - intros [= <-]. rewrite Z.pow_0_r. lia.
  - apply andb_prop in Hs as [Hc Hs].
    destruct (valor_digito_cota c Hc) as (d & -> & Hd). intros H.
    apply IH in H; [|assumption|lia].
    rewrite Nat2Z.inj_succ.
    rewrite Z.pow_succ_r by apply Nat2Z.is_nonneg.
    assert (0 < 10 ^ Z.of_nat (String.length s)) as Hpos
      by (apply Z.pow_pos_nonneg; lia).
    set (P := 10 ^ Z.of_nat (String.length s)) in *.
    apply Z.lt_le_trans with (1 := H).
    replace ((acc + 1) * (10 * P)) with ((acc * 10 + 10) * P) by ring.
    apply Z.mul_le_mono_nonneg_r; lia.
Qed.

Lemma cifras_cota_pos (p : positive) : Z.pos p < 10 ^ cifras (Z.pos p).
Proof.
  unfold cifras. change (Z.abs (Z.pos p)) with (Z.pos p).
  pose proof (literal_decimal (Z.pos p)) as H.
  destruct (decimal_digitos (Z.pos p)) as [Hd Hne]; [lia|].
  destruct (decimal (Z.pos p)) as [|c s] eqn:E; [congruence|].
  cbn [todos] in Hd. apply andb_prop in Hd as [Hc Hs].
  destruct (Ascii.eqb_spec c "-") as [->|_]; [discriminate Hc|].
  destruct (Ascii.eqb_spec c "+") as [->|_]; [discriminate Hc|].
  unfold natural in H. destruct (valor_digito_cota c Hc) as (d & Hv & Hd).
  rewrite Hv in H. apply digitos_cota in H; [|assumption|lia].
  cbn [String.length].
  rewrite Nat2Z.inj_succ.
    rewrite Z.pow_succ_r by apply Nat2Z.is_nonneg.
  assert (0 < 10 ^ Z.of_nat (String.length s)) as Hpos
    by (apply Z.pow_pos_nonneg; lia).
  set (P := 10 ^ Z.of_nat (String.length s)) in *.
  apply Z.lt_le_trans with (1 := H).
  apply Z.mul_le_mono_nonneg_r; lia.
Qed.

(** An integer is below the power of ten of its number of digits. *)
Lemma cifras_cota (z : Z) : Z.abs z < 10 ^ cifras z.
Proof.
  destruct z as [|p|p]; [reflexivity|apply cifras_cota_pos..].
Qed.

Lemma cifras_grande (z : Z) :
  10 ^ max_str_digits <= Z.abs z -> max_str_digits < cifras z.
Proof.
  intros H.
  destruct (Z.lt_ge_cases max_str_digits (cifras z)) as [Hlt|Hle];
    [exact Hlt|].
  exfalso. apply (Z.lt_irrefl (Z.abs z)).
  eapply Z.lt_le_trans; [apply cifras_cota|].
  eapply Z.le_trans; [|exact H].
  apply Z.pow_le_mono_r; [reflexivity|exact Hle].
Qed.

Lemma numero_largo_pos : 0 < numero_largo.
Proof. apply Z.pow_pos_nonneg; [reflexivity|discriminate]. Qed.

(** [10**4300] cannot be written. *)
Lemma numero_largo_no_se_escribe : ~ se_escribe (NInt numero_largo).
Proof.
  rewrite se_escribe_cifras. apply Z.lt_nge, cifras_grande.
  rewrite Z.abs_eq by apply Z.lt_le_incl, numero_largo_pos.
  apply Z.le_refl.
Qed.

Lemma validar_entrada_entero (n : Z) :
  0 < n -> validar_entrada (VInt n) = Ok (NInt n).
Proof.
  intros H. cbn. unfold leb. cbn.
  now rewrite (proj2 (Z.compare_gt_iff n 0) H).
Qed.

(** What the code does with a seat whose number is positive and cannot be
    written, in the room of the driver. *)
Lemma lanza_no_escrito (z : Z) (e : exn) :
  ~ se_escribe (NInt z) -> lanza (NInt 1) (NInt z) e = ValueError.
Proof. intros H. apply lanza_no_se_escribe. tauto. Qed.

Lemma init_no_escrito (z : Z) :
  0 < z ->
  Asiento.init (VInt z) (VInt 1) (VFloat 10)
  = Ok (Asiento.Build (NInt z) (NInt 1) false (NFloat 10) (NFloat 10)).
Proof.
  intros Hz. unfold Asiento.init. now rewrite (validar_entrada_entero _ Hz).
Qed.

Lemma reservar_no_escrito (z : Z) :
  Asiento.reservar (VBool false) (VBool false)
    (Asiento.Build (NInt z) (NInt 1) false (NFloat 10) (NFloat 10))
  = (Asiento.Build (NInt z) (NInt 1) true (NFloat 10) (NFloat 10), Ok tt).
Proof.
  rewrite reservar_bool.
  cbn [Asiento.reservado Asiento.precio_base Asiento.numero Asiento.fila].
  now rewrite calcular_precio_sin_descuento_float.
Qed.

Lemma reservar_reservado_no_escrito (z : Z) :
  ~ se_escribe (NInt z) ->
  snd (Asiento.reservar (VBool false) (VBool false)
         (Asiento.Build (NInt z) (NInt 1) true (NFloat 10) (NFloat 10)))
  = Raise ValueError.
Proof.
  intros H. rewrite reservar_bool.
  cbn [snd Asiento.reservado Asiento.fila Asiento.numero].
  now rewrite lanza_no_escrito.
Qed.

Lemma cancelar_no_escrito (z : Z) :
  ~ se_escribe (NInt z) ->
  snd (Asiento.cancelar_reserva
         (Asiento.Build (NInt z) (NInt 1) false (NFloat 10) (NFloat 10)))
  = Raise ValueError.
Proof.
  intros H. rewrite cancelar_reserva_eq.
  cbn [snd Asiento.reservado Asiento.fila Asiento.numero].
  now rewrite lanza_no_escrito.
Qed.

Lemma sala_no_escrito (z : Z) :
  0 < z ->
  ejecutar (Agregar (VInt z) (VInt 1)) sala_10
  = SalaCine.Build (NFloat 10) (NFloat 0.20) (NFloat 0.30)
      [Asiento.Build (NInt z) (NInt 1) false (NFloat 10) (NFloat 10)].
Proof.
  intros Hz. cbn [ejecutar].
  now rewrite agregar_asiento_eq, (validar_entrada_entero _ Hz).
Qed.

Lemma agregar_no_escrito (z : Z) :
  0 < z -> ~ se_escribe (NInt z) ->
  SalaCine.agregar_asiento (VInt z) (VInt 1)
    (SalaCine.Build (NFloat 10) (NFloat 0.20) (NFloat 0.30)
       [Asiento.Build (NInt z) (NInt 1) false (NFloat 10) (NFloat 10)])
  = (SalaCine.Build (NFloat 10) (NFloat 0.20) (NFloat 0.30)
       [Asiento.Build (NInt z) (NInt 1) false (NFloat 10) (NFloat 10)],
     Raise ValueError).
Proof.
  intros Hz H.
  rewrite agregar_asiento_eq, (validar_entrada_entero _ Hz).
  change (validar_entrada (VInt 1)) with (Ok (NInt 1)). cbv iota.
  cbn [SalaCine.asientos existsb].
  unfold SalaCine.coincide at 1. cbn [Asiento.numero Asiento.fila].
  unfold eqb at 1. cbn [compare as_int]. rewrite Z.compare_refl.
  change (eqb (NInt 1) (NInt 1)) with true. cbn [andb orb].
  now rewrite lanza_no_escrito.
Qed.

Lemma guardar_no_escrito (z : Z) :
  ~ se_escribe (NInt z) ->
  SalaCine.guardar_estado
    (SalaCine.Build (NFloat 10) (NFloat 0.20) (NFloat 0.30)
       [Asiento.Build (NInt z) (NInt 1) false (NFloat 10) (NFloat 10)])
  = (EmptyString, Raise ValueError).
Proof.
  intros H. unfold SalaCine.guardar_estado.
  cbn [SalaCine.asientos SalaCine.escribir].
  unfold bind, lift, SalaCine.linea_de.
  cbn [Asiento.numero Asiento.fila].
  change (str (NInt 1)) with (Ok "1"%string). cbn [rbind].
  now rewrite (no_se_escribe_str _ H).
Qed.

Lemma sala_cifras_eq :
  sala_cifras
  = SalaCine.Build (NFloat 10) (NFloat 0.20) (NFloat 0.30) [asiento_cifras].
Proof. exact (sala_no_escrito numero_largo numero_largo_pos). Qed.

(** C5, where the code departs from it.  [Asiento(10**4300, 1, 10.0)]
    is a seat the constructor accepts.  Once reserved, [reservar] with two
    booleans does not raise [AsientoReservadoError] on it, and while it is
    free [cancelar_reserva] does not raise [AsientoNoReservadoError]: the
    message of the exception holds the number of the seat, and building it
    raises [ValueError], for the number has 4301 digits. *)
Theorem errores_de_estado_cifras :
  Asiento.init (VInt numero_largo) (VInt 1) (VFloat 10) = Ok asiento_cifras
  /\ Asiento.reservado
       (fst (Asiento.reservar (VBool false) (VBool false) asiento_cifras))
     = true
  /\ snd (Asiento.reservar (VBool false) (VBool false)
            (fst (Asiento.reservar (VBool false) (VBool false)
                    asiento_cifras)))
     = Raise ValueError
  /\ Asiento.reservado asiento_cifras = false
  /\ snd (Asiento.cancelar_reserva asiento_cifras) = Raise ValueError
  /\ (max_str_digits < cifras numero_largo
      /\ ~ se_escribe (Asiento.numero asiento_cifras)).
Proof.
  pose proof (reservar_no_escrito numero_largo) as Hr.
  fold asiento_cifras in Hr.
  split; [exact (init_no_escrito numero_largo numero_largo_pos)|].
  split; [now rewrite Hr|].
  split; [rewrite Hr;
          exact (reservar_reservado_no_escrito _ numero_largo_no_se_escribe)|].
  split; [reflexivity|].
  split; [exact (cancelar_no_escrito _ numero_largo_no_se_escribe)|].
  split; [|exact numero_largo_no_se_escribe].
  apply Z.nle_gt. rewrite <- se_escribe_cifras.
  exact numero_largo_no_se_escribe.
Qed.

(** What the room does with that seat: it does not tell a second
    [agregar_asiento] from an invalid argument, and it is not saved. *)
Lemma agregar_cifras :
  SalaCine.agregar_asiento (VInt numero_largo) (VInt 1) sala_cifras
  = (sala_cifras, Raise ValueError).
Proof.
  rewrite sala_cifras_eq.
  exact (agregar_no_escrito _ numero_largo_pos numero_largo_no_se_escribe).
Qed.

Lemma guardar_cifras :
  SalaCine.guardar_estado sala_cifras = (EmptyString, Raise ValueError).
Proof.
  rewrite sala_cifras_eq.
  exact (guardar_no_escrito _ numero_largo_no_se_escribe).
Qed.

(** C3 as it stands fails: [cargar_estado] is an operation of the room,
    and after it the room can hold the seat (1, 1) twice.  And a seat whose
    number has 4301 digits, added a second time, makes [agregar_asiento]
    raise [ValueError]: the message of [AsientoDuplicadoError] cannot be
    built. *)
Lemma asientos_repetidos_tras_cargar :
  ~ (forall sala,
       alcanzable cualquiera sala -> sin_repetidos (SalaCine.asientos sala))
  /\ SalaCine.agregar_asiento (VInt numero_largo) (VInt 1) sala_cifras
     = (sala_cifras, Raise ValueError).
Proof.
  split; [|exact agregar_cifras].
  intros H.
  assert (alcanzable cualquiera sala_repetida) as Ha.
  { unfold sala_repetida.
    repeat (apply alc_ejecutar; [exact I|]). apply sala_10_alcanzable. }
  specialize (H _ Ha 0%nat 1%nat asiento_1_1 asiento_1_1).
  discriminate H; reflexivity.
Qed.

End NumerosLargos.

(** ** Saving and loading *)

Section Persistencia.
Import SalaCine.
Local Open Scope string_scope.

(** The part of a line before its end, and its fields. *)
Lemma linea_formato_cuerpo (r l : string) (a : Asiento.t) (precio : string) :
  todos de_campo r = true -> todos de_campo l = true ->
  todos de_campo precio = true ->
  exists cuerpo,
    linea_formato r l a precio = cuerpo ++ nl
    /\ todos (fun c => negb (es_espacio c)) cuerpo = true
    /\ split_coma cuerpo
       = [texto (Asiento.fila a); texto (Asiento.numero a);
          if Asiento.reservado a then r else l; precio].
Proof.
  intros Hr Hl Hp.
  assert (todos de_campo (if Asiento.reservado a then r else l) = true) as He
    by now destruct (Asiento.reservado a).
  exists (texto (Asiento.fila a) ++ "," ++ texto (Asiento.numero a) ++ ","
          ++ (if Asiento.reservado a then r else l) ++ "," ++ precio).
  split; [|split].
  - unfold linea_formato. now rewrite !append_assoc.
  - rewrite !todos_app.
    repeat (apply andb_true_intro; split); try reflexivity;
      apply (todos_impl de_campo _ _ de_campo_no_espacio);
      auto using texto_de_campo.
  - rewrite !split_coma_app by auto using texto_de_campo.
    now rewrite split_coma_campo.
Qed.

Lemma linea_de_formato (a : Asiento.t) :
  se_escribe (Asiento.fila a) -> se_escribe (Asiento.numero a) ->
  linea_de a
  = rbind (format_2f (Asiento.precio_actual a))
      (fun precio => Ok (linea_formato "Reservado" "Disponible" a precio)).
Proof.
  intros Hf Hn. unfold linea_de.
  now rewrite (se_escribe_str _ Hf), (se_escribe_str _ Hn).
Qed.

(** The loop of [guardar_estado] puts a line after the text for each
    seat. *)
Lemma escribir_lineas (r : list Asiento.t) (f0 : string) :
  Forall (fun a => se_escribe (Asiento.fila a)
                   /\ se_escribe (Asiento.numero a)
                   /\ en_rango (Asiento.precio_actual a)) r ->
  exists escritas,
    escribir r f0 = (f0 ++ unir escritas, Ok tt)
    /\ Forall2
         (fun a linea =>
            exists precio,
              format_2f (Asiento.precio_actual a) = Ok precio
              /\ linea_de a = Ok linea
              /\ linea = linea_formato "Reservado" "Disponible" a precio)
         r escritas.
Proof.
  intros H. revert f0.
  induction H as [|a r (Hsf & Hsn & f & Hf) _ IH]; intros f0.
  - exists []. cbn. unfold ret. rewrite append_nil_r. auto.
  - cbn [escribir]. rewrite linea_de_formato by assumption.
    unfold bind, lift, modify, format_2f. rewrite Hf. cbn [rbind].
    destruct (IH (f0 ++ linea_formato "Reservado" "Disponible" a
                          (format_2f_float f))) as (escritas & He & Hall).
    exists (linea_formato "Reservado" "Disponible" a (format_2f_float f)
            :: escritas).
    split.
    + rewrite He. cbn [unir fold_right]. now rewrite append_assoc.
    + constructor; [|exact Hall]. exists (format_2f_float f).
      rewrite linea_de_formato by assumption.
      unfold format_2f. rewrite Hf. auto.
Qed.

Lemma lineas_unir (escritas : list string) :
  Forall (fun linea => exists cuerpo,
            linea = cuerpo ++ nl
            /\ todos (fun c => negb (es_espacio c)) cuerpo = true) escritas ->
  lineas (unir escritas) = escritas.
Proof.
  induction 1 as [|linea r (cuerpo & -> & Hc) _ IH]; [reflexivity|].
  cbn [unir fold_right]. rewrite append_assoc, lineas_app by assumption.
  unfold unir in IH. now rewrite IH.
Qed.

(** C7, with the words the code writes.  For every room whose seats
    have finite prices, and rows and numbers that can be written,
    [guardar_estado] returns and the text it writes is one line for each
    seat, in the order of the seats and with nothing before them, each
    closed by an end of line; the line of a seat is
    [row,number,state,price], where the state is [Reservado] for a reserved
    seat and [Disponible] for a free one, and the price is written with
    exactly two fractional digits. *)
Theorem guardar_estado_formato (sala : t) :
  Forall asiento_escrito (asientos sala) ->
  guarda_con "Reservado" "Disponible" sala.
Proof.
  intros Hfin.
  assert (Forall (fun a => se_escribe (Asiento.fila a)
                           /\ se_escribe (Asiento.numero a)
                           /\ en_rango (Asiento.precio_actual a))
            (asientos sala)) as Hr.
  { eapply Forall_impl; [exact Hfin|].
    intros a (Hsf & Hsn & f & Hf & _). split; [exact Hsf|].
    split; [exact Hsn|]. now exists f. }
  destruct (escribir_lineas _ "" Hr) as (escritas & He & Hall).
  exists escritas. split; [exact He|].
  assert (Forall2
            (fun a linea =>
               exists precio,
                 format_2f (Asiento.precio_actual a) = Ok precio
                 /\ dos_decimales precio
                 /\ todos de_campo precio = true
                 /\ linea = linea_formato "Reservado" "Disponible" a precio)
            (asientos sala) escritas) as Hall'.
  { clear He Hr. induction Hall as [|a linea r ls (precio & Hp & _ & ->) _ IH];
      [constructor|].
    apply Forall_cons in Hfin as [(_ & _ & f & Hf & Hfin) Hrest].
    constructor; [|auto].
    unfold format_2f in Hp. rewrite Hf in Hp. injection Hp as <-.
    exists (format_2f_float f). unfold format_2f. rewrite Hf.
    auto using format_2f_float_finito, format_2f_float_de_campo. }
  split.
  - apply lineas_unir. clear He Hall Hfin Hr.
    induction Hall' as [|a linea r ls (precio & _ & _ & Hc & ->) _ IH];
      [constructor|]. constructor; [|assumption].
    destruct (linea_formato_cuerpo "Reservado" "Disponible" a precio)
      as (cuerpo & -> & Hs & _); eauto.
  - eapply Forall2_impl; [exact Hall'|].
    intros a linea (precio & ? & ? & ? & ?). eauto.
Qed.

Lemma guardar_estado_formato_witness :
  guarda_con "Reservado" "Disponible" sala_libre.
Proof.
  apply (guardar_estado_formato sala_libre).
  repeat constructor; try (eexists; reflexivity).
  exists 10%float. split; reflexivity.
Defined.

(** C7 as it stands fails.  The words are not [Reserved] and
    [Available]: the room of the driver with its seat (1, 1) is saved as
    [1,1,Disponible,10.00].  And whatever the words, a price that is not
    finite is written without a digit, and one beyond the floats is not
    written at all: [guardar_estado] raises [OverflowError].  Nor is a
    number of 4301 digits: there it raises [ValueError]. *)
Lemma guardar_estado_no_reserved :
  (alcanzable cualquiera sala_libre
   /\ ~ guarda_con "Reserved" "Available" sala_libre)
  /\ (alcanzable cualquiera sala_inf
      /\ guardar_estado sala_inf = ("1,1,Disponible,inf" ++ nl, Ok tt)
      /\ forall r l, ~ guarda_con r l sala_inf)
  /\ (alcanzable cualquiera sala_enorme
      /\ guardar_estado sala_enorme = ("", Raise OverflowError)
      /\ forall r l, ~ guarda_con r l sala_enorme)
  /\ (alcanzable cualquiera sala_cifras
      /\ guardar_estado sala_cifras = ("", Raise ValueError)
      /\ forall r l, ~ guarda_con r l sala_cifras).
Proof.
  split; [|split; [|split]].
  - split; [apply alc_ejecutar; [exact I|apply sala_10_alcanzable]|].
    intros (escritas & Hg & _ & Hall).
    apply Forall2_cons_inv_l in Hall
      as (linea & r & (precio & Hp & _ & ->) & Hr & ->).
    apply Forall2_nil_inv_l in Hr as ->.
    injection Hp as <-. discriminate Hg.
  - split; [|split; [reflexivity|]].
    + apply alc_ejecutar; [exact I|].
      apply (alc_sala_init _ (VFloat infinity) (VFloat 0.20) (VFloat 0.30)).
      reflexivity.
    + intros r l (escritas & _ & _ & Hall).
      apply Forall2_cons_inv_l in Hall
        as (linea & r' & (precio & Hp & Hd & _) & _).
      injection Hp as <-.
      destruct Hd as (sg & entero & d1 & d2 & He & Hne & Hdig & _).
      destruct sg, entero as [|c entero]; try discriminate He; try congruence.
      injection He as <- _. discriminate Hdig.
  - assert (guardar_estado sala_enorme = ("", Raise OverflowError)) as E
      by (vm_compute; reflexivity).
    split; [|split; [exact E|]].
    + apply alc_ejecutar; [exact I|].
      apply (alc_sala_init _ (VInt (10 ^ 400)) (VFloat 0.20) (VFloat 0.30)).
      vm_compute. reflexivity.
    + intros r l (escritas & Hg & _). rewrite E in Hg. discriminate Hg.
  - pose proof guardar_cifras as E.
    split; [|split; [exact E|]].
    + unfold sala_cifras. apply alc_ejecutar; [exact I|].
      apply sala_10_alcanzable.
    + intros r l (escritas & Hg & _). rewrite E in Hg. discriminate Hg.
Qed.

Lemma calcular_precio_sin_descuento (p : number) :
  calcular_precio p (VBool false) (VBool false) = Ok (sin_descuento p).
Proof.
  destruct p as [b|z|f].
  - unfold calcular_precio, mul, binop. cbn. now rewrite Z.mul_1_r.
  - unfold calcular_precio, mul, binop. cbn. now rewrite Z.mul_1_r.
  - apply calcular_precio_sin_descuento_float.
Qed.

(** [cargar_estado] on the line of a seat. *)
Lemma cargar_linea_escrita (a : Asiento.t) (precio : string) (destino : t) :
  (exists n f, Asiento.numero a = NInt n /\ Asiento.fila a = NInt f
               /\ 0 < n /\ 0 < f
               /\ cifras n <= max_str_digits /\ cifras f <= max_str_digits)%Z ->
  todos de_campo precio = true ->
  validar_entrada (VNum (precio_base destino)) = Ok (precio_base destino) ->
  cargar_linea (linea_formato "Reservado" "Disponible" a precio) destino
  = (set_asientos (asientos destino ++ [recargado (precio_base destino) a])%list
       destino, Ok tt).
Proof.
  intros (n & f & Hn & Hf & Hn0 & Hf0 & Hcn & Hcf) Hp Hv.
  destruct (linea_formato_cuerpo "Reservado" "Disponible" a precio)
    as (cuerpo & -> & Hs & Hsplit); auto.
  unfold cargar_linea. rewrite (strip_linea _ Hs), Hsplit, Hn, Hf.
  cbn [texto]. unfold bind, lift, get, modify, ret, en_nuevo.
  rewrite !int_of_str_decimal by assumption. unfold Asiento.init.
  rewrite !validar_entrada_entero, Hv by assumption. cbn [rbind].
  unfold recargado. rewrite Hn, Hf.
  destruct (Asiento.reservado a).
  - change ("Reservado" =? "Reservado") with true. cbv iota.
    rewrite reservar_bool. cbn [Asiento.reservado Asiento.precio_base].
    now rewrite calcular_precio_sin_descuento.
  - reflexivity.
Qed.

Lemma cargar_lineas_escritas (r : list Asiento.t) (escritas : list string)
    (destino : t) :
  Forall2
    (fun a linea =>
       exists precio,
         (exists n f, Asiento.numero a = NInt n /\ Asiento.fila a = NInt f
                      /\ 0 < n /\ 0 < f
                      /\ cifras n <= max_str_digits
                      /\ cifras f <= max_str_digits)%Z
         /\ todos de_campo precio = true
         /\ linea = linea_formato "Reservado" "Disponible" a precio)
    r escritas ->
  validar_entrada (VNum (precio_base destino)) = Ok (precio_base destino) ->
  cargar_lineas escritas destino
  = (set_asientos
       (asientos destino ++ (recargado (precio_base destino) <$> r))%list
       destino, Ok tt).
Proof.
  intros H. revert destino.
  induction H as [|a linea r ls (precio & Ha & Hp & ->) _ IH];
    intros destino Hv.
  - cbn. unfold ret. now rewrite app_nil_r, set_asientos_id.
  - cbn [cargar_lineas]. unfold bind.
    rewrite (cargar_linea_escrita a precio destino Ha Hp Hv).
    rewrite IH by (destruct destino; assumption).
    destruct destino; cbn. unfold set_asientos. cbn.
    now rewrite <- app_assoc.
Qed.

Lemma asiento_entero_escribe (a : Asiento.t) :
  asiento_entero a ->
  se_escribe (Asiento.fila a) /\ se_escribe (Asiento.numero a)
  /\ en_rango (Asiento.precio_actual a).
Proof.
  intros [(n & f & -> & -> & _ & _ & Hn & Hf) Hp].
  split; [now apply se_escribe_cifras|].
  split; [now apply se_escribe_cifras|exact Hp].
Qed.

(** C2, for seats that can be read back.  A room whose seats have
    positive integers of at most 4300 digits for row and number and prices
    that can be written is saved, and the text is loaded into a room whose
    base price is valid: both calls return, and the room has a new seat for
    each seat saved, in their order, with the row, the number and the
    reserved flag of the seat saved, and the base price of the loading room
    for base price and for price (times the integer 1 when it is reserved).
    The price that was saved is not used: a seat saved as reserved at a
    lower price comes back reserved at the full base price of the loading
    room. *)
Theorem cargar_tras_guardar (sala destino : t) :
  Forall asiento_entero (asientos sala) ->
  validar_entrada (VNum (precio_base destino)) = Ok (precio_base destino) ->
  exists texto,
    guardar_estado sala = (texto, Ok tt)
    /\ cargar_estado texto destino
       = (set_asientos
            (asientos destino
             ++ (recargado (precio_base destino) <$> asientos sala))%list
            destino, Ok tt).
Proof.
  intros Hs Hv.
  assert (Forall (fun a => se_escribe (Asiento.fila a)
                           /\ se_escribe (Asiento.numero a)
                           /\ en_rango (Asiento.precio_actual a))
            (asientos sala)) as Hr.
  { eapply Forall_impl; [exact Hs|]. apply asiento_entero_escribe. }
  destruct (escribir_lineas _ "" Hr) as (escritas & He & Hall).
  exists (unir escritas). split; [exact He|].
  assert (Forall2
            (fun a linea =>
               exists precio,
                 (exists n f, Asiento.numero a = NInt n
                              /\ Asiento.fila a = NInt f /\ 0 < n /\ 0 < f
                              /\ cifras n <= max_str_digits
                              /\ cifras f <= max_str_digits)%Z
                 /\ todos de_campo precio = true
                 /\ linea = linea_formato "Reservado" "Disponible" a precio)
            (asientos sala) escritas) as Hall'.
  { clear He Hr. induction Hall as [|a linea r ls (precio & Hp & _ & ->) _ IH];
      [constructor|].
    apply Forall_cons in Hs as [[Hent [f Hf]] Hrest].
    constructor; [|auto].
    unfold format_2f in Hp. rewrite Hf in Hp. injection Hp as <-.
    exists (format_2f_float f). auto using format_2f_float_de_campo. }
  unfold cargar_estado. rewrite lineas_unir.
  - now apply cargar_lineas_escritas.
  - clear He Hall Hs Hr.
    induction Hall' as [|a linea r ls (precio & _ & Hc & ->) _ IH];
      [constructor|]. constructor; [|assumption].
    destruct (linea_formato_cuerpo "Reservado" "Disponible" a precio)
      as (cuerpo & -> & Hsp & _); eauto.
Qed.

Lemma cargar_tras_guardar_witness :
  exists texto,
    guardar_estado sala_reservada = (texto, Ok tt)
    /\ cargar_estado texto sala_10
       = (set_asientos
            [Asiento.Build (NInt 1) (NInt 1) true (NFloat 10) (NFloat 10)]
            sala_10, Ok tt).
Proof.
  apply (cargar_tras_guardar sala_reservada sala_10).
  - repeat constructor.
    + exists 1%Z, 1%Z.
      repeat split; try reflexivity; apply Z.leb_le; reflexivity.
    + exists 5%float. reflexivity.
  - reflexivity.
Defined.

(** The text in between, and the seat before and after. *)
Example guardar_reservada :
  guardar_estado sala_reservada = ("1,1,Reservado,5.00" ++ nl, Ok tt).
Proof. reflexivity. Qed.

(** C2 as it stands fails: a room can hold a seat whose number is not an
    integer, for the validation takes floats.  The room of the driver with
    the seat (1, 1.5), reserved at 5.0 against 10.0, is saved as
    [1,1.5,Reservado,5.00], and loading that into a room with the same base
    price raises [ValueError] at [int] and adds no seat.  And a room with
    a seat whose number has 4301 digits is not saved: [guardar_estado]
    raises [ValueError]. *)
Lemma cargar_tras_guardar_fraccion :
  guardar_estado sala_cifras = ("", Raise ValueError)
  /\ ~ (forall sala destino : t,
       alcanzable cualquiera sala -> alcanzable cualquiera destino ->
       asientos destino = [] -> precio_base destino = precio_base sala ->
       exists texto,
         guardar_estado sala = (texto, Ok tt)
         /\ forall a, a ∈ asientos sala -> Asiento.reservado a = true ->
            exists b, b ∈ asientos (fst (cargar_estado texto destino))
                      /\ Asiento.reservado b = true
                      /\ Asiento.precio_actual b = precio_base destino).
Proof.
  split; [exact guardar_cifras|]. intros H.
  destruct (H sala_fraccion sala_10) as (texto & Hg & Hb); try reflexivity.
  - unfold sala_fraccion.
    repeat (apply alc_ejecutar; [exact I|]). apply sala_10_alcanzable.
  - apply sala_10_alcanzable.
  - assert (guardar_estado sala_fraccion
            = ("1,1.5,Reservado,5.00" ++ nl, Ok tt)) as E
      by (vm_compute; reflexivity).
    rewrite E in Hg. injection Hg as <-.
    destruct (Hb (Asiento.Build (NFloat 1.5) (NInt 1) true (NFloat 10)
                    (NFloat 5))) as (b & Hin & _).
    + apply list_elem_of_lookup. exists 0%nat. vm_compute. reflexivity.
    + reflexivity.
    + vm_compute in Hin. inversion Hin.
Qed.

End Persistencia.

(** * Further properties of the code *)

(** ** Validation and the seat *)

(** A float against the integer 0, compared exactly, is the comparison
    of the floats. *)
Lemma SFcompare_Z_zero (x : spec_float) :
  SFcompare_Z x 0 = SFcompare x (S754_zero false).
Proof.
  destruct x as [s|s| |s m e]; cbn; try reflexivity.
  destruct (0 <=? e) eqn:E.
  - apply Z.leb_le in E. pose proof (Z.pow_pos_nonneg 2 e).
    destruct s; cbn; f_equal;
      [apply Z.compare_lt_iff|apply Z.compare_gt_iff]; nia.
  - destruct s; reflexivity.
Qed.

Lemma leb_float_zero (f : float) :
  leb (NFloat f) (NInt 0) = PrimFloat.leb f 0.
Proof.
  rewrite leb_spec. unfold leb, SFleb. cbn [compare as_int].
  now rewrite SFcompare_Z_zero.
Qed.

(** X1.  [validar_entrada] takes a float when the comparison of floats
    [valor <= 0.0] is false, an integer when it is above 0, [True] and not
    [False], and nothing that is not a number; it returns what it took and
    raises nothing but [ValueError]. *)
Theorem validar_entrada_casos :
  (forall f : float,
     validar_entrada (VFloat f)
     = if PrimFloat.leb f 0 then Raise ValueError else Ok (NFloat f))
  /\ (forall z : Z,
        validar_entrada (VInt z)
        = if z <=? 0 then Raise ValueError else Ok (NInt z))
  /\ (forall b : bool,
        validar_entrada (VBool b)
        = if b then Ok (NBool b) else Raise ValueError)
  /\ (forall s, validar_entrada (VStr s) = Raise ValueError)
  /\ validar_entrada VNone = Raise ValueError
  /\ (forall v e, validar_entrada v = Raise e -> e = ValueError)
  /\ (forall v n, validar_entrada v = Ok n -> v = VNum n).
Proof.
  repeat split; try reflexivity.
  - intros f. cbn. now rewrite leb_float_zero.
  - now intros [].
  - apply validar_entrada_raise.
  - intros v n H. now apply validar_entrada_Ok in H.
Qed.

(** X2.  [calcular_precio] takes its two flags for their truth value
    and multiplies the base price by 1, an integer, without discount, by
    0.8 on the day of the spectator, by 0.7 for a spectator over 65 and by
    0.5 for both, each the float [1 - descuento] comes to.  Without
    discount the price of an integer is that integer; with a discount it is
    a float.  It raises nothing but [OverflowError]. *)
Theorem calcular_precio_factores (p : number) (dia_espectador es_mayor_65 : value) :
  calcular_precio p dia_espectador es_mayor_65
  = mul p (factor (truthy dia_espectador) (truthy es_mayor_65))
  /\ (forall z : Z,
        calcular_precio (NInt z) (VBool false) (VBool false) = Ok (NInt z))
  /\ (forall q,
        truthy dia_espectador || truthy es_mayor_65 = true ->
        calcular_precio p dia_espectador es_mayor_65 = Ok q ->
        exists x : float, q = NFloat x)
  /\ (forall e,
        calcular_precio p dia_espectador es_mayor_65 = Raise e ->
        e = OverflowError).
Proof.
  assert (calcular_precio p dia_espectador es_mayor_65
          = mul p (factor (truthy dia_espectador) (truthy es_mayor_65))) as H.
  { unfold calcular_precio.
    destruct (truthy dia_espectador), (truthy es_mayor_65); reflexivity. }
  split; [exact H|]. split; [|split].
  - intros z. unfold calcular_precio, mul, binop. cbn.
    now rewrite Z.mul_1_r.
  - intros q Hd. rewrite H. unfold mul, binop.
    destruct (truthy dia_espectador), (truthy es_mayor_65);
      try discriminate Hd; cbn [factor as_int to_float];
      destruct (as_int p); destruct (to_float p); cbn [rbind];
      intros [= <-]; eauto.
  - apply calcular_precio_raise.
Qed.

Section MasAsiento.
Import Asiento.

(** X3.  The constructor of a seat raises nothing but [ValueError].  For
    arguments that are not NaN it returns when the three are strictly
    positive numbers, with a seat that is not reserved, has the number, the
    row and the base price given and its base price for price; it raises
    when one is not. *)
Theorem asiento_init_valida (numero fila precio_base : value) :
  sin_nan numero -> sin_nan fila -> sin_nan precio_base ->
  (forall e, init numero fila precio_base = Raise e -> e = ValueError)
  /\ (positivo numero = true /\ positivo fila = true
      /\ positivo precio_base = true ->
      exists n f p,
        numero = VNum n /\ fila = VNum f /\ precio_base = VNum p
        /\ init numero fila precio_base = Ok (Build n f false p p))
  /\ (positivo numero = false \/ positivo fila = false
      \/ positivo precio_base = false ->
      init numero fila precio_base = Raise ValueError).
Proof.
  intros Hn Hf Hp. unfold init.
  rewrite !validar_entrada_positivo by assumption.
  destruct numero as [n| |]; cbn [positivo];
    [destruct (gtb n (NInt 0))|..];
    (destruct fila as [f| |]; cbn [positivo];
     [destruct (gtb f (NInt 0))|..]);
    (destruct precio_base as [p| |]; cbn [positivo];
     [destruct (gtb p (NInt 0))|..]);
    cbn [rbind];
    (split; [intros e H; first [discriminate H|now injection H]|]);
    (split; [intros (H1 & H2 & H3); try discriminate; eauto 10|]);
    intros H; try reflexivity; destruct H as [H|[H|H]]; discriminate H.
Qed.

Lemma asiento_init_valida_witness :
  init (VInt 1) (VInt 1) (VFloat 10) = Ok asiento_1_1
  /\ init (VInt 0) (VInt 1) (VFloat 10) = Raise ValueError.
Proof.
  split.
  - destruct (proj1 (proj2 (asiento_init_valida (VInt 1) (VInt 1) (VFloat 10)
                              eq_refl eq_refl eq_refl)))
      as (n & f & p & [= <-] & [= <-] & [= <-] & H).
    + repeat split; reflexivity.
    + exact H.
  - apply (proj2 (proj2 (asiento_init_valida (VInt 0) (VInt 1) (VFloat 10)
                           eq_refl eq_refl eq_refl))).
    left. reflexivity.
Defined.

(** What a call of [reservar] that returns was given and has done. *)
Lemma reservar_ok (a a' : t) (es dia : value) :
  reservar es dia a = (a', Ok tt) ->
  exists (mayor d : bool) p,
    es = VBool mayor /\ dia = VBool d /\ reservado a = false
    /\ calcular_precio (precio_base a) (VBool d) (VBool mayor) = Ok p
    /\ a' = Build (numero a) (fila a) true (precio_base a) p.
Proof.
  destruct es as [[mayor| |]| |]; try discriminate.
  destruct dia as [[d| |]| |]; try discriminate.
  rewrite reservar_bool. destruct (reservado a) eqn:Hr; [discriminate|].
  destruct (calcular_precio _ _ _) as [p|e] eqn:Hc; [|discriminate].
  intros [= <-]. eauto 10.
Qed.

Lemma calcular_precio_sin_flags (p : number) :
  exists q, calcular_precio p (VBool false) (VBool false) = Ok q.
Proof.
  unfold calcular_precio, mul, binop. cbn -[to_float Z.mul].
  destruct p as [b|z|x]; cbn; eauto.
Qed.

Lemma calcular_precio_fuera_de_rango (p : number) (dia mayor : bool) :
  ~ en_rango p -> dia = true \/ mayor = true ->
  calcular_precio p (VBool dia) (VBool mayor) = Raise OverflowError.
Proof.
  intros Hp Hf.
  assert (exists z, as_int p = Some z /\ to_float p = Raise OverflowError)
    as (z & Hz & Ht).
  { destruct (to_float p) as [f|e] eqn:E.
    - destruct Hp. now exists f.
    - rewrite (to_float_raise _ _ E) in *.
      destruct p as [b|z|x]; cbn in *; eauto; discriminate. }
  unfold calcular_precio, mul, binop.
  destruct dia, mayor; try (destruct Hf; discriminate);
    cbn -[to_float]; rewrite Hz, Ht; reflexivity.
Qed.

(** X4.  What [reservar] does, case by case.  A flag that is not a
    boolean makes it raise [ValueError], reserved or not.  With two
    booleans, on a reserved seat it raises [AsientoReservadoError], or
    [ValueError] when the row or the number of the seat cannot be written
    in the message; on a free one it returns with the flag set and the
    price computed, unless a discount applies to a base price beyond the
    floats, where it raises [OverflowError].  Whenever it raises, the seat
    is as it was; when it returns, number, row and base price are as they
    were. *)
Theorem reservar_resultado (a : t) (es dia : value) :
  (es_booleano es && es_booleano dia = false ->
   reservar es dia a = (a, Raise ValueError))
  /\ (forall mayor d : bool,
        es = VBool mayor -> dia = VBool d ->
        (reservado a = true ->
         (con_mensaje a ->
          reservar es dia a = (a, Raise AsientoReservadoError))
         /\ (~ con_mensaje a -> reservar es dia a = (a, Raise ValueError)))
        /\ (reservado a = false ->
            en_rango (precio_base a) \/ (mayor = false /\ d = false) ->
            exists p,
              calcular_precio (precio_base a) dia es = Ok p
              /\ reservar es dia a
                 = (Build (numero a) (fila a) true (precio_base a) p, Ok tt))
        /\ (reservado a = false ->
            ~ en_rango (precio_base a) -> mayor = true \/ d = true ->
            reservar es dia a = (a, Raise OverflowError)))
  /\ (forall a' e, reservar es dia a = (a', Raise e) -> a' = a).
Proof.
  split; [|split].
  - destruct es as [[mayor| |]| |]; try reflexivity.
    destruct dia as [[d| |]| |]; try reflexivity. discriminate.
  - intros mayor d -> ->. rewrite reservar_bool. split; [|split].
    + intros ->. split.
      * intros [Hf Hn]. now rewrite lanza_se_escribe.
      * intros H. now rewrite lanza_no_se_escribe.
    + intros -> [Hp|[-> ->]].
      * destruct (calcular_precio_en_rango _ d mayor Hp) as [q ->]. eauto.
      * destruct (calcular_precio_sin_flags (precio_base a)) as [q ->]. eauto.
    + intros -> Hp Hf.
      rewrite calcular_precio_fuera_de_rango by tauto. reflexivity.
  - intros a' e H.
    destruct (reservar_cases a es dia) as [[e' He]|(p & _ & He)];
      rewrite He in H; congruence.
Qed.

(** X5.  A seat [reservar] has reserved cannot be reserved again: with
    any two booleans the call raises [AsientoReservadoError], or
    [ValueError] when the row or the number of the seat cannot be written
    in the message, and the price of the first reservation stays.  A seat
    [cancelar_reserva] has freed cannot be freed again: the call raises
    [AsientoNoReservadoError], or [ValueError] likewise. *)
Theorem reservar_dos_veces (a a' : t) :
  (forall es dia,
     reservar es dia a = (a', Ok tt) ->
     reservado a' = true
     /\ forall mayor d : bool,
          (con_mensaje a' ->
           reservar (VBool mayor) (VBool d) a'
           = (a', Raise AsientoReservadoError))
          /\ (~ con_mensaje a' ->
              reservar (VBool mayor) (VBool d) a' = (a', Raise ValueError)))
  /\ (cancelar_reserva a = (a', Ok tt) ->
      reservado a' = false
      /\ (con_mensaje a' ->
          cancelar_reserva a' = (a', Raise AsientoNoReservadoError))
      /\ (~ con_mensaje a' ->
          cancelar_reserva a' = (a', Raise ValueError))).
Proof.
  split.
  - intros es dia (mayor & d & p & _ & _ & _ & _ & ->)%reservar_ok.
    split; [reflexivity|]. intros m' d'. rewrite reservar_bool.
    cbn [reservado]. split.
    + intros [Hf Hn]. now rewrite lanza_se_escribe.
    + intros H. now rewrite lanza_no_se_escribe.
  - rewrite cancelar_reserva_eq. destruct (reservado a); [|discriminate].
    intros [= <-]. split; [reflexivity|]. rewrite cancelar_reserva_eq.
    cbn [reservado]. split.
    + intros [Hf Hn]. now rewrite lanza_se_escribe.
    + intros H. now rewrite lanza_no_se_escribe.
Qed.

Lemma reservar_dos_veces_witness :
  reservar (VBool false) (VBool false)
    (Build (NInt 1) (NInt 1) true (NFloat 10) (NFloat 5))
  = (Build (NInt 1) (NInt 1) true (NFloat 10) (NFloat 5),
     Raise AsientoReservadoError).
Proof.
  apply (proj1 (proj2 (proj1 (reservar_dos_veces asiento_1_1
                  (Build (NInt 1) (NInt 1) true (NFloat 10) (NFloat 5)))
           (VBool true) (VBool true) eq_refl) false false)).
  split; eexists; reflexivity.
Defined.

(** X6.  In every state a seat reaches, the price of a reserved seat is
    one [calcular_precio] gives for its base price and two booleans: the
    base price less 0, 20, 30 or 50 percent.  Discounts of earlier
    reservations leave no trace. *)
Theorem precio_de_asiento_reservado (a : t) :
  asiento_alcanzable a -> reservado a = true -> precio_de_reserva a.
Proof.
  induction 1 as [n f p a Hi|es dia a Ha IH|a Ha IH].
  - apply init_cases in Hi as (?&?&?&_&_&_&->). discriminate.
  - destruct (reservar es dia a) as [a' [[]|e]] eqn:Hr.
    + apply reservar_ok in Hr as (mayor & d & p & _ & _ & _ & Hc & ->).
      intros _. now exists mayor, d.
    + destruct (reservar_cases a es dia) as [[e' He]|(p & _ & He)];
        rewrite He in Hr; [|discriminate].
      injection Hr as <- _. exact IH.
  - rewrite cancelar_reserva_eq.
    destruct (reservado a) eqn:Hr; cbn [fst reservado]; [discriminate|].
    intros H. rewrite H in Hr. discriminate Hr.
Qed.

Lemma precio_de_asiento_reservado_witness :
  precio_de_reserva (Build (NInt 1) (NInt 1) true (NFloat 10) (NFloat 5)).
Proof.
  apply precio_de_asiento_reservado; [|reflexivity].
  apply (alc_reservar (VBool true) (VBool true) asiento_1_1).
  apply (alc_init (VInt 1) (VInt 1) (VFloat 10)). reflexivity.
Defined.

End MasAsiento.

(** ** The room *)

Lemma SFcompare_refl (x : spec_float) :
  x <> S754_nan -> SFcompare x x = Some Eq.
Proof.
  destruct x as [s|s| |s m e]; cbn; intros H; try congruence.
  - now destruct s.
  - fold_Z. change PosDef.Pos.compare_cont with Pos.compare_cont.
    rewrite Z.compare_refl.
    change (Pos.compare_cont Eq m m) with (m ?= m)%positive.
    rewrite Pos.compare_refl. now destruct s.
Qed.

Lemma is_nan_true_Prim2SF (f : float) :
  is_nan f = true -> Prim2SF f = S754_nan.
Proof.
  unfold is_nan. rewrite FloatAxioms.eqb_spec. unfold SFeqb. intros H.
  destruct (Prim2SF f) as [s|s| |s m e] eqn:E; [..|reflexivity|];
    rewrite SFcompare_refl in H by discriminate; discriminate H.
Qed.

Lemma compare_refl (n : number) : es_nan n = false -> compare n n = Some Eq.
Proof.
  destruct n as [b|z|f]; cbn; intros H.
  - now rewrite Z.compare_refl.
  - now rewrite Z.compare_refl.
  - apply SFcompare_refl. now apply is_nan_Prim2SF.
Qed.

Lemma eqb_refl (n : number) : es_nan n = false -> eqb n n = true.
Proof. intros H. unfold eqb. now rewrite compare_refl. Qed.

(** A NaN compares with nothing. *)
Lemma compare_nan (n m : number) : es_nan n = true -> compare n m = None.
Proof.
  destruct n as [b|z|f]; cbn; try discriminate.
  intros ->%is_nan_true_Prim2SF. destruct m as [b|z|g]; reflexivity.
Qed.

Lemma eqb_nan (n m : number) : es_nan n = true -> eqb m n = false.
Proof. intros H. rewrite eqb_sym. unfold eqb. now rewrite compare_nan. Qed.

Lemma validar_entrada_nan (n : number) :
  es_nan n = true -> validar_entrada (VNum n) = Ok n.
Proof. intros H. cbn. unfold leb. now rewrite compare_nan. Qed.

Section MasSala.
Import SalaCine.

(** The loop of [buscar_asiento] stops at the first seat that matches. *)
Lemma primero_primero (n f : number) (l : list Asiento.t) (i j : nat) a :
  primero n f i l = Some (j, a) <->
  exists k : nat,
    j = (i + k)%nat /\ l !! k = Some a /\ coincide n f a = true
    /\ forall (k' : nat) b,
         (k' < k)%nat -> l !! k' = Some b -> coincide n f b = false.
Proof.
  revert i. induction l as [|b l IH]; intros i; cbn [primero].
  - split; [discriminate|]. intros (k & _ & Hk & _). discriminate Hk.
  - destruct (coincide n f b) eqn:Hb.
    + split.
      * intros [= <- <-]. exists 0%nat. rewrite Nat.add_0_r.
        repeat split; auto. intros k' c Hk'. lia.
      * intros ([|k] & -> & Hk & Ha & Hmin).
        -- injection Hk as <-. now rewrite Nat.add_0_r.
        -- rewrite (Hmin 0%nat b) in Hb by (cbn; auto; lia). discriminate.
    + rewrite IH. split.
      * intros (k & -> & Hk & Ha & Hmin). exists (S k).
        split; [lia|]. split; [exact Hk|]. split; [exact Ha|].
        intros [|k'] c Hk' Hc; [now injection Hc as <-|].
        apply (Hmin k' c); [lia|exact Hc].
      * intros ([|k] & -> & Hk & Ha & Hmin).
        -- injection Hk as <-. congruence.
        -- exists k. split; [lia|]. split; [exact Hk|]. split; [exact Ha|].
           intros k' c Hk' Hc. apply (Hmin (S k') c); [lia|exact Hc].
Qed.

Lemma primero_ninguno (n f : number) (l : list Asiento.t) (i : nat) :
  primero n f i l = None <-> Forall (fun b => coincide n f b = false) l.
Proof.
  revert i. induction l as [|b l IH]; intros i; cbn [primero].
  - split; auto.
  - destruct (coincide n f b) eqn:Hb.
    + split; [discriminate|]. intros H. inversion H; congruence.
    + rewrite IH. split; [now constructor|]. intros H. now inversion H.
Qed.

Lemma buscar_asiento_eq (numero fila : value) (sala : t) :
  buscar_asiento numero fila sala =
  (sala,
   (n <- validar_entrada numero ;;
    f <- validar_entrada fila ;;
    match primero n f 0 (asientos sala) with
    | Some ref => Ok ref
    | None => Raise (lanza f n AsientoNoEncontradoError)
    end)%result).
Proof.
  unfold buscar_asiento, bind, lift, get, raise, ret.
  destruct (validar_entrada numero) as [n|e]; [|reflexivity].
  destruct (validar_entrada fila) as [f|e]; [|reflexivity].
  cbn [rbind]. destruct (primero n f 0 (asientos sala)); [reflexivity|].
  unfold lanza. now destruct (mensaje f n).
Qed.

(** X7.  [buscar_asiento] leaves the room as it is.  It returns the first
    seat of the sequence whose number and row equal the ones asked for, as
    [==] has it.  When number and row are valid and no seat has them, it
    raises [AsientoNoEncontradoError] if they can be written in the
    message, and [ValueError] if not.  It raises [ValueError] too when one
    of them is not valid, whatever the seats, and never otherwise. *)
Theorem buscar_asiento_primero (numero fila : value) (sala : t) :
  fst (buscar_asiento numero fila sala) = sala
  /\ (forall (i : nat) a,
        snd (buscar_asiento numero fila sala) = Ok (i, a) <->
        exists n f,
          validar_entrada numero = Ok n /\ validar_entrada fila = Ok f
          /\ asientos sala !! i = Some a /\ coincide n f a = true
          /\ forall (j : nat) b,
               (j < i)%nat -> asientos sala !! j = Some b ->
               coincide n f b = false)
  /\ (snd (buscar_asiento numero fila sala) = Raise AsientoNoEncontradoError
      <-> exists n f,
            validar_entrada numero = Ok n /\ validar_entrada fila = Ok f
            /\ Forall (fun b => coincide n f b = false) (asientos sala)
            /\ se_escribe f /\ se_escribe n)
  /\ (snd (buscar_asiento numero fila sala) = Raise ValueError
      <-> validar_entrada numero = Raise ValueError
          \/ validar_entrada fila = Raise ValueError
          \/ exists n f,
               validar_entrada numero = Ok n /\ validar_entrada fila = Ok f
               /\ Forall (fun b => coincide n f b = false) (asientos sala)
               /\ ~ (se_escribe f /\ se_escribe n)).
Proof.
  rewrite buscar_asiento_eq. cbn [fst snd]. split; [reflexivity|].
  destruct (validar_entrada numero) as [n|e] eqn:Hn; cbn [rbind].
  2:{ rewrite (validar_entrada_raise _ _ Hn).
      split; [intros i a; split|split; split].
      - discriminate.
      - intros (?&?&?&_). discriminate.
      - discriminate.
      - intros (?&?&?&_). discriminate.
      - auto.
      - auto. }
  destruct (validar_entrada fila) as [f|e] eqn:Hf; cbn [rbind].
  2:{ rewrite (validar_entrada_raise _ _ Hf).
      split; [intros i a; split|split; split].
      - discriminate.
      - intros (?&?&_&?&_). discriminate.
      - discriminate.
      - intros (?&?&_&?&_). discriminate.
      - auto.
      - auto. }
  assert (forall (i : nat) a,
            (exists n' f',
               Ok n = Ok n' /\ Ok f = Ok f'
               /\ asientos sala !! i = Some a /\ coincide n' f' a = true
               /\ forall (j : nat) b,
                    (j < i)%nat -> asientos sala !! j = Some b ->
                    coincide n' f' b = false) ->
            primero n f 0 (asientos sala) = Some (i, a)) as Hprim.
  { intros i a (n' & f' & [= <-] & [= <-] & Hi & Ha & Hmin).
    apply primero_primero. exists i. auto. }
  destruct (primero n f 0 (asientos sala)) as [[j b]|] eqn:Hp.
  - apply primero_primero in Hp as (k & -> & Hk & Hb & Hmin).
    cbn [Nat.add] in *.
    split; [intros i a; split|split; split].
    + intros [= <- <-]. exists n, f. auto.
    + intros H. apply Hprim in H. congruence.
    + discriminate.
    + intros (n' & f' & [= <-] & [= <-] & Hall & _).
      rewrite Forall_lookup in Hall. rewrite (Hall _ _ Hk) in Hb.
      discriminate.
    + discriminate.
    + intros [H|[H|(n' & f' & [= <-] & [= <-] & Hall & _)]];
        try discriminate H.
      rewrite Forall_lookup in Hall. rewrite (Hall _ _ Hk) in Hb.
      discriminate.
  - apply primero_ninguno in Hp.
    split; [intros i a; split|split; split].
    + discriminate.
    + intros H. apply Hprim in H. discriminate H.
    + intros H. exists n, f. split; [reflexivity|]. split; [reflexivity|].
      split; [exact Hp|].
      destruct (lanza_casos f n AsientoNoEncontradoError)
        as [(H1 & H2 & _)|[_ E]]; [tauto|].
      rewrite E in H. discriminate H.
    + intros (n' & f' & [= <-] & [= <-] & _ & H1 & H2).
      now rewrite lanza_se_escribe.
    + intros H. right. right. exists n, f.
      split; [reflexivity|]. split; [reflexivity|]. split; [exact Hp|].
      destruct (lanza_casos f n AsientoNoEncontradoError)
        as [(_ & _ & E)|[H1 _]]; [|exact H1].
      rewrite E in H. discriminate H.
    + intros [H|[H|(n' & f' & [= <-] & [= <-] & _ & H)]];
        try discriminate H.
      now rewrite lanza_no_se_escribe.
Qed.

Lemma primero_nuevo (n f : number) (l : list Asiento.t) (a : Asiento.t) :
  existsb (coincide n f) l = false -> coincide n f a = true ->
  primero n f 0 (l ++ [a]) = Some (length l, a).
Proof.
  intros Hl Ha. apply primero_primero. exists (length l).
  repeat split; auto.
  - now rewrite list_lookup_middle.
  - intros k b Hk Hb. rewrite lookup_app_l in Hb by exact Hk.
    destruct (coincide n f b) eqn:E; [|reflexivity].
    assert (existsb (coincide n f) l = true).
    { apply existsb_exists. exists b. split; [|exact E].
      apply list_elem_of_In. eapply list_elem_of_lookup_2; eauto. }
    congruence.
Qed.

(** X8.  A seat [agregar_asiento] has added, with a number and a row
    that are not NaN, is the last of the sequence, free and at the base
    price of the room; [buscar_asiento] with that number and row returns
    it, and [agregar_asiento] with them again raises
    [AsientoDuplicadoError], or [ValueError] when the row or the number
    cannot be written in the message. *)
Theorem agregar_y_buscar (numero fila : value) (sala sala' : t) :
  sin_nan numero -> sin_nan fila ->
  agregar_asiento numero fila sala = (sala', Ok tt) ->
  exists n f,
    numero = VNum n /\ fila = VNum f
    /\ sala' = set_asientos
                 (asientos sala
                  ++ [Asiento.Build n f false (precio_base sala)
                        (precio_base sala)]) sala
    /\ buscar_asiento numero fila sala'
       = (sala', Ok (length (asientos sala),
                     Asiento.Build n f false (precio_base sala)
                       (precio_base sala)))
    /\ (se_escribe f /\ se_escribe n ->
        agregar_asiento numero fila sala'
        = (sala', Raise AsientoDuplicadoError))
    /\ (~ (se_escribe f /\ se_escribe n) ->
        agregar_asiento numero fila sala' = (sala', Raise ValueError)).
Proof.
  intros Hnn Hnf. rewrite agregar_asiento_eq.
  destruct (validar_entrada numero) as [n|] eqn:Hn; [|discriminate].
  destruct (validar_entrada fila) as [f|] eqn:Hf; [|now destruct n].
  destruct (existsb _ _) eqn:Hex;
    [intros H; discriminate H|].
  destruct (validar_entrada (VNum (precio_base sala))) as [p|] eqn:Hp;
    [|discriminate].
  apply validar_entrada_Ok in Hp as [[= <-] _].
  intros [= <-].
  pose proof Hn as [-> _]%validar_entrada_Ok.
  pose proof Hf as [-> _]%validar_entrada_Ok.
  cbn [sin_nan] in *.
  assert (coincide n f
            (Asiento.Build n f false (precio_base sala) (precio_base sala))
          = true) as Hc
    by (unfold coincide; cbn; now rewrite !eqb_refl).
  assert (agregar_asiento (VNum n) (VNum f)
            (set_asientos
               (asientos sala
                ++ [Asiento.Build n f false (precio_base sala)
                      (precio_base sala)]) sala)
          = (set_asientos
               (asientos sala
                ++ [Asiento.Build n f false (precio_base sala)
                      (precio_base sala)]) sala,
             Raise (lanza f n AsientoDuplicadoError))) as Hdup.
  { rewrite agregar_asiento_eq, Hn, Hf. cbn [set_asientos asientos].
    now rewrite existsb_app, Hex; cbn [existsb]; rewrite Hc. }
  exists n, f. split; [reflexivity|]. split; [reflexivity|].
  split; [reflexivity|]. split; [|split].
  - rewrite buscar_asiento_eq, Hn, Hf. cbn [rbind set_asientos asientos].
    now rewrite primero_nuevo.
  - intros [H1 H2]. now rewrite Hdup, lanza_se_escribe.
  - intros H. now rewrite Hdup, lanza_no_se_escribe.
Qed.

Lemma agregar_y_buscar_witness :
  exists n f,
    VInt 1 = VNum n /\ VInt 1 = VNum f
    /\ sala_libre = set_asientos
                 (asientos sala_10
                  ++ [Asiento.Build n f false (precio_base sala_10)
                        (precio_base sala_10)]) sala_10
    /\ buscar_asiento (VInt 1) (VInt 1) sala_libre
       = (sala_libre, Ok (length (asientos sala_10),
                     Asiento.Build n f false (precio_base sala_10)
                       (precio_base sala_10)))
    /\ (se_escribe f /\ se_escribe n ->
        agregar_asiento (VInt 1) (VInt 1) sala_libre
        = (sala_libre, Raise AsientoDuplicadoError))
    /\ (~ (se_escribe f /\ se_escribe n) ->
        agregar_asiento (VInt 1) (VInt 1) sala_libre
        = (sala_libre, Raise ValueError)).
Proof.
  apply (agregar_y_buscar (VInt 1) (VInt 1) sala_10 sala_libre);
    reflexivity.
Defined.

(** X9.  A NaN passes the validation.  A seat whose number is a NaN is
    added whatever the seats of the room, so as often as asked, and no
    search finds it: in every room [buscar_asiento], [reservar_asiento]
    and [cancelar_reserva] raise [AsientoNoEncontradoError] for it, or
    [ValueError] when the row asked for cannot be written in the
    message. *)
Theorem asiento_nan (n : number) (fila : value) (f : number) (sala : t) :
  es_nan n = true -> validar_entrada fila = Ok f ->
  validar_entrada (VNum (precio_base sala)) = Ok (precio_base sala) ->
  agregar_asiento (VNum n) fila sala
  = (set_asientos
       (asientos sala
        ++ [Asiento.Build n f false (precio_base sala) (precio_base sala)])
       sala, Ok tt)
  /\ forall (otra : t) (e : exn),
       (se_escribe f /\ e = AsientoNoEncontradoError)
       \/ (~ se_escribe f /\ e = ValueError) ->
       buscar_asiento (VNum n) fila otra = (otra, Raise e)
       /\ (forall mayor dia : bool,
             reservar_asiento (VNum n) fila (VBool mayor) (VBool dia) otra
             = (otra, Raise e))
       /\ cancelar_reserva (VNum n) fila otra = (otra, Raise e).
Proof.
  intros Hn Hf Hp.
  assert (forall l, existsb (coincide n f) l = false) as Hex.
  { induction l as [|b l IH]; [reflexivity|]. cbn [existsb].
    unfold coincide at 1. now rewrite (eqb_nan n _ Hn), IH. }
  assert (se_escribe n) as Hsn
    by (apply se_escribe_no_entero; destruct n; [discriminate..|reflexivity]).
  assert (forall otra,
            buscar_asiento (VNum n) fila otra
            = (otra, Raise (lanza f n AsientoNoEncontradoError))) as Hb.
  { intros otra. rewrite buscar_asiento_eq, (validar_entrada_nan n Hn), Hf.
    cbn [rbind].
    now rewrite (proj2 (primero_None n f (asientos otra) 0) (Hex _)). }
  split.
  - rewrite agregar_asiento_eq, (validar_entrada_nan n Hn), Hf, Hex, Hp.
    reflexivity.
  - intros otra e He.
    assert (lanza f n AsientoNoEncontradoError = e) as E.
    { destruct He as [[Hsf ->]|[Hsf ->]].
      - now apply lanza_se_escribe.
      - apply lanza_no_se_escribe. tauto. }
    rewrite <- E. split; [apply Hb|]. split.
    + intros mayor dia. unfold reservar_asiento, bind, lift.
      cbn [validar_tipo_booleano]. now rewrite Hb.
    + unfold cancelar_reserva, bind. now rewrite Hb.
Qed.

Lemma asiento_nan_witness :
  agregar_asiento (VFloat nan) (VInt 1) sala_10
  = (set_asientos
       [Asiento.Build (NFloat nan) (NInt 1) false (NFloat 10) (NFloat 10)]
       sala_10, Ok tt)
  /\ buscar_asiento (VFloat nan) (VInt 1)
       (fst (agregar_asiento (VFloat nan) (VInt 1) sala_10))
     = (fst (agregar_asiento (VFloat nan) (VInt 1) sala_10),
        Raise AsientoNoEncontradoError).
Proof.
  pose proof (asiento_nan (NFloat nan) (VInt 1) (NInt 1) sala_10
                eq_refl eq_refl eq_refl) as [H1 H2].
  split; [exact H1|]. apply H2. left. split; [|reflexivity].
  eexists. reflexivity.
Defined.

(** [reservar_asiento] and [cancelar_reserva], case by case. *)
Lemma reservar_asiento_eq (numero fila es dia : value) (sala : t) :
  reservar_asiento numero fila es dia sala =
  match validar_tipo_booleano es, validar_tipo_booleano dia with
  | Ok _, Ok _ =>
      match snd (buscar_asiento numero fila sala) with
      | Ok (i, a) =>
          (set_asientos
             (<[i := fst (Asiento.reservar es dia a)]> (asientos sala)) sala,
           snd (Asiento.reservar es dia a))
      | Raise e => (sala, Raise e)
      end
  | Raise e, _ => (sala, Raise e)
  | Ok _, Raise e => (sala, Raise e)
  end.
Proof.
  unfold reservar_asiento, bind at 1 2, lift.
  destruct (validar_tipo_booleano es) as [b1|e1]; [|reflexivity].
  destruct (validar_tipo_booleano dia) as [b2|e2]; [|reflexivity].
  unfold bind, llamar. rewrite buscar_asiento_eq. cbn [fst snd].
  destruct (_ <- validar_entrada numero ;; _)%result as [[i a]|e];
    [|reflexivity].
  cbn [fst snd]. now destruct (Asiento.reservar es dia a).
Qed.

Lemma cancelar_reserva_sala_eq (numero fila : value) (sala : t) :
  cancelar_reserva numero fila sala =
  match snd (buscar_asiento numero fila sala) with
  | Ok (i, a) =>
      (set_asientos
         (<[i := fst (Asiento.cancelar_reserva a)]> (asientos sala)) sala,
       snd (Asiento.cancelar_reserva a))
  | Raise e => (sala, Raise e)
  end.
Proof.
  unfold cancelar_reserva, bind, llamar. rewrite buscar_asiento_eq.
  cbn [fst snd].
  destruct (_ <- validar_entrada numero ;; _)%result as [[i a]|e];
    [|reflexivity].
  cbn [fst snd]. now destruct (Asiento.cancelar_reserva a).
Qed.

(** What [buscar_asiento] found is a seat of the room. *)
Lemma buscar_asiento_Ok (numero fila : value) (sala : t) (i : nat) a :
  snd (buscar_asiento numero fila sala) = Ok (i, a) ->
  exists n f,
    validar_entrada numero = Ok n /\ validar_entrada fila = Ok f
    /\ primero n f 0 (asientos sala) = Some (i, a)
    /\ asientos sala !! i = Some a /\ coincide n f a = true.
Proof.
  rewrite buscar_asiento_eq. cbn [snd].
  destruct (validar_entrada numero) as [n|]; [|discriminate].
  destruct (validar_entrada fila) as [f|]; [|discriminate]. cbn [rbind].
  destruct (primero n f 0 (asientos sala)) as [[j b]|] eqn:Hp;
    [|discriminate].
  intros [= -> ->]. exists n, f.
  pose proof Hp as (k & -> & Hk & Hc & _)%primero_primero. auto.
Qed.

(** A seat replaced by one at the same place is found where it was. *)
Lemma primero_insert (n f : number) (l : list Asiento.t) (i : nat) a a' :
  primero n f 0 l = Some (i, a) -> coincide n f a' = true ->
  primero n f 0 (<[i := a']> l) = Some (i, a').
Proof.
  intros (k & -> & Hk & Ha & Hmin)%primero_primero Ha'. cbn [Nat.add].
  apply primero_primero. exists k. split; [reflexivity|]. split; [|split].
  - apply list_lookup_insert_eq. eauto using lookup_lt_Some.
  - exact Ha'.
  - intros k' b Hk' Hb. rewrite list_lookup_insert_ne in Hb by lia. eauto.
Qed.

Lemma int_of_str_raise (s : string) (e : exn) :
  int_of_str s = Raise e -> e = ValueError.
Proof.
  unfold int_of_str. destruct (_ <? _); [congruence|].
  destruct (match recorta es_blanco s with
            | EmptyString => _ | String _ _ => _ end); congruence.
Qed.

Lemma validar_entrada_int (z : Z) :
  validar_entrada (VInt z)
  = if (z <=? 0)%Z then Raise ValueError else Ok (NInt z).
Proof. reflexivity. Qed.

(** The body of the loop of [cargar_estado]: it raises [ValueError] and
    leaves the room as it was, or puts one seat behind the others. *)
Lemma cargar_linea_casos (linea : string) (sala : t) :
  cargar_linea linea sala = (sala, Raise ValueError)
  \/ exists (fs ns w ps : string) (n f : Z) (q : number),
       split_coma (strip linea) = [fs; ns; w; ps]
       /\ int_of_str ns = Ok n /\ int_of_str fs = Ok f
       /\ (0 < n)%Z /\ (0 < f)%Z
       /\ validar_entrada (VNum (precio_base sala)) = Ok (precio_base sala)
       /\ (if String.eqb w "Reservado"
           then calcular_precio (precio_base sala) (VBool false) (VBool false)
                = Ok q
           else q = precio_base sala)
       /\ cargar_linea linea sala
          = (set_asientos
               (asientos sala
                ++ [Asiento.Build (NInt n) (NInt f)
                      (String.eqb w "Reservado") (precio_base sala) q]) sala,
             Ok tt).
Proof.
  unfold cargar_linea.
  destruct (split_coma (strip linea)) as [|fs [|ns [|w [|ps [|x r]]]]];
    try (left; reflexivity).
  unfold bind, lift, get, modify, ret, en_nuevo.
  destruct (int_of_str ns) as [n|e] eqn:Hn;
    [|left; now rewrite (int_of_str_raise _ _ Hn)].
  destruct (int_of_str fs) as [f|e] eqn:Hf;
    [|left; now rewrite (int_of_str_raise _ _ Hf)].
  unfold Asiento.init. rewrite !validar_entrada_int.
  destruct (n <=? 0)%Z eqn:Hn0; [left; reflexivity|].
  destruct (f <=? 0)%Z eqn:Hf0; [left; reflexivity|].
  cbn [rbind].
  destruct (validar_entrada (VNum (precio_base sala))) as [p|e] eqn:Hp;
    [|left; now rewrite (validar_entrada_raise _ _ Hp)].
  pose proof Hp as [[= <-] _]%validar_entrada_Ok. cbn [rbind].
  apply Z.leb_gt in Hn0, Hf0.
  destruct (calcular_precio_sin_flags (precio_base sala)) as [q Hq].
  right. destruct (String.eqb w "Reservado") eqn:Hw.
  - exists fs, ns, w, ps, n, f, q. rewrite Hw, reservar_bool.
    cbn [Asiento.reservado Asiento.precio_base Asiento.numero Asiento.fila].
    rewrite Hq. auto 10.
  - exists fs, ns, w, ps, n, f, (precio_base sala). rewrite Hw. auto 10.
Qed.

Lemma leb_int_pos (z : Z) : (0 < z)%Z -> leb (NInt z) (NInt 0) = false.
Proof.
  intros H. unfold leb. cbn. now rewrite (proj2 (Z.compare_gt_iff z 0) H).
Qed.

Lemma cargar_linea_asiento (linea : string) (sala : t) :
  cargar_linea linea sala = (sala, Raise ValueError)
  \/ exists a,
       asiento_de_sala (precio_base sala) a
       /\ cargar_linea linea sala
          = (set_asientos (asientos sala ++ [a]) sala, Ok tt).
Proof.
  destruct (cargar_linea_casos linea sala)
    as [H|(fs & ns & w & ps & n & f & q & _ & _ & _ & Hn & Hf & _ & Hq & H)];
    [now left|right].
  eexists. split; [|exact H].
  unfold asiento_de_sala.
  cbn [Asiento.precio_base Asiento.numero Asiento.fila Asiento.reservado
       Asiento.precio_actual].
  rewrite !leb_int_pos by assumption. repeat split.
  destruct (String.eqb w "Reservado"); [|exact Hq].
  exists false, false. exact Hq.
Qed.

(** The loop of [cargar_estado]. *)
Lemma cargar_lineas_casos (l : list string) (sala : t) :
  exists (nuevos : list Asiento.t) (r : result unit),
    cargar_lineas l sala
    = (set_asientos (asientos sala ++ nuevos) sala, r)
    /\ Forall (asiento_de_sala (precio_base sala)) nuevos
    /\ ((r = Ok tt /\ length nuevos = length l)
        \/ (r = Raise ValueError /\ (length nuevos < length l)%nat)).
Proof.
  revert sala. induction l as [|linea l IH]; intros sala.
  - exists [], (Ok tt). cbn. unfold ret.
    rewrite app_nil_r, set_asientos_id. auto.
  - cbn [cargar_lineas]. unfold bind.
    destruct (cargar_linea_asiento linea sala) as [->|(a & Ha & ->)].
    + exists [], (Raise ValueError).
      rewrite app_nil_r, set_asientos_id. cbn. split; [reflexivity|].
      split; [constructor|right; split; [reflexivity|lia]].
    + destruct (IH (set_asientos (asientos sala ++ [a]) sala))
        as (nuevos & r & -> & Hall & Hr).
      exists (a :: nuevos), r. cbn [set_asientos asientos precio_base] in *.
      rewrite <- app_assoc. split; [reflexivity|].
      split; [now constructor|]. cbn [length].
      destruct Hr as [[-> Hl]|[-> Hl]]; [left|right]; split;
        try reflexivity; lia.
Qed.

(** Every operation keeps the seats of a room as seats of the room. *)
Lemma ejecutar_asiento_de_sala (op : operacion) (sala : t) :
  Forall (asiento_de_sala (precio_base sala)) (asientos sala) ->
  Forall (asiento_de_sala (precio_base (ejecutar op sala)))
    (asientos (ejecutar op sala)).
Proof.
  intros H.
  assert (precio_base (ejecutar op sala) = precio_base sala) as ->
    by (destruct (ejecutar_asientos op sala) as [l' ->]; reflexivity).
  destruct op as [n f|n f|n f es dia|n f| |txt]; cbn [ejecutar].
  - rewrite agregar_asiento_eq.
    destruct (validar_entrada n) as [n'|] eqn:Hn; [|exact H].
    destruct (validar_entrada f) as [f'|] eqn:Hf; [|exact H].
    destruct (existsb _ _); [exact H|].
    destruct (validar_entrada (VNum (precio_base sala))) as [p|] eqn:Hp;
      [|exact H].
    apply validar_entrada_Ok in Hn as [_ Hn], Hf as [_ Hf], Hp as [[= <-] _].
    cbn [fst set_asientos asientos]. apply Forall_app. split; [exact H|].
    constructor; [|constructor]. unfold asiento_de_sala. cbn. auto.
  - now rewrite buscar_asiento_eq.
  - rewrite reservar_asiento_eq.
    destruct (validar_tipo_booleano es) as [b1|e1]; [|exact H].
    destruct (validar_tipo_booleano dia) as [b2|e2]; [|exact H].
    destruct (snd (buscar_asiento n f sala)) as [[i a]|] eqn:Hb; [|exact H].
    apply buscar_asiento_Ok in Hb as (_ & _ & _ & _ & _ & Hi & _).
    cbn [fst set_asientos asientos]. apply Forall_insert; [exact H|].
    rewrite Forall_lookup in H. specialize (H _ _ Hi).
    destruct (Asiento.reservar es dia a) as [a' [[]|e]] eqn:Hr; cbn [fst].
    + apply reservar_ok in Hr as (mayor & d & p & _ & _ & _ & Hc & ->).
      destruct H as (Hpb & Hn & Hf & _). unfold asiento_de_sala. cbn.
      repeat split; auto. now exists mayor, d.
    + destruct (reservar_cases a es dia) as [[e' He]|(p & _ & He)];
        rewrite He in Hr; [|discriminate].
      now injection Hr as <- _.
  - rewrite cancelar_reserva_sala_eq.
    destruct (snd (buscar_asiento n f sala)) as [[i a]|] eqn:Hb; [|exact H].
    apply buscar_asiento_Ok in Hb as (_ & _ & _ & _ & _ & Hi & _).
    cbn [fst set_asientos asientos]. apply Forall_insert; [exact H|].
    rewrite Forall_lookup in H. specialize (H _ _ Hi).
    rewrite cancelar_reserva_eq.
    destruct (Asiento.reservado a); cbn [fst]; [|exact H].
    destruct H as (Hpb & Hn & Hf & _). unfold asiento_de_sala. cbn. auto.
  - exact H.
  - unfold cargar_estado.
    destruct (cargar_lineas_casos (lineas txt) sala)
      as (nuevos & r & -> & Hall & _).
    cbn [fst set_asientos asientos]. apply Forall_app. auto.
Qed.

Lemma alcanzable_asiento_de_sala (P : operacion -> Prop) (sala : t) :
  alcanzable P sala ->
  Forall (asiento_de_sala (precio_base sala)) (asientos sala).
Proof.
  induction 1 as [p d m sala Hi|op sala _ _ IH].
  - unfold init in Hi.
    destruct (validar_entrada p) as [p'|]; [|discriminate].
    destruct (validar_entrada d) as [d'|]; [|discriminate].
    destruct (validar_entrada m) as [m'|]; [|discriminate].
    cbn in Hi. destruct (_ || _); [discriminate|]. injection Hi as <-.
    constructor.
  - now apply ejecutar_asiento_de_sala.
Qed.

(** X10.  In every state a room reaches, whatever was called on it,
    [cargar_estado] included: the base price of the room passes the
    validation, and every seat has the base price of the room, a number and
    a row that pass the validation, the base price for price when it is
    free, and a price of [calcular_precio] on the base price when it is
    reserved. *)
Theorem sala_invariante (sala : t) :
  alcanzable cualquiera sala ->
  validar_entrada (VNum (precio_base sala)) = Ok (precio_base sala)
  /\ Forall (asiento_de_sala (precio_base sala)) (asientos sala).
Proof.
  intros H. split;
    [exact (alcanzable_precio_base _ _ H)
    |exact (alcanzable_asiento_de_sala _ _ H)].
Qed.

Lemma sala_invariante_witness :
  validar_entrada (VNum (precio_base sala_reservada))
  = Ok (precio_base sala_reservada)
  /\ Forall (asiento_de_sala (precio_base sala_reservada))
       (asientos sala_reservada).
Proof.
  apply sala_invariante.
  apply alc_ejecutar; [exact I|]. apply alc_ejecutar; [exact I|].
  apply sala_10_alcanzable.
Defined.

(** A method of the seat keeps what the seat is for good. *)
Lemma reservar_ficha (es dia : value) (a : Asiento.t) :
  ficha (fst (Asiento.reservar es dia a)) = ficha a.
Proof.
  destruct (reservar_cases a es dia) as [[e He]|(p & _ & He)];
    now rewrite He.
Qed.

Lemma cancelar_ficha (a : Asiento.t) :
  ficha (fst (Asiento.cancelar_reserva a)) = ficha a.
Proof. rewrite cancelar_reserva_eq. now destruct (Asiento.reservado a). Qed.

Lemma fmap_insert_ficha (l : list Asiento.t) (i : nat) (a a' : Asiento.t) :
  l !! i = Some a -> ficha a' = ficha a ->
  ficha <$> <[i := a']> l = ficha <$> l.
Proof.
  intros Hi Ha. rewrite list_fmap_insert, Ha. apply list_insert_id.
  now rewrite list_lookup_fmap, Hi.
Qed.

Lemma ejecutar_prefijo (op : operacion) (sala : t) :
  (ficha <$> asientos sala) `prefix_of` (ficha <$> asientos (ejecutar op sala)).
Proof.
  destruct op as [n f|n f|n f es dia|n f| |txt]; cbn [ejecutar].
  - rewrite agregar_asiento_eq.
    destruct (validar_entrada n) as [n'|]; [|reflexivity].
    destruct (validar_entrada f) as [f'|]; [|reflexivity].
    destruct (existsb _ _); [reflexivity|].
    destruct (validar_entrada (VNum (precio_base sala))); [|reflexivity].
    cbn [fst set_asientos asientos]. rewrite fmap_app.
    now apply prefix_app_r.
  - now rewrite buscar_asiento_eq.
  - rewrite reservar_asiento_eq.
    destruct (validar_tipo_booleano es) as [b1|e1]; [|reflexivity].
    destruct (validar_tipo_booleano dia) as [b2|e2]; [|reflexivity].
    destruct (snd (buscar_asiento n f sala)) as [[i a]|] eqn:Hb;
      [|reflexivity].
    apply buscar_asiento_Ok in Hb as (_ & _ & _ & _ & _ & Hi & _).
    cbn [fst set_asientos asientos].
    now rewrite (fmap_insert_ficha _ _ a) by auto using reservar_ficha.
  - rewrite cancelar_reserva_sala_eq.
    destruct (snd (buscar_asiento n f sala)) as [[i a]|] eqn:Hb;
      [|reflexivity].
    apply buscar_asiento_Ok in Hb as (_ & _ & _ & _ & _ & Hi & _).
    cbn [fst set_asientos asientos].
    now rewrite (fmap_insert_ficha _ _ a) by auto using cancelar_ficha.
  - reflexivity.
  - unfold cargar_estado.
    destruct (cargar_lineas_casos (lineas txt) sala)
      as (nuevos & r & -> & _).
    cbn [fst set_asientos asientos]. rewrite fmap_app.
    now apply prefix_app_r.
Qed.

(** X11.  The sequence of seats of a room only grows at its end: after
    any operations, whether they returned or raised, the seats the room had
    are the first seats of the room, in their order and each with the
    number, the row and the base price it had.  No operation removes a
    seat, moves one or changes the prices the room was built with. *)
Theorem asientos_solo_crecen (ops : list operacion) (sala : t) :
  (ficha <$> asientos sala)
    `prefix_of` (ficha <$> asientos (ejecutar_todas ops sala))
  /\ precio_base (ejecutar_todas ops sala) = precio_base sala
  /\ descuento_dia (ejecutar_todas ops sala) = descuento_dia sala
  /\ descuento_mayor_65 (ejecutar_todas ops sala) = descuento_mayor_65 sala.
Proof.
  revert sala. induction ops as [|op ops IH]; intros sala;
    cbn [ejecutar_todas foldl].
  - repeat split; reflexivity.
  - destruct (IH (ejecutar op sala)) as (H1 & H2 & H3 & H4).
    unfold ejecutar_todas in *. rewrite H2, H3, H4.
    split; [etrans; [apply (ejecutar_prefijo op)|exact H1]|].
    destruct (ejecutar_asientos op sala) as [l' ->]. repeat split.
Qed.

(** X12.  In every state a room reaches, a reservation that returned is
    undone by [cancelar_reserva] with the same number and row: it returns
    and the room is as it was before the reservation, seat by seat. *)
Theorem reservar_y_cancelar_en_sala (sala sala1 : t)
    (numero fila es_mayor_65 dia_espectador : value) :
  alcanzable cualquiera sala ->
  reservar_asiento numero fila es_mayor_65 dia_espectador sala
  = (sala1, Ok tt) ->
  cancelar_reserva numero fila sala1 = (sala, Ok tt).
Proof.
  intros Hinv%alcanzable_asiento_de_sala. rewrite reservar_asiento_eq.
  destruct (validar_tipo_booleano es_mayor_65) as [b1|e1]; [|discriminate].
  destruct (validar_tipo_booleano dia_espectador) as [b2|e2];
    [|discriminate].
  destruct (snd (buscar_asiento numero fila sala)) as [[i a]|] eqn:Hb;
    [|discriminate].
  apply buscar_asiento_Ok in Hb as (n & f & Hn & Hf & Hp & Hi & Hc).
  destruct (Asiento.reservar es_mayor_65 dia_espectador a) as [a' r] eqn:Hr.
  cbn [fst snd]. intros [= <- ->].
  apply reservar_ok in Hr as (mayor & d & p & _ & _ & Hlibre & _ & ->).
  rewrite Forall_lookup in Hinv.
  destruct (Hinv _ _ Hi) as (Hpb & _ & _ & Hpa). rewrite Hlibre in Hpa.
  rewrite cancelar_reserva_sala_eq, buscar_asiento_eq, Hn, Hf.
  cbn [rbind snd set_asientos asientos].
  rewrite (primero_insert n f _ i a _ Hp) by exact Hc.
  rewrite cancelar_reserva_eq. cbn [Asiento.reservado fst snd].
  cbn [Asiento.numero Asiento.fila Asiento.precio_base precio_base
       descuento_dia descuento_mayor_65].
  rewrite list_insert_insert_eq.
  assert (Asiento.Build (Asiento.numero a) (Asiento.fila a) false
            (Asiento.precio_base a) (Asiento.precio_base a) = a) as ->.
  { destruct a; cbn in *. congruence. }
  rewrite (list_insert_id _ _ _ Hi). now destruct sala.
Qed.

Lemma reservar_y_cancelar_en_sala_witness :
  cancelar_reserva (VInt 1) (VInt 1) sala_reservada = (sala_libre, Ok tt).
Proof.
  apply (reservar_y_cancelar_en_sala sala_libre sala_reservada
           (VInt 1) (VInt 1) (VBool true) (VBool true)).
  - apply alc_ejecutar; [exact I|]. apply sala_10_alcanzable.
  - reflexivity.
Defined.

(** X13.  The checks of [reservar_asiento] and [cancelar_reserva] come
    in this order: the two flags, which must be booleans, whether the seat
    exists or not; then the number and the row and the search, as
    [buscar_asiento] has them; then the state of the seat found, which
    raises [AsientoReservadoError] (on cancelling,
    [AsientoNoReservadoError]), or [ValueError] when the row or the number
    of that seat cannot be written in the message.  In each of these cases
    the room is as it was. *)
Theorem reservar_asiento_errores (numero fila es_mayor_65 dia_espectador : value)
    (sala : t) :
  (es_booleano es_mayor_65 && es_booleano dia_espectador = false ->
   reservar_asiento numero fila es_mayor_65 dia_espectador sala
   = (sala, Raise ValueError))
  /\ (es_booleano es_mayor_65 && es_booleano dia_espectador = true ->
      (forall e,
         snd (buscar_asiento numero fila sala) = Raise e ->
         reservar_asiento numero fila es_mayor_65 dia_espectador sala
         = (sala, Raise e))
      /\ (forall (i : nat) a,
            snd (buscar_asiento numero fila sala) = Ok (i, a) ->
            Asiento.reservado a = true ->
            (con_mensaje a ->
             reservar_asiento numero fila es_mayor_65 dia_espectador sala
             = (sala, Raise AsientoReservadoError))
            /\ (~ con_mensaje a ->
                reservar_asiento numero fila es_mayor_65 dia_espectador sala
                = (sala, Raise ValueError))))
  /\ (forall e,
        snd (buscar_asiento numero fila sala) = Raise e ->
        cancelar_reserva numero fila sala = (sala, Raise e))
  /\ (forall (i : nat) a,
        snd (buscar_asiento numero fila sala) = Ok (i, a) ->
        Asiento.reservado a = false ->
        (con_mensaje a ->
         cancelar_reserva numero fila sala
         = (sala, Raise AsientoNoReservadoError))
        /\ (~ con_mensaje a ->
            cancelar_reserva numero fila sala = (sala, Raise ValueError))).
Proof.
  rewrite reservar_asiento_eq, cancelar_reserva_sala_eq.
  split; [|split; [|split]].
  - destruct es_mayor_65 as [[b1| |]| |]; try reflexivity.
    destruct dia_espectador as [[b2| |]| |]; try reflexivity. discriminate.
  - destruct es_mayor_65 as [[b1| |]| |]; try discriminate.
    destruct dia_espectador as [[b2| |]| |]; try discriminate.
    intros _. cbn [validar_tipo_booleano]. split.
    + now intros e ->.
    + intros i a Hb Hr. rewrite Hb, reservar_bool, Hr. cbn [fst snd].
      apply buscar_asiento_Ok in Hb as (_ & _ & _ & _ & _ & Hi & _).
      rewrite (list_insert_id _ _ _ Hi), set_asientos_id. split.
      * intros [Hf Hn]. now rewrite lanza_se_escribe.
      * intros H. now rewrite lanza_no_se_escribe.
  - now intros e ->.
  - intros i a Hb Hr. rewrite Hb, cancelar_reserva_eq, Hr. cbn [fst snd].
    apply buscar_asiento_Ok in Hb as (_ & _ & _ & _ & _ & Hi & _).
    rewrite (list_insert_id _ _ _ Hi), set_asientos_id. split.
    + intros [Hf Hn]. now rewrite lanza_se_escribe.
    + intros H. now rewrite lanza_no_se_escribe.
Qed.

(** X14.  No method of the room reads the discounts the room was built
    with: on a room with other discounts, [agregar_asiento],
    [buscar_asiento], [reservar_asiento], [cancelar_reserva] and
    [cargar_estado] do the same to the seats, return the same and raise the
    same, and [guardar_estado] writes the same.  The discounts of a
    reservation are those of [calcular_precio]. *)
Theorem descuentos_sin_uso :
  (forall numero fila, ajeno (agregar_asiento numero fila))
  /\ (forall numero fila, ajeno (buscar_asiento numero fila))
  /\ (forall numero fila es_mayor_65 dia_espectador,
        ajeno (reservar_asiento numero fila es_mayor_65 dia_espectador))
  /\ (forall numero fila, ajeno (cancelar_reserva numero fila))
  /\ (forall archivo, ajeno (cargar_estado archivo))
  /\ (forall d m sala,
        guardar_estado (con_descuentos d m sala) = guardar_estado sala).
Proof.
  assert (forall numero fila, ajeno (buscar_asiento numero fila)) as Hb
    by (intros numero fila d m sala; now rewrite !buscar_asiento_eq).
  split; [|split; [exact Hb|split; [|split; [|split]]]].
  - intros numero fila d m sala. rewrite !agregar_asiento_eq.
    cbn [con_descuentos precio_base asientos].
    destruct (validar_entrada numero) as [n|]; [|reflexivity].
    destruct (validar_entrada fila) as [f|]; [|reflexivity].
    destruct (existsb _ _); [reflexivity|].
    now destruct (validar_entrada (VNum (precio_base sala))).
  - intros numero fila es dia d m sala. rewrite !reservar_asiento_eq, Hb.
    cbn [snd con_descuentos asientos].
    destruct (validar_tipo_booleano es) as [b1|e1]; [|reflexivity].
    destruct (validar_tipo_booleano dia) as [b2|e2]; [|reflexivity].
    now destruct (snd (buscar_asiento numero fila sala)) as [[i a]|].
  - intros numero fila d m sala. rewrite !cancelar_reserva_sala_eq, Hb.
    cbn [snd con_descuentos asientos].
    now destruct (snd (buscar_asiento numero fila sala)) as [[i a]|].
  - assert (forall linea, ajeno (cargar_linea linea)) as Hl.
    { intros linea d m sala. unfold cargar_linea.
      destruct (split_coma (strip linea)) as [|fs [|ns [|w [|ps [|x r]]]]];
        try reflexivity.
      unfold bind, lift, get, modify, ret, en_nuevo.
      destruct (int_of_str ns) as [n|]; [|reflexivity].
      destruct (int_of_str fs) as [f|]; [|reflexivity].
      cbn [con_descuentos precio_base].
      destruct (Asiento.init _ _ _) as [a|]; [|reflexivity].
      destruct (String.eqb w "Reservado"); [|reflexivity].
      now destruct (Asiento.reservar _ _ a) as [a' [[]|]]. }
    intros archivo d m sala. unfold cargar_estado.
    generalize (lineas archivo) as l. intros l. revert sala.
    induction l as [|linea l IH]; intros sala; [reflexivity|].
    cbn [cargar_lineas]. unfold bind. rewrite Hl.
    destruct (cargar_linea linea sala) as [s1 [[]|e]]; cbn [fst snd];
      [apply IH|reflexivity].
  - reflexivity.
Qed.

End MasSala.

(** ** The file *)

Section MasPersistencia.
Import SalaCine.
Local Open Scope string_scope.

(** The price of a reservation can be written when the base price can,
    and only then. *)
Lemma calcular_precio_rango (p q : number) (dia mayor : bool) :
  calcular_precio p (VBool dia) (VBool mayor) = Ok q ->
  en_rango q <-> en_rango p.
Proof.
  intros H. destruct (to_float p) as [x|e] eqn:Hp.
  - split; intros _; [now exists x|].
    destruct dia, mayor; unfold calcular_precio, mul, binop in H;
      cbn -[to_float Z.mul] in H;
      destruct p as [b|z|y]; cbn -[to_float Z.mul] in H;
      try rewrite Hp in H; cbn -[to_float Z.mul] in H;
      injection H as <-; try (eexists; reflexivity);
      rewrite Z.mul_1_r; now exists x.
  - assert (~ en_rango p) as Hn by (intros [y Hy]; congruence).
    destruct dia, mayor;
      try (rewrite calcular_precio_fuera_de_rango in H by auto;
           discriminate H).
    split; [|tauto]. unfold calcular_precio, mul, binop in H.
    destruct p as [b|z|y]; cbn -[to_float Z.mul] in H;
      injection H as <-; rewrite ?Z.mul_1_r; try exact (fun H => H).
    discriminate Hp.
Qed.

Lemma asiento_de_sala_rango (p : number) (a : Asiento.t) :
  asiento_de_sala p a -> en_rango (Asiento.precio_actual a) <-> en_rango p.
Proof.
  intros (Hp & _ & _ & H). destruct (Asiento.reservado a).
  - destruct H as (mayor & dia & H). rewrite Hp in H.
    exact (calcular_precio_rango _ _ _ _ H).
  - now rewrite H.
Qed.

(** When the line of a seat is written, and what is raised when it is
    not: the row and the number come before the price. *)
Lemma linea_de_casos (a : Asiento.t) :
  (con_mensaje a /\ en_rango (Asiento.precio_actual a)
   /\ exists linea, linea_de a = Ok linea)
  \/ (~ con_mensaje a /\ linea_de a = Raise ValueError)
  \/ (con_mensaje a /\ ~ en_rango (Asiento.precio_actual a)
      /\ linea_de a = Raise OverflowError).
Proof.
  unfold linea_de, con_mensaje, format_2f.
  destruct (str (Asiento.fila a)) as [sf|e] eqn:Ef; cbn [rbind].
  2:{ right. left. rewrite (str_raise _ _ Ef). split; [|reflexivity].
      intros [[s' Hs] _]. congruence. }
  destruct (str (Asiento.numero a)) as [sn|e] eqn:En; cbn [rbind].
  2:{ right. left. rewrite (str_raise _ _ En). split; [|reflexivity].
      intros [_ [s' Hs]]. congruence. }
  assert (se_escribe (Asiento.fila a) /\ se_escribe (Asiento.numero a))
    as Hc by (split; eexists; eassumption).
  destruct (to_float (Asiento.precio_actual a)) as [x|e] eqn:Ex; cbn [rbind].
  - left. split; [exact Hc|]. split; [now exists x|]. eauto.
  - right. right. rewrite (to_float_raise _ _ Ex).
    split; [exact Hc|]. split; [|reflexivity]. intros [y Hy]. congruence.
Qed.

(** The loop of [guardar_estado] stops at the first seat whose line is
    not written. *)
Lemma escribir_parcial (l : list Asiento.t) (f0 : string) :
  exists (antes resto : list Asiento.t) (escritas : list string),
    l = (antes ++ resto)%list
    /\ Forall2 (fun a linea => linea_de a = Ok linea) antes escritas
    /\ fst (escribir l f0) = f0 ++ unir escritas
    /\ match resto with
       | [] => snd (escribir l f0) = Ok tt
       | a :: _ =>
           exists e, linea_de a = Raise e /\ snd (escribir l f0) = Raise e
       end.
Proof.
  revert f0. induction l as [|a l IH]; intros f0.
  - exists [], [], []. cbn. unfold ret. cbn. rewrite append_nil_r.
    repeat split. constructor.
  - cbn [escribir]. unfold bind, lift, modify.
    destruct (linea_de a) as [linea|e] eqn:Ha.
    + destruct (IH (f0 ++ linea)) as (antes & resto & escritas & -> & Hall & Ht & Hr).
      exists (a :: antes), resto, (linea :: escritas).
      split; [reflexivity|]. split; [now constructor|].
      split; [|exact Hr].
      rewrite Ht. cbn [unir fold_right]. apply append_assoc.
    + exists [], (a :: l), []. cbn. rewrite append_nil_r.
      repeat split; [constructor|]. now exists e.
Qed.

(** X15.  [guardar_estado] writes the lines of the seats in their order
    and stops at the first one it cannot write, leaving the file, which it
    has opened for writing, with the lines of the seats before.  The line
    of a seat is not written when its row or its number cannot be written,
    where [ValueError] is raised, or else when its price is an integer
    beyond the floats, where [OverflowError] is; nothing else is raised.
    In a state a room reaches, the prices can be written if and only if the
    base price of the room can: if it cannot and the first seat has a row
    and a number that can be written, the file is left empty. *)
Theorem guardar_estado_parcial (sala : t) :
  (exists (antes resto : list Asiento.t) (escritas : list string),
     asientos sala = (antes ++ resto)%list
     /\ Forall2 (fun a linea => linea_de a = Ok linea) antes escritas
     /\ fst (guardar_estado sala) = unir escritas
     /\ match resto with
        | [] => snd (guardar_estado sala) = Ok tt
        | a :: _ =>
            (~ con_mensaje a
             /\ snd (guardar_estado sala) = Raise ValueError)
            \/ (con_mensaje a /\ ~ en_rango (Asiento.precio_actual a)
                /\ snd (guardar_estado sala) = Raise OverflowError)
        end)
  /\ (Forall (fun a => con_mensaje a /\ en_rango (Asiento.precio_actual a))
        (asientos sala) ->
      snd (guardar_estado sala) = Ok tt)
  /\ (alcanzable cualquiera sala ->
      forall a, a ∈ asientos sala ->
        en_rango (Asiento.precio_actual a) <-> en_rango (precio_base sala))
  /\ (alcanzable cualquiera sala -> ~ en_rango (precio_base sala) ->
      forall a resto,
        asientos sala = a :: resto -> con_mensaje a ->
        guardar_estado sala = ("", Raise OverflowError)).
Proof.
  split; [|split; [|split]].
  - unfold guardar_estado.
    destruct (escribir_parcial (asientos sala) "")
      as (antes & resto & escritas & Hl & Hall & Ht & Hr).
    exists antes, resto, escritas. split; [exact Hl|]. split; [exact Hall|].
    split; [exact Ht|]. destruct resto as [|a resto]; [exact Hr|].
    destruct Hr as (e & He & ->).
    destruct (linea_de_casos a) as [(_ & _ & linea & H)|[[H1 H]|(H1 & H2 & H)]];
      rewrite H in He; [discriminate He|left|right]; injection He as <-; auto.
  - intros Hall. unfold guardar_estado.
    destruct (escribir_lineas (asientos sala) "") as (escritas & -> & _);
      [|reflexivity].
    eapply Forall_impl; [exact Hall|]. intros a [[H1 H2] H3]. auto.
  - intros Hinv%alcanzable_asiento_de_sala a Ha.
    rewrite Forall_forall in Hinv. apply asiento_de_sala_rango. auto.
  - intros Hinv%alcanzable_asiento_de_sala Hp a resto Hl Hc.
    unfold guardar_estado. rewrite Hl in *.
    apply Forall_cons in Hinv as [Ha _]. cbn [escribir]. unfold bind, lift.
    destruct (linea_de_casos a) as [(_ & H & _)|[[H _]|(_ & _ & ->)]].
    + destruct Hp. now apply (asiento_de_sala_rango _ _ Ha).
    + tauto.
    + reflexivity.
Qed.

Lemma guardar_estado_parcial_witness :
  snd (guardar_estado sala_reservada) = Ok tt.
Proof.
  apply (proj1 (proj2 (guardar_estado_parcial sala_reservada))).
  repeat constructor; try (eexists; reflexivity).
Defined.

(** The lines of a text that has an end of line inside. *)
Lemma lineas_nil (s : string) : lineas s = [] -> s = "".
Proof.
  destruct s as [|c s]; [reflexivity|]. cbn [lineas].
  destruct (Ascii.eqb c (ascii_of_nat 10)); [discriminate|].
  destruct (lineas s); discriminate.
Qed.

Lemma lineas_nl_app (t1 t2 : string) :
  lineas (t1 ++ nl ++ t2) = (lineas (t1 ++ nl) ++ lineas t2)%list.
Proof.
  induction t1 as [|c t1 IH]; [reflexivity|].
  cbn [append lineas]. rewrite IH.
  destruct (Ascii.eqb c (ascii_of_nat 10)); [reflexivity|].
  destruct (lineas (t1 ++ nl)) as [|w ws] eqn:E; [|reflexivity].
  apply lineas_nil in E. destruct t1; discriminate E.
Qed.

Lemma cargar_lineas_app (l1 l2 : list string) (sala : t) :
  cargar_lineas (l1 ++ l2)%list sala
  = match cargar_lineas l1 sala with
    | (sala1, Ok _) => cargar_lineas l2 sala1
    | (sala1, Raise e) => (sala1, Raise e)
    end.
Proof.
  revert sala. induction l1 as [|linea l1 IH]; intros sala; [reflexivity|].
  cbn [app cargar_lineas]. unfold bind.
  destruct (cargar_linea linea sala) as [s1 [[]|e]]; [apply IH|reflexivity].
Qed.

(** X16.  [cargar_estado] takes the file line by line: what it does with
    a text that goes on after an end of line is what it does with the text
    up to there and then, when that returned, what it does with the rest in
    the room it left; when a line raises, the seats of the lines before it
    stay in the room and the lines after it are not read.  An empty line
    raises [ValueError], so does the file with an empty line at its end,
    after its seats were added; the empty file adds nothing and returns. *)
Theorem cargar_estado_por_lineas (t1 t2 : string) (sala : t) :
  cargar_estado (t1 ++ nl ++ t2) sala
  = match cargar_estado (t1 ++ nl) sala with
    | (sala1, Ok _) => cargar_estado t2 sala1
    | (sala1, Raise e) => (sala1, Raise e)
    end
  /\ cargar_estado (nl ++ t2) sala = (sala, Raise ValueError)
  /\ cargar_estado (t1 ++ nl ++ nl ++ t2) sala
     = (fst (cargar_estado (t1 ++ nl) sala), Raise ValueError)
  /\ cargar_estado "" sala = (sala, Ok tt).
Proof.
  assert (forall t s,
            cargar_estado (t1 ++ nl ++ t) s
            = match cargar_estado (t1 ++ nl) s with
              | (sala1, Ok _) => cargar_estado t sala1
              | (sala1, Raise e) => (sala1, Raise e)
              end) as H
    by (intros t s; unfold cargar_estado;
        now rewrite lineas_nl_app, cargar_lineas_app).
  assert (forall t s, cargar_estado (nl ++ t) s = (s, Raise ValueError))
    as Hnl by reflexivity.
  split; [apply H|]. split; [apply Hnl|]. split; [|reflexivity].
  rewrite H. unfold cargar_estado at 1 3.
  destruct (cargar_lineas_casos (lineas (t1 ++ nl)) sala)
    as (nuevos & r & -> & _ & [[-> _]|[-> _]]); cbn [fst].
  - apply Hnl.
  - reflexivity.
Qed.

(** X17.  A line [row,number,word,price] whose row and number are
    integers in decimal: when both are above 0 and have at most 4300
    digits, the seat is put behind the others with the base price of the
    room, whatever the text of the price, which is not read; it is reserved
    when the word is [Reservado] to the letter, at the price
    [calcular_precio] gives without discounts, and free at the base price
    with any other word.  When one is not above 0 or has more digits, the
    line raises [ValueError] and adds nothing. *)
Theorem cargar_linea_estado (n f : Z) (w p : string) (sala : t) :
  todos de_campo w = true -> todos de_campo p = true ->
  validar_entrada (VNum (precio_base sala)) = Ok (precio_base sala) ->
  ((0 < n /\ 0 < f
    /\ cifras n <= max_str_digits /\ cifras f <= max_str_digits)%Z ->
   exists q,
     cargar_linea (decimal f ++ "," ++ decimal n ++ "," ++ w ++ "," ++ p ++ nl)
       sala
     = (set_asientos
          (asientos sala
           ++ [Asiento.Build (NInt n) (NInt f) (String.eqb w "Reservado")
                 (precio_base sala) q]) sala, Ok tt)
     /\ (if String.eqb w "Reservado"
         then calcular_precio (precio_base sala) (VBool false) (VBool false)
              = Ok q
         else q = precio_base sala))
  /\ ((n <= 0 \/ f <= 0
       \/ max_str_digits < cifras n \/ max_str_digits < cifras f)%Z ->
      cargar_linea (decimal f ++ "," ++ decimal n ++ "," ++ w ++ "," ++ p ++ nl)
        sala
      = (sala, Raise ValueError)).
Proof.
  intros Hw Hp Hv.
  destruct (linea_formato_cuerpo w w
              (Asiento.Build (NInt n) (NInt f) false (NInt 0) (NInt 0)) p)
    as (cuerpo & Hl & Hs & Hsplit); auto.
  unfold linea_formato in Hl.
  cbn [Asiento.fila Asiento.numero Asiento.reservado texto] in Hl, Hsplit.
  rewrite Hl. unfold cargar_linea. rewrite (strip_linea _ Hs), Hsplit.
  unfold bind, lift, get, modify, ret, en_nuevo. split.
  - intros (Hn & Hf & Hcn & Hcf).
    rewrite !int_of_str_decimal by assumption. unfold Asiento.init.
    rewrite !validar_entrada_int, Hv.
    rewrite (proj2 (Z.leb_gt n 0) Hn), (proj2 (Z.leb_gt f 0) Hf).
    cbn [rbind].
    destruct (calcular_precio_sin_flags (precio_base sala)) as [q Hq].
    destruct (String.eqb w "Reservado").
    + exists q. rewrite reservar_bool.
      cbn [Asiento.reservado Asiento.precio_base Asiento.numero Asiento.fila].
      now rewrite Hq.
    + now exists (precio_base sala).
  - intros H.
    destruct (Z.ltb_spec max_str_digits (cifras n)) as [Hcn|Hcn];
      [now rewrite int_of_str_cifras|].
    rewrite (int_of_str_decimal n) by assumption.
    destruct (Z.ltb_spec max_str_digits (cifras f)) as [Hcf|Hcf];
      [now rewrite int_of_str_cifras|].
    rewrite (int_of_str_decimal f) by assumption. unfold Asiento.init.
    rewrite !validar_entrada_int, Hv.
    destruct (n <=? 0)%Z eqn:Hn; [reflexivity|].
    destruct (f <=? 0)%Z eqn:Hf; [reflexivity|].
    apply Z.leb_gt in Hn, Hf. lia.
Qed.

Lemma cargar_linea_estado_witness :
  exists q,
    cargar_linea ("2,1,reservado,gratis" ++ nl) sala_10
    = (set_asientos
         [Asiento.Build (NInt 1) (NInt 2) false (NFloat 10) q] sala_10, Ok tt)
    /\ q = NFloat 10.
Proof.
  apply (proj1 (cargar_linea_estado 1 2 "reservado" "gratis" sala_10
                  eq_refl eq_refl eq_refl)).
  repeat split; try reflexivity; apply Z.leb_le; reflexivity.
Defined.

(** X18.  [cargar_estado] raises nothing but [ValueError], whatever the
    text and the room.  The seats the room had stay as they were, at the
    head of the sequence; behind them comes one seat for each line read
    before the file ended or a line raised, each with the base price of the
    room, a number and a row that pass the validation, and the price of a
    seat of the room: the base price when free, a price of
    [calcular_precio] when reserved. *)
Theorem cargar_estado_excepciones (archivo : string) (sala : t) :
  exists nuevos : list Asiento.t,
    fst (cargar_estado archivo sala)
    = set_asientos (asientos sala ++ nuevos) sala
    /\ Forall (asiento_de_sala (precio_base sala)) nuevos
    /\ ((snd (cargar_estado archivo sala) = Ok tt
         /\ length nuevos = length (lineas archivo))
        \/ (snd (cargar_estado archivo sala) = Raise ValueError
            /\ (length nuevos < length (lineas archivo))%nat)).
Proof.
  unfold cargar_estado.
  destruct (cargar_lineas_casos (lineas archivo) sala)
    as (nuevos & r & -> & Hall & Hr).
  exists nuevos. cbn [fst snd]. auto.
Qed.

End MasPersistencia.

(** ** The constructor of the room and the errors of state, NaN and long
    numbers apart *)

(** X19.  The constructor of the room raises [ValueError] when one of
    its three arguments is not a number, or is a number other than NaN that
    is not strictly positive (a discount of 0 included), or when a discount
    exceeds 1, whatever the other arguments are; it returns a room without
    seats, with the three values given, when the three are strictly
    positive and both discounts are at most 1. *)
Theorem sala_init_valida (precio_base descuento_dia descuento_mayor_65 : value) :
  ((sin_nan precio_base /\ positivo precio_base = false)
   \/ (sin_nan descuento_dia /\ positivo descuento_dia = false)
   \/ (sin_nan descuento_mayor_65 /\ positivo descuento_mayor_65 = false)
   \/ excede_uno descuento_dia = true
   \/ excede_uno descuento_mayor_65 = true ->
   SalaCine.init precio_base descuento_dia descuento_mayor_65
   = Raise ValueError)
  /\ (positivo precio_base = true /\ positivo descuento_dia = true /\
      positivo descuento_mayor_65 = true /\
      a_lo_mas_uno descuento_dia = true /\
      a_lo_mas_uno descuento_mayor_65 = true ->
      exists p d m,
        precio_base = VNum p /\ descuento_dia = VNum d /\
        descuento_mayor_65 = VNum m /\
        SalaCine.init precio_base descuento_dia descuento_mayor_65
        = Ok (SalaCine.Build p d m [])).
Proof.
  assert (forall v, sin_nan v -> positivo v = false ->
                    validar_entrada v = Raise ValueError) as Hno.
  { intros v Hv Hp. rewrite validar_entrada_positivo by exact Hv.
    rewrite Hp. now destruct v. }
  assert (forall v, validar_entrada v = Raise ValueError
                    \/ exists n, v = VNum n /\ validar_entrada v = Ok n)
    as Hcasos.
  { intros v. destruct (validar_entrada v) as [n|e] eqn:E.
    - right. exists n. now apply validar_entrada_Ok in E as [-> _].
    - left. now rewrite (validar_entrada_raise _ _ E). }
  unfold SalaCine.init. split.
  - intros H.
    destruct (Hcasos precio_base) as [->|(p & -> & Ep)]; [reflexivity|].
    destruct (Hcasos descuento_dia) as [Ed|(d & -> & Ed)];
      [now rewrite Ep, Ed|].
    destruct (Hcasos descuento_mayor_65) as [Em|(m & -> & Em)];
      [now rewrite Ep, Ed, Em|].
    destruct H as [[H1 H2]|[[H1 H2]|[[H1 H2]|H]]].
    + now rewrite (Hno _ H1 H2) in Ep.
    + now rewrite (Hno _ H1 H2) in Ed.
    + now rewrite (Hno _ H1 H2) in Em.
    + rewrite Ep, Ed, Em. cbn [rbind excede_uno] in *.
      destruct H as [-> | ->]; [reflexivity|now rewrite orb_true_r].
  - intros (H1 & H2 & H3 & H4 & H5).
    destruct precio_base as [p| |]; try discriminate.
    destruct descuento_dia as [d| |]; try discriminate.
    destruct descuento_mayor_65 as [m| |]; try discriminate.
    cbn [positivo a_lo_mas_uno validar_entrada] in *.
    rewrite (gtb_true_leb _ _ H1), (gtb_true_leb _ _ H2),
      (gtb_true_leb _ _ H3). cbn [rbind].
    rewrite (leb_true_gtb _ _ H4), (leb_true_gtb _ _ H5). cbn.
    exists p, d, m. auto.
Qed.

Section MasErrores.
Import Asiento.

(** X20.  On a seat whose row and number can be written, with two
    booleans, [reservar] raises [AsientoReservadoError] if and only if the
    seat is reserved when it is called, and [cancelar_reserva] raises
    [AsientoNoReservadoError] if and only if it is not, whatever the state
    of the seat is otherwise. *)
Theorem errores_de_estado (a : t) (mayor dia : bool) :
  con_mensaje a ->
  (snd (reservar (VBool mayor) (VBool dia) a) = Raise AsientoReservadoError
   <-> reservado a = true)
  /\ (snd (cancelar_reserva a) = Raise AsientoNoReservadoError
      <-> reservado a = false).
Proof.
  intros [Hf Hn]. rewrite reservar_bool, cancelar_reserva_eq.
  rewrite !lanza_se_escribe by assumption. split.
  - destruct (reservado a); [easy|].
    destruct (calcular_precio _ _ _) eqn:Hc; cbn; [easy|].
    apply calcular_precio_raise in Hc as ->. easy.
  - destruct (reservado a); easy.
Qed.

Lemma errores_de_estado_witness :
  snd (cancelar_reserva asiento_1_1) = Raise AsientoNoReservadoError.
Proof.
  apply (proj2 (errores_de_estado asiento_1_1 false false
                  (conj (ex_intro _ "1"%string eq_refl)
                        (ex_intro _ "1"%string eq_refl)))).
  reflexivity.
Defined.

End MasErrores.
